(** * LocalEats: the multi-agent recommendation pipeline

    A shallow embedding of the Python sources under [src/app]:
    - [agents/orchestrator.py], [agents/researcher.py], [agents/retriever.py],
      [agents/reviewer.py], [agents/input_validator.py],
      [agents/intent_agent .py], [models/agent_message.py],
    - [utils/analyst_clean.py], [utils/geo_utils.py], [utils/cortex_helper.py],
      [utils/smart_location_handler.py], [config.py].

    Conventions.
    - Python [str] is [string]; the text is taken to be 7-bit ASCII (the
      character classes of [str.strip], [str.lower] and of the [re] module
      are written out for code points below 128).
    - Python objects coming from JSON are values of [pyval]; a [dict] with
      string keys is a [gmap string pyval].
    - A pandas DataFrame is a list of column names with a list of rows.
    - Calls to the Snowflake session are the one effect of the program; they
      are the nodes of the interaction type [Eff].  Streamlit display calls
      return nothing the program reads and are left out, except where the
      text they format can raise.
    - Python floats that are literals of the program are rationals. *)

From Stdlib Require Import ZArith QArith String Ascii List Lia Permutation.
From stdpp Require Import base option list gmap strings fin_maps.

Set Warnings "-register-all".
Close Scope Q_scope.
Open Scope string_scope.
Open Scope Z_scope.

(* ===================================================================== *)
(** * Python strings *)
(* ===================================================================== *)

Module PyString.

Definition code (c : ascii) : nat := nat_of_ascii c.

(** [str.isspace] on ASCII: TAB, LF, VT, FF, CR, FS, GS, RS, US and SPACE. *)
Definition is_space (c : ascii) : bool :=
  let n := code c in
  ((9 <=? n) && (n <=? 13) || (28 <=? n) && (n <=? 32))%nat.

Definition is_upper (c : ascii) : bool :=
  let n := code c in ((65 <=? n) && (n <=? 90))%nat.

Definition is_lower (c : ascii) : bool :=
  let n := code c in ((97 <=? n) && (n <=? 122))%nat.

Definition is_digit (c : ascii) : bool :=
  let n := code c in ((48 <=? n) && (n <=? 57))%nat.

Definition lower_char (c : ascii) : ascii :=
  if is_upper c then ascii_of_nat (code c + 32) else c.

Definition upper_char (c : ascii) : ascii :=
  if is_lower c then ascii_of_nat (code c - 32) else c.

(** [s.lower()] *)
Fixpoint lower (s : string) : string :=
  match s with
  | EmptyString => EmptyString
  | String c s' => String (lower_char c) (lower s')
  end.

(** [s.lstrip()] *)
Fixpoint lstrip (s : string) : string :=
  match s with
  | EmptyString => EmptyString
  | String c s' => if is_space c then lstrip s' else s
  end.

(** [s.rstrip()] *)
Fixpoint rstrip (s : string) : string :=
  match s with
  | EmptyString => EmptyString
  | String c s' =>
      match rstrip s' with
      | EmptyString => if is_space c then EmptyString else String c EmptyString
      | r => String c r
      end
  end.

(** [s.strip()] *)
Definition strip (s : string) : string := lstrip (rstrip s).

(** Truth value of a string: [bool(s)]. *)
Definition nonempty (s : string) : bool :=
  match s with EmptyString => false | _ => true end.

(** [s.replace(old, new)] for a one-character [old]. *)
Fixpoint replace_char (old : ascii) (new : string) (s : string) : string :=
  match s with
  | EmptyString => EmptyString
  | String c s' =>
      if Ascii.eqb c old then new ++ replace_char old new s'
      else String c (replace_char old new s')
  end.

(** [sub in s] *)
Fixpoint contains (sub s : string) : bool :=
  String.prefix sub s ||
  match s with
  | EmptyString => false
  | String _ s' => contains sub s'
  end.

(** [s.split(sep, 1)]: the text before and after the first occurrence of a
    non-empty [sep], or [None] when [sep] does not occur. *)
Fixpoint split_once (sep s : string) : option (string * string) :=
  if String.prefix sep s then
    Some (EmptyString, String.substring (String.length sep)
                         (String.length s - String.length sep) s)
  else
    match s with
    | EmptyString => None
    | String c s' =>
        match split_once sep s' with
        | Some (a, b) => Some (String c a, b)
        | None => None
        end
    end.

(** No character of [s] is white space. *)
Fixpoint no_space (s : string) : bool :=
  match s with
  | EmptyString => true
  | String c s' => negb (is_space c) && no_space s'
  end.

(** [s.title()]: a letter is upper-cased after a non-letter and lower-cased
    after a letter. *)
Fixpoint title_from (after_letter : bool) (s : string) : string :=
  match s with
  | EmptyString => EmptyString
  | String c s' =>
      let letter := is_upper c || is_lower c in
      String (if after_letter then lower_char c else upper_char c)
             (title_from letter s')
  end.

Definition title (s : string) : string := title_from false s.

(** [sep.join(l)] *)
Fixpoint join (sep : string) (l : list string) : string :=
  match l with
  | [] => EmptyString
  | [x] => x
  | x :: rest => x ++ sep ++ join sep rest
  end.

(** Every single quote of [s] is escaped, that is, every maximal run of
    quote characters has even length; [pending] says that an unpaired
    quote stands just before [s]. *)
Fixpoint quote_runs_even (pending : bool) (s : string) : bool :=
  match s with
  | EmptyString => negb pending
  | String c s' =>
      if Ascii.eqb c "'"%char then quote_runs_even (negb pending) s'
      else negb pending && quote_runs_even false s'
  end.

Definition quotes_escaped (s : string) : bool := quote_runs_even false s.

(** A token in canonical form: non-empty, trimmed, lower case. *)
Definition canonical_token (t : string) : Prop :=
  t <> EmptyString /\ strip t = t /\ lower t = t.

End PyString.

(* ===================================================================== *)
(** * Python values *)
(* ===================================================================== *)

(** The objects [json.loads] produces, which are also the objects the UI
    passes around: [None], booleans, numbers, strings, lists and dicts. *)
Inductive pyval : Type :=
| PNone
| PBool (b : bool)
| PInt (z : Z)
| PFloat (q : Q)
| PStr (s : string)
| PList (l : list pyval)
| PDict (d : gmap string pyval).

(** A cell of a result table: SQL NULL / NaN, a boolean, a number, a text. *)
Inductive cell : Type :=
| CNull
| CBool (b : bool)
| CNum (q : Q)
| CStr (s : string).

Record DataFrame : Type := mkDataFrame {
  columns : list string;
  rows : list (list cell)
}.

(** Built-in conversions of the Python runtime and of the libraries the
    program calls, whose results the program uses without looking inside:
    - [py_repr]: the rendering [str(x)] of numbers and containers;
    - [py_int_of_str]: the parser behind [int(s)], [None] when it raises;
    - [json_loads]: [json.loads], [None] when it raises;
    - [str_to_numeric]: the string-to-number coercion of [pandas.to_numeric]
      with [errors=coerce], [None] for NaN;
    - [sort_values]: [df.sort_values(column, ascending=...)], [None] when it
      raises;
    - [with_distance]: the two distance columns the retriever adds from the
      user's coordinates (floating-point trigonometry), [None] when it raises;
    - [analyst_prompt]: the prompt template of the query analyst, an f-string
      around the query. *)
Class Builtins : Type := {
  py_repr : pyval -> string;
  py_int_of_str : string -> option Z;
  json_loads : string -> option pyval;
  str_to_numeric : string -> option Q;
  sort_values : string -> bool -> DataFrame -> option DataFrame;
  with_distance : gmap string pyval -> DataFrame -> option DataFrame;
  analyst_prompt : string -> string
}.

Section Values.
Context `{Builtins}.

(** [str(x)] *)
Definition py_str (x : pyval) : string :=
  match x with
  | PStr s => s
  | PNone => "None"
  | PBool true => "True"
  | PBool false => "False"
  | _ => py_repr x
  end.

(** [bool(x)] *)
Definition py_truthy (x : pyval) : bool :=
  match x with
  | PNone => false
  | PBool b => b
  | PInt z => negb (z =? 0)
  | PFloat q => negb (Qeq_bool q 0)
  | PStr s => PyString.nonempty s
  | PList l => match l with [] => false | _ => true end
  | PDict d => negb (Nat.eqb (size d) 0)
  end.

(** [int(x)], [None] when Python raises. *)
Definition py_int (x : pyval) : option Z :=
  match x with
  | PInt z => Some z
  | PBool b => Some (if b then 1 else 0)
  | PFloat q => Some (Z.quot (Qnum q) (Z.pos (Qden q)))
  | PStr s => py_int_of_str s
  | _ => None
  end.

(** [d.get(k)] and [d.get(k, default)] *)
Definition dict_get (d : gmap string pyval) (k : string) : pyval :=
  default PNone (d !! k).

Definition dict_get_default (d : gmap string pyval) (k : string) (dflt : pyval) : pyval :=
  default dflt (d !! k).

End Values.

(* ===================================================================== *)
(** * Filter normalisation (orchestrator.py and researcher.py) *)
(* ===================================================================== *)

(** A list of [str] as a Python object. *)
Definition str_list (l : list string) : pyval := PList (PStr <$> l).

Section Filters.
Context `{Builtins}.

(** [_ensure_list]; the definitions in orchestrator.py and researcher.py
    are the same function. *)
Definition _ensure_list (x : pyval) : list string :=
  match x with
  | PNone => []
  | PList l =>
      (fun v => PyString.lower (PyString.strip (py_str v))) <$>
        filter (fun v => PyString.nonempty (PyString.strip (py_str v)) = true) l
  | PStr s =>
      let s' := PyString.strip s in
      if PyString.nonempty s' then [PyString.lower s'] else []
  | _ => [PyString.lower (PyString.strip (py_str x))]
  end.

(** The dict literal both normalisers return. *)
Definition filter_dict (dietary meal_time accessibility service_type special_needs : list string)
  : gmap string pyval :=
  <["dietary" := str_list dietary]>
  (<["meal_time" := str_list meal_time]>
  (<["accessibility" := str_list accessibility]>
  (<["service_type" := str_list service_type]>
  (<["special_needs" := str_list special_needs]> ∅)))).

(** orchestrator.py, [_normalize_filters]. *)
Definition _normalize_filters (filters : option (gmap string pyval)) : gmap string pyval :=
  let filters := default ∅ filters in
  let service_val := dict_get_default filters "service_type" (dict_get filters "service") in
  let special_val := dict_get_default filters "special_needs" (dict_get filters "special") in
  filter_dict
    (_ensure_list (dict_get filters "dietary"))
    (_ensure_list (dict_get filters "meal_time"))
    (_ensure_list (dict_get filters "accessibility"))
    (_ensure_list service_val)
    (_ensure_list special_val).

(** researcher.py, [_normalize_attribute_filters]. *)
Definition _normalize_attribute_filters (attribute_filters : option (gmap string pyval))
  : gmap string pyval :=
  match attribute_filters with
  | None => filter_dict [] [] [] [] []
  | Some attribute_filters =>
      if Nat.eqb (size attribute_filters) 0 then filter_dict [] [] [] [] []
      else
        let service_val :=
          dict_get_default attribute_filters "service_type" (dict_get attribute_filters "service") in
        let special_val :=
          dict_get_default attribute_filters "special_needs" (dict_get attribute_filters "special") in
        let dietary := _ensure_list (dict_get attribute_filters "dietary") in
        let meal_time := _ensure_list (dict_get attribute_filters "meal_time") in
        let accessibility := _ensure_list (dict_get attribute_filters "accessibility") in
        let service_type := _ensure_list service_val in
        let special_needs := _ensure_list special_val in
        let service_type :=
          match attribute_filters !! "service", service_type with
          | Some _, [] => _ensure_list (dict_get attribute_filters "service")
          | _, _ => service_type
          end in
        let special_needs :=
          match attribute_filters !! "special", special_needs with
          | Some _, [] => _ensure_list (dict_get attribute_filters "special")
          | _, _ => special_needs
          end in
        filter_dict dietary meal_time accessibility service_type special_needs
  end.

(** What is known of [str] on the objects [py_repr] renders (numbers and
    containers): the text is never blank. *)
Definition repr_nonblank : Prop :=
  forall v : pyval,
    match v with
    | PInt _ | PFloat _ | PList _ | PDict _ =>
        PyString.strip (py_repr v) <> EmptyString
    | _ => True
    end.

(** The five-slot FilterSet form: exactly the five named slots, each a list
    of canonical tokens. *)
Definition is_filterset (d : gmap string pyval) : Prop :=
  exists l1 l2 l3 l4 l5 : list string,
    d = filter_dict l1 l2 l3 l4 l5 /\
    Forall PyString.canonical_token l1 /\ Forall PyString.canonical_token l2 /\
    Forall PyString.canonical_token l3 /\ Forall PyString.canonical_token l4 /\
    Forall PyString.canonical_token l5.

End Filters.

(* ===================================================================== *)
(** * Regular expressions of the [re] module *)
(* ===================================================================== *)

(** The fragment of [re] syntax the program uses, with Python's
    backtracking semantics: [re.search] returns the match at the leftmost
    starting position; at one position, a greedy repetition tries the longest
    run first and an alternation tries its left branch first. *)
Module PyRe.

Inductive regex : Type :=
  | Lit (c : ascii)                               (* a literal character *)
  | Cls (p : ascii -> bool)                       (* a class: \s \d [..] *)
  | Seq (r1 r2 : regex)
  | Alt (r1 r2 : regex)                           (* r1|r2 *)
  | StarCls (p : ascii -> bool)                   (* C*  for a class C *)
  | RepCls (p : ascii -> bool) (lo hi : nat)      (* C{lo,hi} *)
  | Group (r : regex)                             (* the capturing group *)
  | WordB.                                        (* \b *)

Definition is_word (c : ascii) : bool :=
  PyString.is_upper c || PyString.is_lower c || PyString.is_digit c
  || Ascii.eqb c "_"%char.

Definition word_before (prev : option ascii) : bool :=
  match prev with Some c => is_word c | None => false end.

Definition word_after (s : string) : bool :=
  match s with String c _ => is_word c | EmptyString => false end.

Definition any_char (c : ascii) : bool := true.

Definition char_in (l : list ascii) (c : ascii) : bool :=
  existsb (Ascii.eqb c) l.

Definition digit_1_9 (c : ascii) : bool :=
  let n := PyString.code c in ((49 <=? n) && (n <=? 57))%nat.

(** Membership of a class, under [re.IGNORECASE] when [ic] is set. *)
Definition cls_match (ic : bool) (p : ascii -> bool) (c : ascii) : bool :=
  p c || (ic && (p (PyString.lower_char c) || p (PyString.upper_char c))).

Definition lit_match (ic : bool) (x c : ascii) : bool :=
  if ic then Ascii.eqb (PyString.lower_char x) (PyString.lower_char c)
  else Ascii.eqb x c.

(** The continuation receives the character before the current position,
    the remaining text and the text of the group. *)
Definition cont : Type := option ascii -> string -> option string -> option string.

Fixpoint star_cls (ic : bool) (p : ascii -> bool) (prev : option ascii) (s : string)
    (cap : option string) (k : cont) : option string :=
  match s with
  | String c s' =>
      if cls_match ic p c then
        match star_cls ic p (Some c) s' cap k with
        | Some g => Some g
        | None => k prev s cap
        end
      else k prev s cap
  | EmptyString => k prev s cap
  end.

Fixpoint rep_cls (ic : bool) (p : ascii -> bool) (lo hi : nat) (prev : option ascii)
    (s : string) (cap : option string) (k : cont) : option string :=
  let stop := match lo with O => k prev s cap | S _ => None end in
  match hi with
  | O => stop
  | S hi' =>
      match s with
      | String c s' =>
          if cls_match ic p c then
            match rep_cls ic p (Nat.pred lo) hi' (Some c) s' cap k with
            | Some g => Some g
            | None => stop
            end
          else stop
      | EmptyString => stop
      end
  end.

Fixpoint rmatch (ic : bool) (r : regex) (prev : option ascii) (s : string)
    (cap : option string) (k : cont) : option string :=
  match r with
  | Lit x =>
      match s with
      | String c s' => if lit_match ic x c then k (Some c) s' cap else None
      | EmptyString => None
      end
  | Cls p =>
      match s with
      | String c s' => if cls_match ic p c then k (Some c) s' cap else None
      | EmptyString => None
      end
  | Seq r1 r2 =>
      rmatch ic r1 prev s cap (fun prev' s' cap' => rmatch ic r2 prev' s' cap' k)
  | Alt r1 r2 =>
      match rmatch ic r1 prev s cap k with
      | Some g => Some g
      | None => rmatch ic r2 prev s cap k
      end
  | StarCls p => star_cls ic p prev s cap k
  | RepCls p lo hi => rep_cls ic p lo hi prev s cap k
  | Group r1 =>
      rmatch ic r1 prev s cap
        (fun prev' s' _ =>
           k prev' s' (Some (String.substring 0 (String.length s - String.length s') s)))
  | WordB =>
      if xorb (word_before prev) (word_after s) then k prev s cap else None
  end.

Definition accept : cont := fun _ _ cap => Some (default EmptyString cap).

Fixpoint search_from (ic : bool) (r : regex) (prev : option ascii) (s : string)
  : option string :=
  match rmatch ic r prev s None accept with
  | Some g => Some g
  | None =>
      match s with
      | String c s' => search_from ic r (Some c) s'
      | EmptyString => None
      end
  end.

(** [re.search(r, text)] followed by [.group(1)]; [None] when there is no
    match. *)
Definition search_group1 (ic : bool) (r : regex) (text : string) : option string :=
  search_from ic r None text.

Fixpoint lits (s : string) : regex :=
  match s with
  | EmptyString => RepCls any_char 0 0
  | String c EmptyString => Lit c
  | String c s' => Seq (Lit c) (lits s')
  end.

(** [int(g)] for a run of decimal digits. *)
Definition digit_val (c : ascii) : Z := Z.of_nat (PyString.code c) - 48.

Fixpoint int_of_digits_acc (acc : Z) (s : string) : Z :=
  match s with
  | EmptyString => acc
  | String c s' => int_of_digits_acc (10 * acc + digit_val c) s'
  end.

Definition int_of_digits (s : string) : Z := int_of_digits_acc 0 s.

End PyRe.

(* ===================================================================== *)
(** * DataFrames and the Snowflake session *)
(* ===================================================================== *)

(** The program's one effect: [session.sql(query)] followed by [.collect()]
    or [.to_pandas()]; the answer is the result table, or [None] when the
    call raises. *)
Inductive Eff (A : Type) : Type :=
| Ret (a : A)
| SessionSql (query : string) (k : option DataFrame -> Eff A).
Arguments Ret {A} a.
Arguments SessionSql {A} query k.

Fixpoint eff_bind {A B : Type} (e : Eff A) (f : A -> Eff B) : Eff B :=
  match e with
  | Ret a => f a
  | SessionSql q k => SessionSql q (fun r => eff_bind (k r) f)
  end.

#[global] Instance eff_ret : MRet Eff := fun A a => Ret a.
#[global] Instance eff_mbind : MBind Eff := fun A B f e => eff_bind e f.

(** Running a computation against a store that answers each query text. *)
Fixpoint run {A : Type} (store : string -> option DataFrame) (e : Eff A) : A :=
  match e with
  | Ret a => a
  | SessionSql q k => run store (k (store q))
  end.

(** The queries a computation sends to that store, in order. *)
Fixpoint queries {A : Type} (store : string -> option DataFrame) (e : Eff A) : list string :=
  match e with
  | Ret _ => []
  | SessionSql q k => q :: queries store (k (store q))
  end.

Module Frame.

Fixpoint index_of (c : string) (cols : list string) : option nat :=
  match cols with
  | [] => None
  | c' :: rest =>
      if String.eqb c c' then Some O else S <$> index_of c rest
  end.

(** [c in df.columns] *)
Definition has_column (df : DataFrame) (c : string) : bool :=
  match index_of c (columns df) with Some _ => true | None => false end.

(** [row[c]] for a column of the frame. *)
Definition get (cols : list string) (row : list cell) (c : string) : cell :=
  match index_of c cols with
  | Some i => nth i row CNull
  | None => CNull
  end.

(** [len(df)] *)
Definition len (df : DataFrame) : nat := List.length (rows df).

(** [df[mask]] for a mask computed row by row. *)
Definition select (keep : list cell -> bool) (df : DataFrame) : DataFrame :=
  mkDataFrame (columns df) (List.filter keep (rows df)).

End Frame.

(** cortex_helper.py, [call_cortex]; the [temperature] argument is accepted
    and not used by the source. *)
Definition sql_quote_escape (s : string) : string :=
  PyString.replace_char "'"%char "''" s.

Definition call_cortex_model (prompt : string) (model : string) (temperature : Q)
  : Eff (option string) :=
  let safe_prompt := sql_quote_escape prompt in
  let query :=
    "SELECT SNOWFLAKE.CORTEX.COMPLETE('" ++ model ++ "', '" ++ safe_prompt ++ "') as response" in
  SessionSql query (fun result =>
    Ret (match result with
         | Some df =>
             match rows df with
             | row :: _ =>
                 match Frame.get (columns df) row "RESPONSE" with
                 | CStr s => Some s
                 | _ => None
                 end
             | [] => None
             end
         | None => None
         end)).

Definition call_cortex (prompt : string) (temperature : Q) : Eff (option string) :=
  call_cortex_model prompt "mistral-large" temperature.

(* ===================================================================== *)
(** * Agent messages (models/agent_message.py) *)
(* ===================================================================== *)

(** [AgentMessage]; [D] is the type of the payload, [None] the payload
    [None].  The creation timestamp is informational and left out. *)
Record AgentMessage (D : Type) : Type := mkAgentMessage {
  agent : string;
  status : string;
  data : option D;
  confidence : Q;
  metadata : gmap string pyval
}.
Arguments mkAgentMessage {D} agent status data confidence metadata.
Arguments agent {D} _.
Arguments status {D} _.
Arguments data {D} _.
Arguments confidence {D} _.
Arguments metadata {D} _.

(** [AgentMessage(name, status, data, confidence)] with the default
    metadata. *)
Definition agent_message {D : Type} (name st : string) (d : option D) (conf : Q)
  : AgentMessage D :=
  mkAgentMessage name st d conf ∅.

(** [is_successful] *)
Definition is_successful {D : Type} (m : AgentMessage D) : bool :=
  String.eqb (status m) "success" && (match data m with Some _ => true | None => false end).

(** [not msg or not msg.is_successful()] for a message that may be absent. *)
Definition missing_or_failed {D : Type} (m : option (AgentMessage D)) : bool :=
  match m with
  | None => true
  | Some m => negb (is_successful m)
  end.

(* ===================================================================== *)
(** * Quality reviewer (agents/reviewer.py) *)
(* ===================================================================== *)

Module Reviewer.
Import PyRe.

(** [OVERALL\s*[:\-]\s*(\d{1,2})], searched with [re.IGNORECASE]. *)
Definition re_overall : regex :=
  Seq (lits "OVERALL")
    (Seq (StarCls PyString.is_space)
      (Seq (Cls (char_in [":"%char; "-"%char]))
        (Seq (StarCls PyString.is_space)
          (Group (RepCls PyString.is_digit 1 2))))).

(** [(\d{1,2})\s*/\s*10] *)
Definition re_out_of_ten : regex :=
  Seq (Group (RepCls PyString.is_digit 1 2))
    (Seq (StarCls PyString.is_space)
      (Seq (Lit "/"%char)
        (Seq (StarCls PyString.is_space) (lits "10")))).

(** [\b(10|[1-9])\b] *)
Definition re_standalone : regex :=
  Seq WordB (Seq (Group (Alt (lits "10") (Cls digit_1_9))) WordB).

(** [FEEDBACK\s*:\s*] followed by the group [.*], searched with
    [re.IGNORECASE | re.DOTALL]. *)
Definition re_feedback : regex :=
  Seq (lits "FEEDBACK")
    (Seq (StarCls PyString.is_space)
      (Seq (Lit ":"%char)
        (Seq (StarCls PyString.is_space) (Group (StarCls any_char))))).

(** [max(1, min(10, val))] *)
Definition clamp_score (val : Z) : Z := Z.max 1 (Z.min 10 val).

(** [_parse_score]; the argument is [None] when the model call failed. *)
Definition _parse_score (evaluation_text : option string) : Z :=
  match evaluation_text with
  | None => 7
  | Some EmptyString => 7
  | Some evaluation_text =>
      let text := PyString.strip evaluation_text in
      match search_group1 true re_overall text with
      | Some g => clamp_score (int_of_digits g)
      | None =>
          match search_group1 false re_out_of_ten text with
          | Some g => clamp_score (int_of_digits g)
          | None =>
              match search_group1 false re_standalone text with
              | Some g => clamp_score (int_of_digits g)
              | None => 7
              end
          end
      end
  end.

Section WithBuiltins.
Context `{Builtins}.

(** [_extract_text] *)
Definition _extract_text (writer_msg : option (AgentMessage pyval)) : string :=
  match writer_msg with
  | None => ""
  | Some m =>
      if negb (is_successful m) then ""
      else
        match data m with
        | None | Some PNone => ""
        | Some (PDict d) =>
            match d !! "recommendation" with
            | Some r =>
                PyString.strip (py_str (if py_truthy r then r else PStr ""))
            | None => PyString.strip (py_str (PDict d))
            end
        | Some v => PyString.strip (py_str v)
        end
  end.

End WithBuiltins.

(** The f-string [review_prompt]. *)
Definition review_prompt (uq recommendation_text : string) : string :=
  "You are a strict QA reviewer for restaurant recommendations.

USER QUERY:
" ++ uq ++ "

RECOMMENDATION:
" ++ recommendation_text ++ "

Score each dimension from 1 to 10:
- RELEVANCE (matches query + filters)
- SPECIFICITY (uses concrete restaurant details)
- CLARITY (easy to read)
- HONESTY (mentions tradeoffs/uncertainty)
- ACTIONABILITY (helps user decide)

Return in this format ONLY:

RELEVANCE: x
SPECIFICITY: x
CLARITY: x
HONESTY: x
ACTIONABILITY: x
OVERALL: x
FEEDBACK: <one short paragraph of improvements>
".

(** The 4-tuple [(review_msg, score, feedback, raw_eval)]. *)
Record Review : Type := mkReview {
  review_msg : AgentMessage pyval;
  score : Z;
  feedback : string;
  raw_eval : option string
}.

Definition opt_str (o : option string) : pyval :=
  match o with Some s => PStr s | None => PNone end.

Section WithBuiltins.
Context `{Builtins}.

(** [reviewer_agent] *)
Definition reviewer_agent (writer_msg : option (AgentMessage pyval))
    (user_query : option string) (iteration : Z) : Eff Review :=
  if missing_or_failed writer_msg then
    Ret (mkReview (agent_message "Reviewer" "failed" None 0%Q) 0
           "Writer output missing." (Some ""))
  else
    let recommendation_text := _extract_text writer_msg in
    if negb (PyString.nonempty recommendation_text) then
      Ret (mkReview (agent_message "Reviewer" "failed" None 0%Q) 0
             "Empty recommendation text." (Some ""))
    else
      let uq := PyString.strip (default "" user_query) in
      let uq := if PyString.nonempty uq then uq else "N/A (not provided)" in
      raw_eval ← call_cortex (review_prompt uq recommendation_text) (2 # 10)%Q;
      let score := _parse_score raw_eval in
      let feedback :=
        match raw_eval with
        | Some (String c r) =>
            match search_group1 true re_feedback (String c r) with
            | Some g => PyString.strip g
            | None => ""
            end
        | _ => ""
        end in
      let '(status, conf) :=
        if score >=? 8 then ("success", (9 # 10)%Q) else ("partial", (7 # 10)%Q) in
      let review_msg :=
        mkAgentMessage "Reviewer" status
          (Some (PDict (<["score" := PInt score]>
                       (<["feedback" := PStr feedback]>
                       (<["raw_evaluation" := opt_str raw_eval]> ∅)))))
          conf ∅ in
      Ret (mkReview review_msg score feedback raw_eval).

End WithBuiltins.

End Reviewer.

(* ===================================================================== *)
(** * Orchestrator: the Writer/Reviewer loop (agents/orchestrator.py) *)
(* ===================================================================== *)

Module Orchestrator.

(** The loop's variables, with the number of iterations entered. *)
Record IterationState : Type := mkIterationState {
  best_writer_msg : option (AgentMessage pyval);
  best_score : Z;
  iterations_run : nat
}.

(** How a call ends: with an exception, or with a returned value. *)
Inductive outcome (A : Type) : Type :=
| Raised
| Returned (a : A).
Arguments Raised {A}.
Arguments Returned {A} a.

(** The dict the orchestrator returns; the two candidate sets and the
    analyst data are passed through unchanged. *)
Record PipelineResult : Type := mkPipelineResult {
  recommendation : string;
  researcher_data : option DataFrame;
  retriever_data : option DataFrame;
  quality_score : Z;
  analyst_data : pyval
}.

Section Loop.
Context `{Builtins}.

(** The two agents the loop calls.  The writer is called with the same
    arguments on every iteration and answers from the language model, so
    its result is given per iteration (numbered from 0, as [i] in the
    source); the reviewer is called with the writer message and [i + 1]. *)
Variable writer_agent : nat -> AgentMessage pyval.
Variable reviewer_agent : AgentMessage pyval -> Z -> Reviewer.Review.
Variable quality_threshold : Z.

(** The body of [for i in range(int(max_iterations))], over the indices
    still to run; [continue] goes on with the rest, [break] returns. *)
Fixpoint loop_over (indices : list nat) (st : IterationState) : IterationState :=
  match indices with
  | [] => st
  | i :: rest =>
      let st := mkIterationState (best_writer_msg st) (best_score st)
                  (S (iterations_run st)) in
      let writer_msg := writer_agent i in
      if negb (is_successful writer_msg) then loop_over rest st
      else
        let score := Reviewer.score (reviewer_agent writer_msg (Z.of_nat i + 1)) in
        let st :=
          if score >? best_score st then
            mkIterationState (Some writer_msg) score (iterations_run st)
          else st in
        if score >=? quality_threshold then st
        else loop_over rest st
  end.

(** Iteration [i] has a usable writer message; the score the reviewer
    gives it; the score meets the threshold. *)
Definition writer_ok (i : nat) : bool := is_successful (writer_agent i).

Definition score_at (i : nat) : Z :=
  Reviewer.score (reviewer_agent (writer_agent i) (Z.of_nat i + 1)).

Definition passes (i : nat) : bool :=
  writer_ok i && (score_at i >=? quality_threshold).

(** What the loop has done after running over the indices from [a] to
    [a + m - 1], from the state [st] to the state [st']: it entered [r] of
    them; none but the last entered met the threshold; when it stopped
    short, the last one did; the best score bounds the scores seen; and
    the best message is the one it started with, or the first message
    with the highest score seen. *)
Record ran (a m : nat) (st st' : IterationState) (r : nat) : Prop := mkRan {
  ran_bound : (r <= m)%nat;
  ran_count : iterations_run st' = (iterations_run st + r)%nat;
  ran_no_pass_before :
    forall j, (a <= j)%nat -> (j + 1 < a + r)%nat -> passes j = false;
  ran_stopped_on_pass : (r < m)%nat -> (0 < r)%nat /\ passes (a + r - 1) = true;
  ran_best_grows : best_score st <= best_score st';
  ran_best_upper :
    forall j, (a <= j < a + r)%nat -> writer_ok j = true -> score_at j <= best_score st';
  ran_best_from :
    (best_writer_msg st' = best_writer_msg st /\ best_score st' = best_score st) \/
    (exists i, (a <= i < a + r)%nat /\ writer_ok i = true /\
               best_writer_msg st' = Some (writer_agent i) /\
               best_score st' = score_at i /\ best_score st < score_at i /\
               forall j, (a <= j < i)%nat -> writer_ok j = true ->
                         score_at j < score_at i)
}.

(** Section 5 of [orchestrator_agent]. *)
Definition writer_reviewer_loop (max_iterations : Z) : IterationState :=
  loop_over (seq 0 (Z.to_nat max_iterations)) (mkIterationState None (-1) 0).

(** [(best_writer_msg.data or {}).get("recommendation", "")] followed by
    [str]; [None] when the payload is not a dict and Python raises. *)
Definition recommendation_text (m : AgentMessage pyval) : option string :=
  match data m with
  | None | Some PNone => Some (py_str (PStr ""))
  | Some (PDict d) => Some (py_str (dict_get_default d "recommendation" (PStr "")))
  | Some v => if py_truthy v then None else Some (py_str (PStr ""))
  end.

(** Sections 5 and 6 of [orchestrator_agent]: the loop, then the returned
    dict, or [None] when no iteration produced a writer message. *)
Definition orchestrator_tail (max_iterations : Z)
    (researcher_df retriever_df : option DataFrame) (analyst : pyval)
  : outcome (option PipelineResult) :=
  let st := writer_reviewer_loop max_iterations in
  match best_writer_msg st with
  | None => Returned None
  | Some m =>
      match recommendation_text m with
      | Some text =>
          Returned (Some (mkPipelineResult text researcher_df retriever_df
                            (best_score st) analyst))
      | None => Raised
      end
  end.

End Loop.

End Orchestrator.

(* ===================================================================== *)
(** * Operations on DataFrames *)
(* ===================================================================== *)

Module FrameOps.
Import Frame.

Definition cell_to_py (c : cell) : pyval :=
  match c with
  | CNull => PNone
  | CBool b => PBool b
  | CNum q => PFloat q
  | CStr s => PStr s
  end.

(** The value [series == True] gives for one cell. *)
Definition cell_is_true (c : cell) : bool :=
  match c with
  | CBool b => b
  | CNum q => Qeq_bool q 1
  | _ => false
  end.

(** Equality of two merge keys; missing keys match each other. *)
Definition key_eq (a b : cell) : bool :=
  match a, b with
  | CNull, CNull => true
  | CBool x, CBool y => Bool.eqb x y
  | CNum x, CNum y => Qeq_bool x y
  | CStr x, CStr y => String.eqb x y
  | _, _ => false
  end.

Fixpoint remove_nth {A : Type} (i : nat) (l : list A) : list A :=
  match l, i with
  | [], _ => []
  | _ :: l', O => l'
  | x :: l', S i' => x :: remove_nth i' l'
  end.

Definition mem_str (c : string) (l : list string) : bool :=
  existsb (String.eqb c) l.

(** [left.merge(right, on=key, how=left)]: every left row once for each
    right row with the same key, in the right frame's order, or once with
    missing values when no right row matches.  A column name the two frames
    share, apart from the key, gets the suffix [_x] on the left and [_y] on
    the right.  [None] when a frame has no column [key] (KeyError). *)
Definition merge_left (left right : DataFrame) (key : string) : option DataFrame :=
  match index_of key (columns left), index_of key (columns right) with
  | Some _, Some kr =>
      let rcols := remove_nth kr (columns right) in
      let lname c :=
        if negb (String.eqb c key) && mem_str c rcols then c ++ "_x" else c in
      let rname c := if mem_str c (columns left) then c ++ "_y" else c in
      let blank := List.map (fun _ => CNull) rcols in
      let expand lrow :=
        match List.filter (fun rrow =>
                key_eq (get (columns left) lrow key) (nth kr rrow CNull))
                (rows right) with
        | [] => [(lrow ++ blank)%list]
        | ms => List.map (fun rrow => (lrow ++ remove_nth kr rrow)%list) ms
        end in
      Some (mkDataFrame (List.map lname (columns left) ++ List.map rname rcols)%list
                        (List.flat_map expand (rows left)))
  | _, _ => None
  end.

Section WithBuiltins.
Context `{Builtins}.

(** [pd.to_numeric(series, errors=coerce)] for one cell; [None] is NaN. *)
Definition to_numeric (c : cell) : option Q :=
  match c with
  | CNull => None
  | CBool b => Some (if b then 1%Q else 0%Q)
  | CNum q => Some q
  | CStr s => str_to_numeric s
  end.

(** [to_numeric(cell) <= bound] and [to_numeric(cell) >= bound]; a
    comparison with NaN is false. *)
Definition numeric_le (c : cell) (bound : Q) : bool :=
  match to_numeric c with Some q => Qle_bool q bound | None => false end.

Definition numeric_ge (c : cell) (bound : Q) : bool :=
  match to_numeric c with Some q => Qle_bool bound q | None => false end.

End WithBuiltins.

End FrameOps.

(* ===================================================================== *)
(** * Researcher (agents/researcher.py) *)
(* ===================================================================== *)

Module Researcher.
Import Frame FrameOps.

(** [token in f[slot]] for a normalised filter dict [f]. *)
Definition slot_has (f : gmap string pyval) (slot token : string) : bool :=
  match f !! slot with
  | Some (PList l) =>
      existsb (fun v => match v with PStr s => String.eqb s token | _ => false end) l
  | _ => false
  end.

(** One attribute step: when its tokens ask for it and the column is there,
    [results_df = results_df[results_df[col] == True]]. *)
Definition flag_filter (wanted : bool) (col : string) (df : DataFrame) : DataFrame :=
  if wanted && has_column df col then
    select (fun row => cell_is_true (get (columns df) row col)) df
  else df.

Section WithBuiltins.
Context `{Builtins}.

(** The price step. *)
Definition price_filter (max_price : pyval) (df : DataFrame) : DataFrame :=
  let is_any := match max_price with PStr s => String.eqb s "Any" | _ => false end in
  if negb is_any && has_column df "PRICE_LEVEL" then
    match py_int max_price with
    | Some max_price_int =>
        select (fun row =>
          numeric_le (get (columns df) row "PRICE_LEVEL") (inject_Z max_price_int)) df
    | None => df
    end
  else df.

(** The safety step. *)
Definition safety_filter (min_safety : Z) (df : DataFrame) : DataFrame :=
  if negb (min_safety =? 0) && (min_safety >? 0) && has_column df "SAFETY_SCORE" then
    select (fun row =>
      numeric_ge (get (columns df) row "SAFETY_SCORE") (inject_Z min_safety)) df
  else df.

(** The attribute steps, in the order of the source. *)
Definition attribute_filter (f : gmap string pyval) (df : DataFrame) : DataFrame :=
  let has := slot_has f in
  let df :=
    if has "dietary" "vegetarian" || has "dietary" "vegan" then
      flag_filter true "SERVES_VEGETARIAN" df
    else df in
  let df := flag_filter (has "meal_time" "breakfast") "SERVES_BREAKFAST" df in
  let df := flag_filter (has "meal_time" "lunch") "SERVES_LUNCH" df in
  let df := flag_filter (has "meal_time" "dinner") "SERVES_DINNER" df in
  let df := flag_filter (has "accessibility" "wheelchair") "IS_WHEELCHAIR_ACCESSIBLE" df in
  let df := flag_filter (has "accessibility" "groups" || has "accessibility" "group")
              "GOOD_FOR_GROUPS" df in
  let df := flag_filter (has "accessibility" "children" || has "accessibility" "kids"
                         || has "accessibility" "family") "GOOD_FOR_CHILDREN" df in
  let df := flag_filter (has "service_type" "outdoor") "OUTDOOR_SEATING" df in
  let df := flag_filter (has "service_type" "takeout") "TAKEOUT" df in
  let df := flag_filter (has "service_type" "delivery") "DELIVERY" df in
  let df := flag_filter (has "service_type" "reservations" || has "service_type" "reservable")
              "RESERVABLE" df in
  let df := flag_filter (has "special_needs" "coffee_shop" || has "special_needs" "cafe")
              "SERVES_COFFEE" df in
  let df := flag_filter (has "special_needs" "pet_friendly" || has "special_needs" "dogs")
              "ALLOWS_DOGS" df in
  flag_filter (has "special_needs" "live_music") "LIVE_MUSIC" df.

(** All the filter steps, before the rows are counted and ranked. *)
Definition apply_filters (max_price : pyval) (min_safety : Z)
    (attribute_filters : option (gmap string pyval)) (df : DataFrame) : DataFrame :=
  attribute_filter (_normalize_attribute_filters attribute_filters)
    (safety_filter min_safety (price_filter max_price df)).

Definition count (n : nat) : pyval := PInt (Z.of_nat n).

(** [researcher_agent] *)
Definition researcher_agent (retriever_msg : option (AgentMessage DataFrame))
    (max_price : pyval) (min_safety : Z)
    (attribute_filters : option (gmap string pyval)) : AgentMessage DataFrame :=
  match retriever_msg with
  | None =>
      mkAgentMessage "Researcher" "failed" None 0%Q
        (<["reason" := PStr "retriever_failed"]> ∅)
  | Some msg =>
      if negb (is_successful msg) then
        mkAgentMessage "Researcher" "failed" None 0%Q
          (<["reason" := PStr "retriever_failed"]> ∅)
      else
        match data msg with
        | None =>
            mkAgentMessage "Researcher" "failed" None 0%Q
              (<["reason" := PStr "no_rows"]> ∅)
        | Some results_df =>
            if Nat.eqb (len results_df) 0 then
              mkAgentMessage "Researcher" "failed" None 0%Q
                (<["reason" := PStr "no_rows"]> ∅)
            else
              let initial_count := len results_df in
              let f := _normalize_attribute_filters attribute_filters in
              let results_df :=
                apply_filters max_price min_safety attribute_filters results_df in
              if Nat.eqb (len results_df) 0 then
                mkAgentMessage "Researcher" "partial" None 0%Q
                  (<["filters_too_strict" := PBool true]>
                  (<["initial_count" := count initial_count]>
                  (<["normalized_filters" := PDict f]>
                  (<["num_results" := PInt 0]> ∅))))
              else
                let sorted :=
                  if has_column results_df "OVERALL_SCORE" then
                    sort_values "OVERALL_SCORE" false results_df
                  else Some results_df in
                match sorted with
                | None =>
                    mkAgentMessage "Researcher" "failed" None 0%Q
                      (<["exception" := PStr "sort_values"]> ∅)
                | Some results_df =>
                    mkAgentMessage "Researcher" "success" (Some results_df) (9 # 10)%Q
                      (<["num_results" := count (len results_df)]>
                      (<["initial_count" := count initial_count]>
                      (<["normalized_filters" := PDict f]> ∅)))
                end
        end
  end.

End WithBuiltins.

End Researcher.

(** orchestrator.py, [_safe_len] of a message payload. *)
Definition _safe_len (df : option DataFrame) : nat :=
  match df with Some df => Frame.len df | None => O end.

(* ===================================================================== *)
(** * Retriever (agents/retriever.py) *)
(* ===================================================================== *)

Module Retriever.
Import Frame FrameOps.

Definition GOLD_RESTAURANT_EMBEDDINGS : string := "GOLD_RESTAURANT_EMBEDDINGS".
Definition GOLD_RESTAURANTS_MASTER : string := "GOLD_RESTAURANTS_MASTER".

(** [x == s] for a string literal [s]. *)
Definition py_eq_str (x : pyval) (s : string) : bool :=
  match x with PStr t => String.eqb t s | _ => false end.

(** The text the f-string puts in place of [{user_query.replace(...)}]. *)
Definition query_fragment (user_query : string) : string :=
  sql_quote_escape user_query.

(** [loc_title], the text the f-strings put in place of the location. *)
Definition location_fragment (location_name : string) : string :=
  PyString.title (PyString.strip (sql_quote_escape location_name)).

Definition failed : AgentMessage DataFrame := agent_message "Retriever" "failed" None 0%Q.

Section WithBuiltins.
Context `{Builtins}.

(** The text the f-string puts in place of [{cuisine}]. *)
Definition cuisine_fragment (cuisine : pyval) : string := py_str cuisine.

(** [cuisine_condition] *)
Definition cuisine_condition (cuisine : pyval) : string :=
  if py_truthy cuisine then "AND PRIMARY_CUISINE = '" ++ cuisine_fragment cuisine ++ "'"
  else "".

(** [neighborhood_condition]; [None] when [location_name] is a non-empty
    object without [replace] and Python raises. *)
Definition neighborhood_condition (location_name location_mode : pyval) : option string :=
  if py_truthy location_name then
    match location_name with
    | PStr name =>
        let loc_title := location_fragment name in
        let city_exact := "CITY ILIKE '" ++ loc_title ++ "'" in
        let neighborhood_like := "NEIGHBORHOOD ILIKE '" ++ loc_title ++ "%'" in
        if py_eq_str location_mode "include_strict" then
          Some ("AND (" ++ city_exact ++ " OR " ++ neighborhood_like ++ ")")
        else if py_eq_str location_mode "exclude" then
          Some ("AND NOT (" ++ city_exact ++ " OR " ++ neighborhood_like ++ ")")
        else Some ""
    | _ => None
    end
  else Some "".

(** [embed_expr] *)
Definition embed_expr (user_query : string) : string :=
  "
        VECTOR_COSINE_SIMILARITY(
            DESCRIPTION_EMBEDDING,
            SNOWFLAKE.CORTEX.EMBED_TEXT_768('snowflake-arctic-embed-m', '"
  ++ query_fragment user_query ++ "')
        )
        ".

(** [search_query] *)
Definition search_query (user_query cuisine_cond neighborhood_cond : string) (top_k : Z)
  : string :=
  "
        SELECT 
            RESTAURANT_ID, RESTAURANT_NAME, CITY, NEIGHBORHOOD,
            PRIMARY_CUISINE, PRICE_LEVEL, OVERALL_SCORE,
            RECOMMENDATION_TIER, SAFETY_SCORE, HEALTH_RISK_LEVEL,
            NEAREST_STOP_DISTANCE_M, SERVES_VEGETARIAN,
            IS_WHEELCHAIR_ACCESSIBLE, GOOD_FOR_GROUPS, IS_CURRENTLY_OPEN,
            " ++ embed_expr user_query ++ " as SIMILARITY_SCORE
        FROM " ++ GOLD_RESTAURANT_EMBEDDINGS ++ "
        WHERE DESCRIPTION_EMBEDDING IS NOT NULL
          " ++ cuisine_cond ++ "
          " ++ neighborhood_cond ++ "
        AND SIMILARITY_SCORE > 0.3
        ORDER BY SIMILARITY_SCORE DESC
        LIMIT " ++ py_str (PInt top_k) ++ "
        ".

(** [detail_query] *)
Definition detail_query (restaurant_ids : list cell) : string :=
  let restaurant_context :=
    PyString.join ", "
      (List.map (fun id => "'" ++ py_str (cell_to_py id) ++ "'") restaurant_ids) in
  "
        SELECT 
            RESTAURANT_ID, STREET_ADDRESS, PHONE, YELP_RATING, CITY,
            LATITUDE, LONGITUDE, YELP_URL,
            SERVES_BREAKFAST, SERVES_LUNCH, SERVES_DINNER, SERVES_COFFEE,
            GOOD_FOR_CHILDREN, OUTDOOR_SEATING, TAKEOUT, DELIVERY,
            ALLOWS_DOGS, LIVE_MUSIC, OPEN_NOW
        FROM " ++ GOLD_RESTAURANTS_MASTER ++ "
        WHERE RESTAURANT_ID IN (" ++ restaurant_context ++ ")
        ".

(** The location the search uses: [search_area] when it is given,
    otherwise the analyst's location; [(location_name, location_mode)],
    or [None] when the analyst's location is not a dict and Python
    raises. *)
Definition effective_location (analyst_data : gmap string pyval)
    (search_area : option (gmap string pyval)) : option (pyval * pyval) :=
  match search_area with
  | Some area =>
      if py_truthy (PDict area) then
        Some (dict_get area "name", dict_get_default area "mode" (PStr "none"))
      else
        match dict_get_default analyst_data "location" (PDict ∅) with
        | PDict location_info =>
            Some (dict_get location_info "name",
                  dict_get_default location_info "mode" (PStr "none"))
        | _ => None
        end
  | None =>
      match dict_get_default analyst_data "location" (PDict ∅) with
      | PDict location_info =>
          Some (dict_get location_info "name",
                dict_get_default location_info "mode" (PStr "none"))
      | _ => None
      end
  end.

(** The enrichment step: the left merge with the master rows, or the
    frame as it is when the lookup or the merge raises. *)
Definition enrich (results_df : DataFrame) (detail : option DataFrame) : DataFrame :=
  match detail with
  | Some detail_df =>
      match merge_left results_df detail_df "RESTAURANT_ID" with
      | Some merged => merged
      | None => results_df
      end
  | None => results_df
  end.

(** The distance step; [None] when it raises. *)
Definition distance_step (location_name location_mode : pyval)
    (user_location : option (gmap string pyval)) (results_df : DataFrame)
  : option DataFrame :=
  if py_eq_str location_mode "include_nearby" && py_truthy location_name then
    Some results_df
  else
    match user_location with
    | Some loc =>
        if py_truthy (PDict loc) && bool_decide (is_Some (loc !! "latitude")) then
          if has_column results_df "LATITUDE" then
            with_dist ← with_distance loc results_df;
            sort_values "DISTANCE_FROM_USER_MI" true with_dist
          else Some results_df
        else Some results_df
    | None => Some results_df
    end.

(** The message returned for the frame [results_df]; the preview of the
    display columns raises when one of them is missing. *)
Definition finish (cuisine location_mode : pyval) (results_df : DataFrame)
  : AgentMessage DataFrame :=
  let display_cols :=
    ["RESTAURANT_NAME"; "PRIMARY_CUISINE"; "NEIGHBORHOOD"; "SIMILARITY_SCORE"] in
  if forallb (has_column results_df) display_cols then
    mkAgentMessage "Retriever" "success" (Some results_df) (9 # 10)%Q
      (<["num_results" := PInt (Z.of_nat (len results_df))]>
      (<["cuisine_filter" := cuisine]>
      (<["location_mode" := location_mode]>
      (<["has_full_attributes" := PBool (has_column results_df "ALLOWS_DOGS")]> ∅))))
  else failed.

(** [retriever_agent] *)
Definition retriever_agent (user_query : string) (analyst_data : gmap string pyval)
    (user_location search_area : option (gmap string pyval)) (top_k : Z)
  : Eff (AgentMessage DataFrame) :=
  let cuisine := dict_get analyst_data "cuisine" in
  match effective_location analyst_data search_area with
  | None => Ret failed
  | Some (location_name, location_mode) =>
      match neighborhood_condition location_name location_mode with
      | None => Ret failed
      | Some neighborhood_cond =>
          SessionSql
            (search_query user_query (cuisine_condition cuisine) neighborhood_cond top_k)
            (fun answer =>
               match answer with
               | None => Ret failed
               | Some results_df =>
                   if Nat.eqb (len results_df) 0 then Ret failed
                   else if negb (has_column results_df "RESTAURANT_ID") then Ret failed
                   else
                     let restaurant_ids :=
                       List.map (fun row => get (columns results_df) row "RESTAURANT_ID")
                                (rows results_df) in
                     SessionSql (detail_query restaurant_ids)
                       (fun detail =>
                          let results_df := enrich results_df detail in
                          match distance_step location_name location_mode
                                  user_location results_df with
                          | None => Ret failed
                          | Some results_df =>
                              Ret (finish cuisine location_mode results_df)
                          end)
               end)
      end
  end.

(** What is known of the two pandas steps left to the built-ins: they
    keep the number of rows. *)
Definition sort_values_keeps_rows : Prop :=
  forall (col : string) (ascending : bool) (df df' : DataFrame),
    sort_values col ascending df = Some df' -> len df' = len df.

Definition with_distance_keeps_rows : Prop :=
  forall (loc : gmap string pyval) (df df' : DataFrame),
    with_distance loc df = Some df' -> len df' = len df.

(** The store applies the [LIMIT top_k] of the similarity search. *)
Definition honours_limit (store : string -> option DataFrame) (user_query : string)
    (top_k : Z) : Prop :=
  forall (cuisine_cond neighborhood_cond : string) (df : DataFrame),
    store (search_query user_query cuisine_cond neighborhood_cond top_k) = Some df ->
    Z.of_nat (len df) <= top_k.

(** The master table holds at most one row for a restaurant id. *)
Definition one_master_row_per_id (store : string -> option DataFrame) : Prop :=
  forall (ids : list cell) (detail : DataFrame),
    store (detail_query ids) = Some detail ->
    forall key : cell,
      (List.length
         (List.filter (fun rrow => key_eq key (get (columns detail) rrow "RESTAURANT_ID"))
                      (rows detail)) <= 1)%nat.

End WithBuiltins.

End Retriever.

(* ===================================================================== *)
(** * Query analyst (utils/analyst_clean.py) *)
(* ===================================================================== *)

Module Analyst.

(** [_clean_json] *)
Definition fenced (marker t : string) : string :=
  match PyString.split_once marker t with
  | Some (_, after) =>
      match PyString.split_once "```" after with
      | Some (inside, _) => inside
      | None => after
      end
  | None => t
  end.

Definition _clean_json (text : string) : string :=
  match text with
  | EmptyString => ""
  | _ =>
      let t := PyString.strip text in
      let t :=
        if PyString.contains "```json" t then fenced "```json" t
        else if PyString.contains "```" t then fenced "```" t
        else t in
      PyString.strip t
  end.

Definition slot_names : list string :=
  ["dietary"; "meal_time"; "accessibility"; "service_type"; "special_needs"].

(** [_get_empty_analysis] *)
Definition _get_empty_analysis : gmap string pyval :=
  <["cuisine" := PNone]>
  (<["location" := PDict (<["name" := PNone]>
                         (<["mode" := PStr "none"]>
                         (<["radius_miles" := PNone]> ∅)))]>
  (<["budget" := PDict (<["max_price_level" := PNone]>
                       (<["max_dollars" := PNone]> ∅))]>
  (<["open_now" := PNone]>
  (<["filters" := PDict (<["dietary" := PList []]>
                        (<["meal_time" := PList []]>
                        (<["accessibility" := PList []]>
                        (<["service_type" := PList []]>
                        (<["special_needs" := PList []]> ∅)))))]> ∅)))).

(** The filters of an analysis hold the five slots and none is null. *)
Definition slots_filled (analysis : gmap string pyval) : Prop :=
  exists f, analysis !! "filters" = Some (PDict f) /\
            forall k, k ∈ slot_names -> exists v, f !! k = Some v /\ v <> PNone.

(** [d.setdefault(k, v)], as the dict it leaves. *)
Definition setdefault (d : gmap string pyval) (k : string) (v : pyval) : gmap string pyval :=
  match d !! k with
  | Some _ => d
  | None => <[k := v]> d
  end.

(** One round of the loop over the filter slots. *)
Definition fill_slot (filters : gmap string pyval) (key : string) : gmap string pyval :=
  let filters := setdefault filters key (PList []) in
  match filters !! key with
  | Some PNone => <[key := PList []]> filters
  | _ => filters
  end.

(** [analysis[k].setdefault(...)] for each of the given defaults; [None]
    when [analysis[k]] is not a dict and Python raises. *)
Definition fill_nested (analysis : gmap string pyval) (k : string)
    (fill : gmap string pyval -> gmap string pyval) : option (gmap string pyval) :=
  let analysis := setdefault analysis k (PDict ∅) in
  match analysis !! k with
  | Some (PDict inner) => Some (<[k := PDict (fill inner)]> analysis)
  | _ => None
  end.

(** [_fill_defaults]; [None] when Python raises. *)
Definition _fill_defaults (analysis : pyval) : option (gmap string pyval) :=
  match analysis with
  | PDict analysis =>
      let analysis := setdefault analysis "cuisine" PNone in
      analysis ← fill_nested analysis "location" (fun location =>
        setdefault (setdefault (setdefault location "name" PNone) "mode" (PStr "none"))
          "radius_miles" PNone);
      analysis ← fill_nested analysis "budget" (fun budget =>
        setdefault (setdefault budget "max_price_level" PNone) "max_dollars" PNone);
      let analysis := setdefault analysis "open_now" PNone in
      fill_nested analysis "filters" (fun filters => foldl fill_slot filters slot_names)
  | _ => None
  end.

(** [', '.join(v)] succeeds: [v] is a string, a list of strings or a dict. *)
Definition joinable (v : pyval) : bool :=
  match v with
  | PStr _ => true
  | PList l => forallb (fun e => match e with PStr _ => true | _ => false end) l
  | PDict _ => true
  | _ => false
  end.

Definition hashable (v : pyval) : bool :=
  match v with
  | PList _ | PDict _ => false
  | _ => true
  end.

Section WithBuiltins.
Context `{Builtins}.

(** [_display_extraction] shows the analysis and returns nothing; what
    matters to its caller is whether formatting raises.  [true] when it
    returns normally. *)
Definition _display_extraction (analysis : gmap string pyval) : bool :=
  let as_dict v := match v with PDict d => Some d | _ => None end in
  match as_dict (dict_get_default analysis "location" (PDict ∅)),
        as_dict (dict_get_default analysis "budget" (PDict ∅)),
        as_dict (dict_get_default analysis "filters" (PDict ∅)) with
  | Some location_info, Some budget, Some filters =>
      let location_ok :=
        if py_truthy (dict_get location_info "name")
           && negb (Retriever.py_eq_str (dict_get location_info "mode") "none") then
          hashable (dict_get location_info "mode")
          && match dict_get location_info "name" with PStr _ => true | _ => false end
        else true in
      let budget_ok :=
        if py_truthy (dict_get budget "max_price_level") then
          match dict_get budget "max_price_level" with
          | PInt _ | PBool _ => true
          | _ => false
          end
        else true in
      let badge_ok key :=
        if py_truthy (dict_get filters key) then joinable (dict_get filters key)
        else true in
      location_ok && budget_ok
      && forallb badge_ok
           ["dietary"; "accessibility"; "service_type"; "meal_time"; "special_needs"]
  | _, _, _ => false
  end.

(** [analyze_query_to_json] *)
Definition analyze_query_to_json (user_query : string) : Eff (gmap string pyval) :=
  raw ← call_cortex (analyst_prompt user_query) (2 # 10)%Q;
  match raw with
  | None | Some EmptyString => Ret _get_empty_analysis
  | Some raw =>
      let txt := _clean_json raw in
      match json_loads txt ≫= _fill_defaults with
      | Some analysis =>
          if _display_extraction analysis then Ret analysis
          else Ret _get_empty_analysis
      | None => Ret _get_empty_analysis
      end
  end.

End WithBuiltins.

End Analyst.

(* ===================================================================== *)
(** * Geocoding (utils/geo_utils.py and config.py) *)
(* ===================================================================== *)

Module Geo.

(** config.py, [BOSTON_NEIGHBORHOODS], in the order of the dict literal:
    name, latitude, longitude. *)
Definition BOSTON_NEIGHBORHOODS : list (string * (Q * Q)) :=
  [ ("jamaica plain", (423099 # 10000, - 711111 # 10000));
    ("centre street", (423099 # 10000, - 711111 # 10000));
    ("center street", (423099 # 10000, - 711111 # 10000));
    ("roxbury", (423317 # 10000, - 710828 # 10000));
    ("dorchester", (422876 # 10000, - 710662 # 10000));
    ("south end", (423417 # 10000, - 710719 # 10000));
    ("north end", (423647 # 10000, - 710542 # 10000));
    ("back bay", (423503 # 10000, - 710810 # 10000));
    ("allston", (423528 # 10000, - 711319 # 10000));
    ("brighton", (423486 # 10000, - 711656 # 10000));
    ("charlestown", (423782 # 10000, - 710602 # 10000));
    ("cambridge", (423736 # 10000, - 711097 # 10000));
    ("somerville", (423876 # 10000, - 710995 # 10000)) ]%Q.

Definition DEFAULT_BOSTON_LAT : Q := (423601 # 10000)%Q.
Definition DEFAULT_BOSTON_LON : Q := (- 710589 # 10000)%Q.

(** The dict [{latitude, longitude, name}]. *)
Definition location_dict (lat lon : Q) (name : string) : pyval :=
  PDict (<["latitude" := PFloat lat]>
        (<["longitude" := PFloat lon]>
        (<["name" := PStr name]> ∅))).

(** The loop of [geocode_location] over the neighbourhoods still to try. *)
Fixpoint geocode_in (table : list (string * (Q * Q))) (location_name : string) : pyval :=
  match table with
  | (neighborhood, (lat, lon)) :: rest =>
      if PyString.contains neighborhood (PyString.lower location_name) then
        location_dict lat lon location_name
      else geocode_in rest location_name
  | [] => location_dict DEFAULT_BOSTON_LAT DEFAULT_BOSTON_LON location_name
  end.

(** [geocode_location] *)
Definition geocode_location (location_name : string) : pyval :=
  geocode_in BOSTON_NEIGHBORHOODS location_name.

(** [location_name] names none of the known neighbourhoods. *)
Definition outside_known_neighborhoods (location_name : string) : Prop :=
  Forall (fun entry => PyString.contains (fst entry) (PyString.lower location_name) = false)
         BOSTON_NEIGHBORHOODS.

End Geo.

(* ===================================================================== *)
(** * A sample environment *)
(* ===================================================================== *)

(** One concrete choice of the built-ins, used to run the program on
    examples: decimal rendering of integers, an insertion sort for
    [sort_values], distance columns left empty, and a [json.loads] that knows
    one document. *)
Module Sample.
Import Frame FrameOps.

Definition digit_char (n : nat) : ascii := ascii_of_nat (48 + n mod 10).

Fixpoint dec_nat_fuel (fuel n : nat) (acc : string) : string :=
  let acc' := String (digit_char n) acc in
  match fuel with
  | O => acc'
  | S fuel' => if (n <? 10)%nat then acc' else dec_nat_fuel fuel' (n / 10) acc'
  end.

(** [str(z)] for an integer. *)
Definition dec_int (z : Z) : string :=
  let n := Z.abs_nat z in
  (if z <? 0 then "-" else "") ++ dec_nat_fuel n n "".

Definition repr (v : pyval) : string :=
  match v with
  | PInt z => dec_int z
  | PFloat _ => "0.0"
  | PList _ => "[]"
  | PDict _ => "{}"
  | PNone => "None"
  | PBool true => "True"
  | PBool false => "False"
  | PStr s => s
  end.

Definition sort_key (cols : list string) (col : string) (row : list cell) : option Q :=
  match get cols row col with
  | CNum q => Some q
  | CBool b => Some (if b then 1%Q else 0%Q)
  | _ => None
  end.

(** [a] may stay in front of [b]: missing keys go last. *)
Definition before (ascending : bool) (a b : option Q) : bool :=
  match a, b with
  | Some x, Some y => if ascending then Qle_bool x y else Qle_bool y x
  | Some _, None => true
  | None, Some _ => false
  | None, None => true
  end.

Fixpoint insert_row (cols : list string) (col : string) (ascending : bool)
    (row : list cell) (sorted : list (list cell)) : list (list cell) :=
  match sorted with
  | [] => [row]
  | r :: rest =>
      if before ascending (sort_key cols col row) (sort_key cols col r)
      then row :: sorted
      else r :: insert_row cols col ascending row rest
  end.

Definition sort_rows (col : string) (ascending : bool) (df : DataFrame) : option DataFrame :=
  if has_column df col then
    Some (mkDataFrame (columns df)
            (foldr (insert_row (columns df) col ascending) [] (rows df)))
  else None.

Definition empty_distance (loc : gmap string pyval) (df : DataFrame) : option DataFrame :=
  Some (mkDataFrame
          (columns df ++ ["DISTANCE_FROM_USER_M"; "DISTANCE_FROM_USER_MI"])%list
          (List.map (fun row => (row ++ [CNull; CNull])%list) (rows df))).

Definition dq : string := String (ascii_of_nat 34) EmptyString.

(** The JSON document with the one member [filters], whose one member
    [dietary] is the bare string [Vegan]. *)
Definition vegan_json : string :=
  "{" ++ dq ++ "filters" ++ dq ++ ": {" ++ dq ++ "dietary" ++ dq ++ ": "
      ++ dq ++ "Vegan" ++ dq ++ "}}".

Definition vegan_object : pyval :=
  PDict (<["filters" := PDict (<["dietary" := PStr "Vegan"]> ∅)]> ∅).

Definition loads (s : string) : option pyval :=
  if String.eqb s vegan_json then Some vegan_object else None.

Definition builtins : Builtins := {|
    py_repr := repr;
    py_int_of_str := fun _ => None;
    json_loads := loads;
    str_to_numeric := fun _ => None;
    sort_values := sort_rows;
    with_distance := empty_distance;
    analyst_prompt := fun user_query => "Query: " ++ user_query
  |}.

(** A store whose language model answers every prompt with [text]. *)
Definition model_answers (text : string) (query : string) : option DataFrame :=
  Some (mkDataFrame ["RESPONSE"] [[CStr text]]).

(** The candidate set of the price example: ten rows with the price tiers
    1, 2, 3, 4, 2, 1, 3, 4, 2, 1. *)
Definition tier_row (name : string) (tier : Z) : list cell :=
  [CStr name; CNum (inject_Z tier)].

Definition ten_rows : DataFrame :=
  mkDataFrame ["RESTAURANT_NAME"; "PRICE_LEVEL"]
    [ tier_row "r0" 1; tier_row "r1" 2; tier_row "r2" 3; tier_row "r3" 4;
      tier_row "r4" 2; tier_row "r5" 1; tier_row "r6" 3; tier_row "r7" 4;
      tier_row "r8" 2; tier_row "r9" 1 ].

(** A store in which the master table holds two rows for restaurant [r1]:
    the similarity search answers one row, the attribute lookup two. *)
Definition search_answer : DataFrame :=
  mkDataFrame
    ["RESTAURANT_ID"; "RESTAURANT_NAME"; "PRIMARY_CUISINE"; "NEIGHBORHOOD"; "SIMILARITY_SCORE"]
    [[CStr "r1"; CStr "Pizzeria Uno"; CStr "Pizza"; CStr "Fenway"; CNum (9 # 10)]].

Definition master_answer : DataFrame :=
  mkDataFrame ["RESTAURANT_ID"; "PHONE"]
    [[CStr "r1"; CStr "617-555-0100"]; [CStr "r1"; CStr "617-555-0199"]].

Definition single_master_store (query : string) : option DataFrame :=
  if PyString.contains Retriever.GOLD_RESTAURANTS_MASTER query
  then Some (mkDataFrame ["RESTAURANT_ID"; "PHONE"] [[CStr "r1"; CStr "617-555-0100"]])
  else Some search_answer.

Definition duplicate_master_store (query : string) : option DataFrame :=
  if PyString.contains Retriever.GOLD_RESTAURANTS_MASTER query then Some master_answer
  else Some search_answer.

(** Raw filters in legacy shape: a bare string under the key [service], a
    list holding a mixed-case token, a blank and a number. *)
Definition legacy_filters : gmap string pyval :=
  <["service" := PStr " Outdoor "]>
  (<["dietary" := PList [PStr "Vegan"; PStr " "; PInt 5]]> ∅).

(** Raw filters with a null under the canonical key [service_type] next to
    the legacy key [service]. *)
Definition null_beside_alias : gmap string pyval :=
  <["service_type" := PNone]> (<["service" := PStr "outdoor"]> ∅).

(** The same with the empty list the analyst puts in place of a null. *)
Definition empty_beside_alias : gmap string pyval :=
  <["service_type" := PList []]> (<["service" := PStr "outdoor"]> ∅).

(** Writer messages and a reviewer stub answering from a list of scores. *)
Definition draft (i : nat) : AgentMessage pyval :=
  mkAgentMessage "Writer" "success"
    (Some (PDict (<["recommendation" := PStr ("draft " ++ dec_int (Z.of_nat i + 1))]> ∅)))
    (85 # 100)%Q ∅.

Definition stub_reviewer (scores : list Z) (writer_msg : AgentMessage pyval) (iteration : Z)
  : Reviewer.Review :=
  let score := nth (Z.to_nat (iteration - 1)) scores 7 in
  Reviewer.mkReview
    (mkAgentMessage "Reviewer" (if score >=? 8 then "success" else "partial")
       (Some (PDict (<["score" := PInt score]> ∅))) (9 # 10)%Q ∅)
    score "" (Some "").

End Sample.

(* ===================================================================== *)
(** * More on Python strings *)
(* ===================================================================== *)

Module PyText.

(** No character of [s] is in the class [p]. *)
Fixpoint avoids (p : ascii -> bool) (s : string) : bool :=
  match s with
  | EmptyString => true
  | String c s' => negb (p c) && avoids p s'
  end.

(** No character of [s] is a decimal digit. *)
Definition digit_free (s : string) : bool := avoids PyString.is_digit s.

(** No character of [s] is a backtick. *)
Definition is_backtick (c : ascii) : bool := Ascii.eqb c "`"%char.

Definition backtick_free (s : string) : bool := avoids is_backtick s.

(** A line feed. *)
Definition nl : string := String (ascii_of_nat 10) EmptyString.

(** A continuation of the matcher that fails on every text without a
    digit. *)
Definition fails_without_digit (k : PyRe.cont) : Prop :=
  forall prev s cap, digit_free s = true -> k prev s cap = None.

(** Every match of [r] takes a digit. *)
Definition needs_digit (ic : bool) (r : PyRe.regex) : Prop :=
  forall k, fails_without_digit (fun prev s cap => PyRe.rmatch ic r prev s cap k).

End PyText.

(* ===================================================================== *)
(** * The researcher's steps as a table *)
(* ===================================================================== *)

Module ResearcherSteps.
Import Frame FrameOps Researcher.

(** [df'] has the columns of [df] and some of its rows, in their order. *)
Definition narrows (df' df : DataFrame) : Prop :=
  columns df' = columns df /\ sublist (rows df') (rows df).

(** The attribute steps of [researcher_agent] in the order of the source:
    the slot read, the tokens that ask for the step, the column tested. *)
Definition attribute_steps : list (string * list string * string) :=
  [ ("dietary", ["vegetarian"; "vegan"], "SERVES_VEGETARIAN");
    ("meal_time", ["breakfast"], "SERVES_BREAKFAST");
    ("meal_time", ["lunch"], "SERVES_LUNCH");
    ("meal_time", ["dinner"], "SERVES_DINNER");
    ("accessibility", ["wheelchair"], "IS_WHEELCHAIR_ACCESSIBLE");
    ("accessibility", ["groups"; "group"], "GOOD_FOR_GROUPS");
    ("accessibility", ["children"; "kids"; "family"], "GOOD_FOR_CHILDREN");
    ("service_type", ["outdoor"], "OUTDOOR_SEATING");
    ("service_type", ["takeout"], "TAKEOUT");
    ("service_type", ["delivery"], "DELIVERY");
    ("service_type", ["reservations"; "reservable"], "RESERVABLE");
    ("special_needs", ["coffee_shop"; "cafe"], "SERVES_COFFEE");
    ("special_needs", ["pet_friendly"; "dogs"], "ALLOWS_DOGS");
    ("special_needs", ["live_music"], "LIVE_MUSIC") ].

(** One step of the table on the normalised filters [f]. *)
Definition attribute_step (f : gmap string pyval) (df : DataFrame)
    (step : string * list string * string) : DataFrame :=
  let '(slot, tokens, col) := step in
  flag_filter (existsb (slot_has f slot) tokens) col df.

(** The value in column [col] of [row] is true. *)
Definition flag_set (cols : list string) (col : string) (row : list cell) : Prop :=
  cell_is_true (get cols row col) = true.

End ResearcherSteps.

(* ===================================================================== *)
(** * More sample data *)
(* ===================================================================== *)

Module Sample2.

(** Three candidates with a price tier, a safety score and the vegetarian
    flag; the second has no price and does not serve vegetarian food. *)
Definition menu_frame : DataFrame :=
  mkDataFrame ["RESTAURANT_NAME"; "PRICE_LEVEL"; "SAFETY_SCORE"; "SERVES_VEGETARIAN"]
    [ [CStr "Veggie Galaxy"; CNum (inject_Z 2); CNum (inject_Z 90); CBool true];
      [CStr "Steak House"; CNull; CNum (inject_Z 95); CBool false];
      [CStr "Falafel King"; CNum (inject_Z 1); CNum (inject_Z 70); CBool true] ].

(** The filters of a query for vegan food, as the model may phrase them. *)
Definition vegan_filters : gmap string pyval :=
  <["dietary" := PList [PStr " Vegan "]]> ∅.

Definition retrieved (df : DataFrame) : AgentMessage DataFrame :=
  mkAgentMessage "Retriever" "success" (Some df) (9 # 10)%Q ∅.

End Sample2.

(* ===================================================================== *)
(** * The shape of an analysis *)
(* ===================================================================== *)

Module AnalystSchema.
Import Analyst.

(** Every field the consumers of the analysis read is there: [cuisine] and
    [open_now], a [location] dict with [name], [mode] and [radius_miles], a
    [budget] dict with [max_price_level] and [max_dollars], and [filters]
    with its five slots filled. *)
Definition complete_analysis (analysis : gmap string pyval) : Prop :=
  is_Some (analysis !! "cuisine") /\
  is_Some (analysis !! "open_now") /\
  (exists location, analysis !! "location" = Some (PDict location) /\
     is_Some (location !! "name") /\ is_Some (location !! "mode") /\
     is_Some (location !! "radius_miles")) /\
  (exists budget, analysis !! "budget" = Some (PDict budget) /\
     is_Some (budget !! "max_price_level") /\ is_Some (budget !! "max_dollars")) /\
  slots_filled analysis.

End AnalystSchema.

(* ===================================================================== *)
(** * Input validation (agents/input_validator.py) *)
(* ===================================================================== *)

Module InputValidator.
Import PyString.

(** [s.upper()] *)
Fixpoint upper (s : string) : string :=
  match s with
  | EmptyString => EmptyString
  | String c s' => String (upper_char c) (upper s')
  end.

(** [s.endswith(suffix)] *)
Definition endswith (suffix s : string) : bool :=
  (String.length suffix <=? String.length s)%nat &&
  String.eqb
    (String.substring (String.length s - String.length suffix) (String.length suffix) s)
    suffix.

(** config.py *)
Definition INVALID_LOCATIONS : list string :=
  [ "alaska"; "seattle"; "portland oregon"; "new york city"; "new york"; "nyc";
    "chicago"; "los angeles"; "san francisco"; "miami"; "texas";
    "california"; "florida"; "washington state" ].

Definition RESTAURANT_KEYWORDS : list string :=
  [ "food"; "restaurant"; "eat"; "dining"; "dinner"; "lunch"; "breakfast";
    "cuisine"; "mexican"; "italian"; "chinese"; "thai"; "indian"; "pizza";
    "burger"; "sushi"; "cafe"; "coffee"; "vegan"; "vegetarian";
    "place"; "spot"; "friendly" ].

Definition expanded_invalid : list string :=
  (INVALID_LOCATIONS ++
   [ "cambodia"; "thailand"; "vietnam"; "china"; "japan"; "korea";
     "france"; "italy"; "spain"; "mexico"; "canada";
     "new york"; "nyc"; "san francisco"; "los angeles"; "chicago";
     "seattle"; "miami"; "austin"; "denver" ])%list.

(** The locations that are let through when the query names a cuisine. *)
Definition cuisine_countries : list string :=
  [ "cambodia"; "thailand"; "vietnam"; "china"; "japan"; "korea";
    "france"; "italy"; "spain"; "mexico" ].

Definition cuisine_words : list string :=
  [ "restaurant"; "food"; "cuisine"; "place"; "spot" ].

Definition fallback_keywords : list string :=
  (RESTAURANT_KEYWORDS ++
   [ "cafe"; "caffe"; "coffee"; "cofee"; "cofe";
     "food"; "foosd"; "fo0d"; "fod";
     "restaurant"; "resturant"; "restarant";
     "friendly"; "place"; "spot"; "eat"; "eating";
     "mexican"; "meican"; "italian"; "chinese"; "thai"; "pizza"; "burger";
     "near"; "in"; "at"; "around" ])%list.

(** [any(word in query_lower for word in words)] *)
Definition any_in (words : list string) (query_lower : string) : bool :=
  existsb (fun word => contains word query_lower) words.

(** The condition of the loop over the locations: the location stands in
    the query as a word of its own, at its start or at its end. *)
Definition names_location (query_lower location : string) : bool :=
  contains (" " ++ location ++ " ") (" " ++ query_lower ++ " ")
  || String.prefix (location ++ " ") query_lower
  || endswith (" " ++ location) query_lower.

(** The loop over the locations still to try: [true] when it returns the
    geographic rejection, [false] when it runs to its end. *)
Fixpoint geographic_restriction (locations : list string) (query_lower : string) : bool :=
  match locations with
  | [] => false
  | location :: rest =>
      if names_location query_lower location then
        if existsb (String.eqb location) cuisine_countries
           && any_in cuisine_words query_lower
        then geographic_restriction rest query_lower
        else true
      else geographic_restriction rest query_lower
  end.

Definition rejection (error suggestion : string) : AgentMessage pyval :=
  mkAgentMessage "InputValidator" "failed" None 0%Q
    (<["error" := PStr error]> (<["suggestion" := PStr suggestion]> ∅)).

Definition too_short : AgentMessage pyval :=
  rejection "Query too short" "Please describe what you're looking for".

Definition too_long : AgentMessage pyval :=
  rejection "Query too long" "Keep under 500 characters".

Definition outside_region : AgentMessage pyval :=
  rejection "Geographic restriction" "LocalEats AI only covers Boston/Cambridge/Somerville".

Definition off_topic : AgentMessage pyval :=
  rejection "Not a restaurant query"
    "LocalEats AI helps you find restaurants in Boston. Try: 'cheap Mexican food' or 'coffee shop near MIT'".

Definition no_keywords : AgentMessage pyval :=
  rejection "No restaurant keywords"
    "Try: 'Italian restaurant', 'coffee shop', or 'cheap Mexican food'".

Definition validated (user_query : string) : AgentMessage pyval :=
  agent_message "InputValidator" "success"
    (Some (PDict (<["original_query" := PStr user_query]> ∅))) (95 # 100)%Q.

(** The second stage, from the answer of the model: the verdict on a
    non-empty answer, the keyword check on a missing or empty one. *)
Definition intent_verdict (user_query : string) (result : option string)
  : AgentMessage pyval :=
  match result with
  | Some (String _ _ as result) =>
      let answer := upper (strip result) in
      if contains "NO" answer || contains "NOT" answer then off_topic
      else validated user_query
  | _ =>
      if negb (any_in fallback_keywords (lower user_query)) then no_keywords
      else validated user_query
  end.

Section WithPrompt.

(** The f-string [intent_check_prompt], as a function of the query. *)
Variable intent_check_prompt : string -> string.

(** [input_validation_agent] *)
Definition input_validation_agent (user_query : string) : Eff (AgentMessage pyval) :=
  if (String.length (strip user_query) <? 2)%nat then Ret too_short
  else if (500 <? String.length user_query)%nat then Ret too_long
  else
    let query_lower := lower user_query in
    if geographic_restriction expanded_invalid query_lower then Ret outside_region
    else
      result ← call_cortex (intent_check_prompt user_query) (1 # 10)%Q;
      Ret (intent_verdict user_query result).

End WithPrompt.

(** The first stage lets the query through: it is neither too short nor too
    long, and the loop over the locations runs to its end. *)
Definition passes_basic_checks (user_query : string) : Prop :=
  (2 <= String.length (strip user_query))%nat /\
  (String.length user_query <= 500)%nat /\
  geographic_restriction expanded_invalid (lower user_query) = false.

(** The cuisine exception applies to the location in this query. *)
Definition read_as_cuisine (query_lower location : string) : bool :=
  existsb (String.eqb location) cuisine_countries && any_in cuisine_words query_lower.

End InputValidator.


(* ===================================================================== *)
(** * Locations named in the query (utils/smart_location_handler.py) *)
(* ===================================================================== *)

Module SmartLocation.
Import PyString Orchestrator.

Definition FALLBACK_COORDS : list (string * (Q * Q)) :=
  [ ("boston", (423601 # 10000, - 710589 # 10000));
    ("cambridge", (423736 # 10000, - 711097 # 10000));
    ("somerville", (423876 # 10000, - 710995 # 10000)) ]%Q.

(** [s.split(sep)[0]] *)
Definition split_first (sep s : string) : string :=
  match split_once sep s with
  | Some (before, _) => before
  | None => s
  end.

(** [s.split(sep)[1]]: the text between the first and the second [sep];
    [None] when [sep] does not occur and Python raises. *)
Definition split_second (sep s : string) : option string :=
  match split_once sep s with
  | Some (_, after) => Some (split_first sep after)
  | None => None
  end.

(** The dict [{latitude, longitude, name, neighborhood}]. *)
Definition place (latitude longitude name neighborhood : pyval) : gmap string pyval :=
  <["latitude" := latitude]>
  (<["longitude" := longitude]>
  (<["name" := name]>
  (<["neighborhood" := neighborhood]> ∅))).

(** The loop over [FALLBACK_COORDS], over the entries still to try. *)
Fixpoint fallback_in (table : list (string * (Q * Q))) (location_name : string)
  : option (gmap string pyval) :=
  match table with
  | (key, (lat, lon)) :: rest =>
      if contains key (strip (lower location_name)) then
        Some (place (PFloat lat) (PFloat lon) (PStr location_name) (PStr (title key)))
      else fallback_in rest location_name
  | [] => None
  end.

(** The fallback lookup; it raises on a name that has no [lower]. *)
Definition fallback (location_name : pyval) : outcome (option (gmap string pyval)) :=
  match location_name with
  | PStr s => Returned (fallback_in FALLBACK_COORDS s)
  | _ => Raised
  end.

(** The cleaning of the answer; [None] when it raises. *)
Definition unfence (result : string) : option string :=
  let result_clean := strip result in
  if contains "```json" result_clean then
    split_first "```" <$> split_second "```json" result_clean
  else if contains "```" result_clean then
    split_first "```" <$> split_second "```" result_clean
  else Some result_clean.

Section WithBuiltins.
Context `{Builtins}.

(** The [try] block of [geocode_with_llm]: what it returns, or [None] when
    it raises. *)
Definition from_answer (location_name : pyval) (result : string)
  : option (option (gmap string pyval)) :=
  result_clean ← unfence result;
  parsed ← json_loads result_clean;
  match parsed with
  | PDict parsed =>
      if negb (py_truthy (dict_get parsed "is_valid_boston_location")) then Some None
      else
        latitude ← parsed !! "latitude";
        longitude ← parsed !! "longitude";
        Some (Some (place latitude longitude
                      (dict_get_default parsed "normalized_name" location_name)
                      (dict_get parsed "neighborhood")))
  | _ => None
  end.

(** What [geocode_with_llm] returns once the answer of the model is in:
    the fallback lookup on a missing or empty answer and when the [try]
    block raises. *)
Definition settle (location_name : pyval) (result : option string)
  : outcome (option (gmap string pyval)) :=
  match result with
  | Some (String _ _ as result) =>
      match from_answer location_name result with
      | Some found => Returned found
      | None => fallback location_name
      end
  | _ => fallback location_name
  end.

(** The f-string [geocoding_prompt], as a function of the text the name is
    printed as. *)
Variable geocoding_prompt : string -> string.

(** [geocode_with_llm] *)
Definition geocode_with_llm (location_name : pyval)
  : Eff (outcome (option (gmap string pyval))) :=
  if negb (py_truthy location_name) then Ret (Returned None)
  else
    result ← call_cortex (geocoding_prompt (py_str location_name)) (1 # 10)%Q;
    Ret (settle location_name result).

(** The rest of [get_search_area_from_analyst], from the geocoded area. *)
Definition with_mode (location_info : gmap string pyval) (mode : pyval)
    (search_area : outcome (option (gmap string pyval)))
  : outcome (option (gmap string pyval)) :=
  match search_area with
  | Returned (Some area) =>
      if py_truthy (PDict area) then
        Returned (Some
          (<["radius_miles" :=
               dict_get_default location_info "radius_miles" (PFloat (15 # 10))]>
           (<["mode" := mode]> area)))
      else Returned (Some area)
  | other => other
  end.

(** [get_search_area_from_analyst] *)
Definition get_search_area_from_analyst (analyst_data : gmap string pyval)
  : Eff (outcome (option (gmap string pyval))) :=
  match dict_get_default analyst_data "location" (PDict ∅) with
  | PDict location_info =>
      let location_name := dict_get location_info "name" in
      let mode := dict_get_default location_info "mode" (PStr "none") in
      if negb (py_truthy location_name) || Retriever.py_eq_str mode "none" then
        Ret (Returned None)
      else
        search_area ← geocode_with_llm location_name;
        Ret (with_mode location_info mode search_area)
  | _ => Ret Raised
  end.

End WithBuiltins.

(** The four keys of a geocoded place are there. *)
Definition is_place (area : gmap string pyval) : Prop :=
  is_Some (area !! "latitude") /\ is_Some (area !! "longitude") /\
  is_Some (area !! "name") /\ is_Some (area !! "neighborhood").

End SmartLocation.

(* ===================================================================== *)
(** * Follow-up questions (agents/intent_agent .py) *)
(* ===================================================================== *)

Module Intent.
Import PyString Orchestrator Frame.

(** The previous results the two functions are given: a DataFrame, or the
    dict the orchestrator returned, of which they read [researcher_data].
    The other shapes [execute_intent] tells apart are left out. *)
Inductive previous : Type :=
| AsFrame (df : DataFrame)
| AsPipeline (result : PipelineResult).

(** [results_df]; [None] is Python's [None]. *)
Definition results_df (previous_results : previous) : option DataFrame :=
  match previous_results with
  | AsFrame df => Some df
  | AsPipeline result => researcher_data result
  end.

(** [df.head(n)] *)
Definition head (n : nat) (df : DataFrame) : DataFrame :=
  mkDataFrame (columns df) (firstn n (rows df)).

(** What [execute_intent] returns: [{"error": ...}],
    [{"results": ..., "action": ...}] with the [location] of the closest
    search, or [{"action": ..., "message": ...}]. *)
Inductive intent_result : Type :=
| IntentError (error : string)
| IntentResults (results : DataFrame) (action : string) (location : option pyval)
| IntentAction (action message : string).

(** The dict returned when the model gives nothing usable. *)
Definition fallback_intent (user_query : string) : gmap string pyval :=
  <["intent_type" := PStr "new_search"]>
  (<["interpreted_intent" := PStr user_query]>
  (<["requires_new_search" := PBool false]> ∅)).

Definition HARVARD : pyval := Geo.location_dict (423736 # 10000) (- 711197 # 10000) "Harvard".
Definition MIT : pyval := Geo.location_dict (423601 # 10000) (- 710942 # 10000) "MIT".
Definition DOWNTOWN : pyval := Geo.location_dict (423601 # 10000) (- 710589 # 10000) "Downtown".

Section WithBuiltins.
Context `{Builtins}.

(** The display of the parsed intent returns normally. *)
Definition shows (parsed : gmap string pyval) : bool :=
  let filters := dict_get_default parsed "filter_criteria" (PDict ∅) in
  if py_truthy filters then
    match filters with
    | PDict filters =>
        forallb (fun key =>
                   if py_truthy (dict_get filters key)
                   then Analyst.joinable (dict_get filters key) else true)
          ["dietary"; "accessibility"; "service_type"; "special_needs"; "meal_time"]
    | _ => false
    end
  else true.

(** What [intent_understanding_agent] returns once the answer of the model
    is in. *)
Definition understood (user_query : string) (result : option string) : gmap string pyval :=
  match result with
  | Some (String _ _ as result) =>
      match SmartLocation.unfence result ≫= json_loads with
      | Some (PDict parsed) =>
          if shows parsed then parsed else fallback_intent user_query
      | _ => fallback_intent user_query
      end
  | _ => fallback_intent user_query
  end.

(** The f-string [intent_prompt], as a function of the number of previous
    results, when there are previous results, and of the query. *)
Variable intent_prompt : option nat -> string -> string.

(** [num_results]; [None] when [len] raises. *)
Definition num_results (previous_results : option previous) : option (option nat) :=
  match previous_results with
  | None => Some None
  | Some previous_results =>
      match results_df previous_results with
      | Some df => Some (Some (len df))
      | None => None
      end
  end.

(** [intent_understanding_agent] *)
Definition intent_understanding_agent (user_query : string)
    (previous_results : option previous) : Eff (outcome (gmap string pyval)) :=
  match num_results previous_results with
  | None => Ret Raised
  | Some n =>
      result ← call_cortex (intent_prompt n user_query) (3 # 10)%Q;
      Ret (Returned (understood user_query result))
  end.

(** The two distance columns [CALC_DIST_M] and [CALC_DIST_MI], computed
    from the target with floating-point trigonometry; [None] when it
    raises. *)
Variable with_calc_dist : pyval -> DataFrame -> option DataFrame.

(** [target_coords] of the closest search; [Returned None] when no
    location is specified. *)
Definition target_coords (intent : gmap string pyval) (user_location : option pyval)
  : outcome (option pyval) :=
  let target_loc_name := dict_get intent "target_location" in
  if py_truthy target_loc_name then
    match target_loc_name with
    | PStr name =>
        let target_lower := lower name in
        Returned (Some
          (if contains "harvard" target_lower then HARVARD
           else if contains "mit" target_lower then MIT
           else if contains "downtown" target_lower then DOWNTOWN
           else Geo.geocode_location name))
    | _ => Raised
    end
  else
    match user_location with
    | Some location => if py_truthy location then Returned (Some location) else Returned None
    | None => Returned None
    end.

(** [results_df.copy()] followed by [sort_values] and [head]. *)
Definition sorted_head (previous_results : previous) (col : string) (ascending : bool)
    (n : nat) (action : string) : outcome intent_result :=
  match results_df previous_results with
  | None => Raised
  | Some results =>
      match sort_values col ascending results with
      | Some results => Returned (IntentResults (head n results) action None)
      | None => Raised
      end
  end.

Definition find_closest (intent : gmap string pyval) (previous_results : previous)
    (user_location : option pyval) : outcome intent_result :=
  match target_coords intent user_location with
  | Raised => Raised
  | Returned None => Returned (IntentError "No location specified")
  | Returned (Some target) =>
      match target with
      | PDict coords =>
          match coords !! "name", results_df previous_results with
          | Some name, Some results =>
              if has_column results "LATITUDE" && has_column results "LONGITUDE" then
                match with_calc_dist target results ≫= sort_values "CALC_DIST_MI" true with
                | Some results =>
                    Returned (IntentResults (head 3 results) "show_closest" (Some name))
                | None => Raised
                end
              else Returned (IntentError "No coordinates")
          | _, _ => Raised
          end
      | _ => Raised
      end
  end.

(** [execute_intent], once [results_df] is taken from the previous results. *)
Definition execute_intent (intent : gmap string pyval) (previous_results : previous)
    (user_location : option pyval) : outcome intent_result :=
  let intent_type := dict_get intent "intent_type" in
  if Retriever.py_eq_str intent_type "find_closest" then
    find_closest intent previous_results user_location
  else if Retriever.py_eq_str intent_type "find_cheapest"
          || Retriever.py_eq_str (dict_get intent "sort_by") "price" then
    sorted_head previous_results "PRICE_LEVEL" true 5 "show_cheapest"
  else if Retriever.py_eq_str intent_type "find_safest"
          || Retriever.py_eq_str (dict_get intent "sort_by") "safety" then
    sorted_head previous_results "SAFETY_SCORE" false 5 "show_safest"
  else if Retriever.py_eq_str intent_type "filter_by_attribute" then
    let sort_by := dict_get_default intent "sort_by" (PStr "OVERALL_SCORE") in
    if Retriever.py_eq_str sort_by "safety" then
      sorted_head previous_results "SAFETY_SCORE" false 5 "show_filtered"
    else if Retriever.py_eq_str sort_by "price" then
      sorted_head previous_results "PRICE_LEVEL" true 5 "show_filtered"
    else
      sorted_head previous_results "OVERALL_SCORE" false 5 "show_filtered"
  else if py_truthy (dict_get intent "requires_new_search") then
    Returned (IntentAction "trigger_new_search" "Please use search box above")
  else
    Returned (IntentAction "unknown"
                "Try: 'which is closest?', 'cheapest?', 'good for groups?'").

(** Sorting rearranges the rows and keeps the columns. *)
Definition sort_values_permutes : Prop :=
  forall (col : string) (ascending : bool) (df df' : DataFrame),
    sort_values col ascending df = Some df' ->
    columns df' = columns df /\ Permutation (rows df') (rows df).

End WithBuiltins.

(** The answer holds the first [n] rows of a rearrangement of the previous
    results: it has their columns, [n] rows or all of them, and no row of
    its own. *)
Definition taken_from (previous_results : previous) (n : nat) (results : DataFrame) : Prop :=
  exists df, results_df previous_results = Some df /\
    columns results = columns df /\
    len results = Nat.min n (len df) /\
    forall row, In row (rows results) -> In row (rows df).

End Intent.

(* ===================================================================== *)
(** * The pipeline before the writer (agents/orchestrator.py) *)
(* ===================================================================== *)

Module Pipeline.
Import Orchestrator Frame.

Section WithBuiltins.
Context `{Builtins}.
Variable intent_check_prompt : string -> string.

(** The price bound given to the researcher: the analyst's price level
    when it has one and the bound chosen in the interface is ["Any"];
    [None] when [budget] is not a dict and Python raises. *)
Definition effective_max_price (analyst_data : gmap string pyval) (max_price : pyval)
  : option pyval :=
  match dict_get_default analyst_data "budget" (PDict ∅) with
  | PDict budget_info =>
      if py_truthy (dict_get budget_info "max_price_level")
         && Retriever.py_eq_str max_price "Any"
      then Some (dict_get budget_info "max_price_level")
      else Some max_price
  | _ => None
  end.

(** Sections 1 to 4 of [orchestrator_agent]: [Returned None] where the
    source returns [None], and otherwise the retriever and researcher
    messages the writer/reviewer loop starts from. *)
Definition orchestrator_front (user_query : string) (analyst_data : gmap string pyval)
    (user_location search_area : option (gmap string pyval))
    (max_price : pyval) (min_safety : Z) (filters : option (gmap string pyval))
  : Eff (outcome (option (AgentMessage DataFrame * AgentMessage DataFrame))) :=
  let norm_filters := _normalize_filters filters in
  validator_msg ← InputValidator.input_validation_agent intent_check_prompt user_query;
  if negb (is_successful validator_msg) then Ret (Returned None)
  else
    retriever_msg ←
      Retriever.retriever_agent user_query analyst_data user_location search_area 20;
    if negb (is_successful retriever_msg) || Nat.eqb (_safe_len (data retriever_msg)) 0
    then Ret (Returned None)
    else
      match effective_max_price analyst_data max_price with
      | None => Ret Raised
      | Some max_price =>
          let researcher_msg :=
            Researcher.researcher_agent (Some retriever_msg) max_price min_safety
              (Some norm_filters) in
          if Nat.eqb (_safe_len (data researcher_msg)) 0 then Ret (Returned None)
          else Ret (Returned (Some (retriever_msg, researcher_msg)))
      end.

End WithBuiltins.

End Pipeline.

(* ===================================================================== *)
(** * More sample data *)
(* ===================================================================== *)

(** Stores, prompts and inputs used to run the validator, the location
    handler and the follow-up agents on examples. *)
Module Sample3.
Import Frame.

(** A store whose model answers every prompt with the same text. *)
Definition answering (text : string) : string -> option DataFrame :=
  fun _ => Some (mkDataFrame ["RESPONSE"] [[CStr text]]).

(** A store whose model is unavailable. *)
Definition unavailable : string -> option DataFrame := fun _ => None.

Definition plain_prompt (user_query : string) : string := "Query: " ++ user_query.

(** What the analyst makes of an answer that names Cambridge and nothing
    else. *)
Definition cambridge_answer : pyval :=
  PDict (<["location" := PDict (<["name" := PStr "Cambridge"]>
                               (<["mode" := PStr "include_nearby"]> ∅))]> ∅).

(** Six candidates with their price tier and scores. *)
Definition scored_frame : DataFrame :=
  mkDataFrame ["RESTAURANT_NAME"; "PRICE_LEVEL"; "SAFETY_SCORE"; "OVERALL_SCORE"]
    [ [CStr "Veggie Galaxy"; CNum (inject_Z 2); CNum (inject_Z 90); CNum (inject_Z 81)];
      [CStr "Steak House"; CNum (inject_Z 4); CNum (inject_Z 95); CNum (inject_Z 77)];
      [CStr "Falafel King"; CNum (inject_Z 1); CNum (inject_Z 70); CNum (inject_Z 88)];
      [CStr "Noodle Bar"; CNum (inject_Z 2); CNum (inject_Z 85); CNum (inject_Z 64)];
      [CStr "Taqueria"; CNum (inject_Z 1); CNum (inject_Z 60); CNum (inject_Z 92)];
      [CStr "Oyster Room"; CNum (inject_Z 3); CNum (inject_Z 99); CNum (inject_Z 70)] ].

(** Distance columns left empty. *)
Definition no_distance (target : pyval) (df : DataFrame) : option DataFrame :=
  Some (mkDataFrame (columns df ++ ["CALC_DIST_M"; "CALC_DIST_MI"])%list
          (List.map (fun row => (row ++ [CNull; CNull])%list) (rows df))).

(** A follow-up that asks for the safest places, cheapest first. *)
Definition safest_by_price : gmap string pyval :=
  <["intent_type" := PStr "find_safest"]> (<["sort_by" := PStr "price"]> ∅).

(** A follow-up that filters, and asks for an ordering by rating. *)
Definition filtered_by_rating : gmap string pyval :=
  <["intent_type" := PStr "filter_by_attribute"]> (<["sort_by" := PStr "rating"]> ∅).

Definition intent_prompt (n : option nat) (user_query : string) : string :=
  "Follow-up: " ++ user_query.

Definition cambridge_analysis : gmap string pyval :=
  default ∅ (Analyst._fill_defaults cambridge_answer).

(** An answer of the model whose dietary slot holds a string and a number,
    and built-ins whose [json.loads] knows this document only. *)
Definition mixed_json : string :=
  "{" ++ Sample.dq ++ "filters" ++ Sample.dq ++ ": {" ++ Sample.dq ++ "dietary"
      ++ Sample.dq ++ ": [" ++ Sample.dq ++ "vegan" ++ Sample.dq ++ ", 5]}}".

Definition mixed_object : pyval :=
  PDict (<["filters" := PDict (<["dietary" := PList [PStr "vegan"; PInt 5]]> ∅)]> ∅).

Definition mixed_builtins : Builtins := {|
    py_repr := Sample.repr;
    py_int_of_str := fun _ => None;
    json_loads := fun s => if String.eqb s mixed_json then Some mixed_object else None;
    str_to_numeric := fun _ => None;
    sort_values := Sample.sort_rows;
    with_distance := Sample.empty_distance;
    analyst_prompt := fun user_query => "Query: " ++ user_query
  |}.

End Sample3.

(* ===================================================================== *)
(* ===================================================================== *)
(** * Properties *)
(* ===================================================================== *)
(* ===================================================================== *)

(** ** Strings *)

Module PyStringFacts.
Import PyString.

Ltac by_cases_on_char c :=
  destruct c as [[] [] [] [] [] [] [] []]; reflexivity.

Lemma is_space_lower_char c : is_space (lower_char c) = is_space c.
Proof. by_cases_on_char c. Qed.

Lemma lower_char_idem c : lower_char (lower_char c) = lower_char c.
Proof. by_cases_on_char c. Qed.

Lemma lower_idem s : lower (lower s) = lower s.
Proof. induction s as [|c s IH]; simpl; [done|]. by rewrite lower_char_idem, IH. Qed.

Lemma lstrip_lower s : lstrip (lower s) = lower (lstrip s).
Proof.
  induction s as [|c s IH]; simpl; [done|].
  rewrite is_space_lower_char. by destruct (is_space c).
Qed.

Lemma rstrip_lower s : rstrip (lower s) = lower (rstrip s).
Proof.
  induction s as [|c s IH]; simpl; [done|].
  rewrite IH, is_space_lower_char.
  destruct (rstrip s); simpl; [by destruct (is_space c)|done].
Qed.

Lemma strip_lower s : strip (lower s) = lower (strip s).
Proof. unfold strip. by rewrite rstrip_lower, lstrip_lower. Qed.

Lemma lower_nonempty s : nonempty (lower s) = nonempty s.
Proof. by destruct s. Qed.

Lemma rstrip_idem s : rstrip (rstrip s) = rstrip s.
Proof.
  induction s as [|c s IH]; simpl; [done|].
  destruct (rstrip s) as [|c' r] eqn:E.
  - destruct (is_space c) eqn:Ec; simpl; [done|]. by rewrite Ec.
  - simpl. simpl in IH. by rewrite IH.
Qed.

Lemma lstrip_idem s : lstrip (lstrip s) = lstrip s.
Proof.
  induction s as [|c s IH]; simpl; [done|].
  destruct (is_space c) eqn:Ec; [done|]. simpl. by rewrite Ec.
Qed.

(** Stripping on the left keeps a string that has nothing to strip on the
    right that way. *)
Lemma rstrip_lstrip s : rstrip s = s -> rstrip (lstrip s) = lstrip s.
Proof.
  induction s as [|c s IH]; simpl; [done|].
  intros E. destruct (is_space c) eqn:Ec; [|simpl; rewrite ?Ec; exact E].
  apply IH. destruct (rstrip s) as [|c' r] eqn:Er.
  - discriminate.
  - by injection E.
Qed.

Lemma strip_idem s : strip (strip s) = strip s.
Proof.
  unfold strip.
  rewrite (rstrip_lstrip (rstrip s)) by apply rstrip_idem.
  apply lstrip_idem.
Qed.

Lemma nonempty_true s : nonempty s = true <-> s <> EmptyString.
Proof. destruct s; simpl; split; intros; congruence. Qed.

(** A trimmed, lower-cased text that is not empty is a canonical token. *)
Lemma canonical_lower_strip s :
  strip s <> EmptyString -> canonical_token (lower (strip s)).
Proof.
  intros Hne. repeat split.
  - destruct (strip s); [done|discriminate].
  - by rewrite strip_lower, strip_idem.
  - apply lower_idem.
Qed.

End PyStringFacts.

(** ** Filter normalisation *)

Module FiltersFacts.
Import PyString PyStringFacts.

Section WithBuiltins.
Context `{Builtins}.

Lemma canonical_token_facts t :
  canonical_token t ->
  nonempty (strip t) = true /\ lower (strip t) = t.
Proof.
  intros (Hne & Hs & Hl). rewrite Hs. split; [by apply nonempty_true|done].
Qed.

Lemma ensure_list_canonical x :
  repr_nonblank -> Forall canonical_token (_ensure_list x).
Proof.
  intros Hrepr.
  assert (Hobj : forall v, strip (py_repr v) <> EmptyString ->
            Forall canonical_token [lower (strip (py_repr v))]).
  { intros v Hv. constructor; [|constructor]. by apply canonical_lower_strip. }
  destruct x as [|b|z|q|s|l|d]; simpl.
  - constructor.
  - destruct b; (constructor; [|constructor]); by apply canonical_lower_strip.
  - apply Hobj, (Hrepr (PInt z)).
  - apply Hobj, (Hrepr (PFloat q)).
  - destruct (nonempty (strip s)) eqn:E; constructor; [|constructor].
    apply canonical_lower_strip. by apply nonempty_true.
  - apply Forall_fmap, Forall_forall. intros v Hv.
    apply list_elem_of_filter in Hv as [Hv _]. simpl.
    apply canonical_lower_strip. by apply nonempty_true.
  - apply Hobj, (Hrepr (PDict d)).
Qed.

Lemma ensure_list_str_list l :
  Forall canonical_token l -> _ensure_list (str_list l) = l.
Proof.
  unfold str_list. simpl. induction 1 as [|t l Ht _ IH]; [done|].
  apply canonical_token_facts in Ht as [Hne Hl].
  rewrite fmap_cons, filter_cons_True by (simpl; exact Hne).
  rewrite fmap_cons. simpl. by rewrite Hl, IH.
Qed.

Lemma filter_dict_lookup l1 l2 l3 l4 l5 :
  filter_dict l1 l2 l3 l4 l5 !! "dietary" = Some (str_list l1) /\
  filter_dict l1 l2 l3 l4 l5 !! "meal_time" = Some (str_list l2) /\
  filter_dict l1 l2 l3 l4 l5 !! "accessibility" = Some (str_list l3) /\
  filter_dict l1 l2 l3 l4 l5 !! "service_type" = Some (str_list l4) /\
  filter_dict l1 l2 l3 l4 l5 !! "special_needs" = Some (str_list l5) /\
  filter_dict l1 l2 l3 l4 l5 !! "service" = None /\
  filter_dict l1 l2 l3 l4 l5 !! "special" = None.
Proof. unfold filter_dict. repeat split; by simplify_map_eq. Qed.

Lemma filter_dict_size l1 l2 l3 l4 l5 :
  Nat.eqb (size (filter_dict l1 l2 l3 l4 l5)) 0 = false.
Proof.
  apply Nat.eqb_neq. intros E. apply map_size_empty_iff in E.
  pose proof (filter_dict_lookup l1 l2 l3 l4 l5) as (E1 & _).
  rewrite E in E1. by rewrite lookup_empty in E1.
Qed.

(** Both normalisers leave a FilterSet as it is. *)
Lemma normalize_filters_fixed l1 l2 l3 l4 l5 :
  Forall canonical_token l1 -> Forall canonical_token l2 -> Forall canonical_token l3 ->
  Forall canonical_token l4 -> Forall canonical_token l5 ->
  _normalize_filters (Some (filter_dict l1 l2 l3 l4 l5)) = filter_dict l1 l2 l3 l4 l5.
Proof.
  intros H1 H2 H3 H4 H5.
  pose proof (filter_dict_lookup l1 l2 l3 l4 l5) as (E1 & E2 & E3 & E4 & E5 & E6 & E7).
  unfold _normalize_filters, dict_get, dict_get_default. cbn [from_option id].
  rewrite E1, E2, E3, E4, E5. cbn [from_option id].
  by rewrite !ensure_list_str_list.
Qed.

Lemma normalize_attribute_filters_fixed l1 l2 l3 l4 l5 :
  Forall canonical_token l1 -> Forall canonical_token l2 -> Forall canonical_token l3 ->
  Forall canonical_token l4 -> Forall canonical_token l5 ->
  _normalize_attribute_filters (Some (filter_dict l1 l2 l3 l4 l5))
  = filter_dict l1 l2 l3 l4 l5.
Proof.
  intros H1 H2 H3 H4 H5.
  pose proof (filter_dict_lookup l1 l2 l3 l4 l5) as (E1 & E2 & E3 & E4 & E5 & E6 & E7).
  unfold _normalize_attribute_filters, dict_get, dict_get_default.
  rewrite filter_dict_size, E1, E2, E3, E4, E5, E6, E7. cbn [from_option id].
  by rewrite !ensure_list_str_list.
Qed.

Lemma empty_filterset : is_filterset (filter_dict [] [] [] [] []).
Proof. exists [], [], [], [], []. by repeat split. Qed.

Lemma normalize_filters_filterset x :
  repr_nonblank -> is_filterset (_normalize_filters x).
Proof.
  intros Hrepr. unfold _normalize_filters.
  eexists _, _, _, _, _. split; [reflexivity|].
  repeat split; by apply ensure_list_canonical.
Qed.

Lemma normalize_attribute_filters_filterset x :
  repr_nonblank -> is_filterset (_normalize_attribute_filters x).
Proof.
  intros Hrepr. unfold _normalize_attribute_filters.
  destruct x as [d|]; [|apply empty_filterset].
  destruct (Nat.eqb (size d) 0); [apply empty_filterset|].
  eexists _, _, _, _, _. split; [reflexivity|].
  repeat split; try by apply ensure_list_canonical.
  - destruct (d !! "service"); [|by apply ensure_list_canonical].
    generalize (ensure_list_canonical
                  (dict_get_default d "service_type" (dict_get d "service")) Hrepr).
    destruct (_ensure_list _); [intros _; by apply ensure_list_canonical|done].
  - destruct (d !! "special"); [|by apply ensure_list_canonical].
    generalize (ensure_list_canonical
                  (dict_get_default d "special_needs" (dict_get d "special")) Hrepr).
    destruct (_ensure_list _); [intros _; by apply ensure_list_canonical|done].
Qed.

End WithBuiltins.

Lemma no_space_rstrip s : no_space s = true -> rstrip s = s.
Proof.
  induction s as [|c s IH]; simpl; [done|].
  intros [Hc Hs]%andb_prop. rewrite (IH Hs).
  destruct s; [|done]. by destruct (is_space c).
Qed.

Lemma no_space_strip s : no_space s = true -> strip s = s.
Proof.
  intros Hs. unfold strip. rewrite (no_space_rstrip s Hs).
  destruct s as [|c s]; [done|]. simpl in *. by destruct (is_space c).
Qed.

Lemma digit_char_no_space n : is_space (Sample.digit_char n) = false.
Proof.
  unfold Sample.digit_char.
  assert (Hlt : (n mod 10 < 10)%nat) by (apply Nat.mod_upper_bound; lia).
  revert Hlt. generalize (n mod 10)%nat. intros k Hk.
  do 10 (destruct k as [|k]; [reflexivity|]). lia.
Qed.

Lemma dec_nat_fuel_no_space fuel : forall n acc,
  no_space acc = true ->
  no_space (Sample.dec_nat_fuel fuel n acc) = true /\
  Sample.dec_nat_fuel fuel n acc <> EmptyString.
Proof.
  assert (Hstep : forall n acc, no_space acc = true ->
            no_space (String (Sample.digit_char n) acc) = true).
  { intros n acc Hacc. cbn [no_space]. by rewrite digit_char_no_space, Hacc. }
  induction fuel as [|fuel IH]; intros n acc Hacc; cbn [Sample.dec_nat_fuel].
  - split; [by apply Hstep|discriminate].
  - destruct (n <? 10)%nat.
    + split; [by apply Hstep|discriminate].
    + apply IH. by apply Hstep.
Qed.

Lemma dec_int_nonblank z : strip (Sample.dec_int z) <> EmptyString.
Proof.
  unfold Sample.dec_int.
  destruct (dec_nat_fuel_no_space (Z.abs_nat z) (Z.abs_nat z) "" eq_refl) as [Hs Hne].
  revert Hs Hne. generalize (Sample.dec_nat_fuel (Z.abs_nat z) (Z.abs_nat z) "").
  intros digits Hs Hne.
  rewrite no_space_strip.
  - destruct (z <? 0); [discriminate|exact Hne].
  - destruct (z <? 0); [|exact Hs].
    change (no_space (String "-"%char digits) = true). cbn [no_space]. by rewrite Hs.
Qed.

Lemma sample_repr_nonblank : repr_nonblank (H := Sample.builtins).
Proof.
  intros v. cbn [py_repr Sample.builtins].
  destruct v as [|b|z|q|s|l|d]; cbn [Sample.repr]; try exact I;
    try (vm_compute; discriminate).
  apply dec_int_nonblank.
Qed.

(** C4.  The Filter Normalizer is total and idempotent: for a mapping or
    null, whatever the shapes of the slot values and the key names, both
    normalisers ([_normalize_filters] of the orchestrator and
    [_normalize_attribute_filters] of the researcher) return the five-slot
    FilterSet form, and normalising their result again gives it back. *)
Theorem normalize_total_idempotent `{Builtins} (Hrepr : repr_nonblank)
    (x : option (gmap string pyval)) :
  (is_filterset (_normalize_filters x) /\
   _normalize_filters (Some (_normalize_filters x)) = _normalize_filters x) /\
  (is_filterset (_normalize_attribute_filters x) /\
   _normalize_attribute_filters (Some (_normalize_attribute_filters x))
   = _normalize_attribute_filters x).
Proof.
  split.
  - pose proof (normalize_filters_filterset x Hrepr) as Hfs. split; [done|].
    destruct Hfs as (l1 & l2 & l3 & l4 & l5 & -> & H1 & H2 & H3 & H4 & H5).
    by apply normalize_filters_fixed.
  - pose proof (normalize_attribute_filters_filterset x Hrepr) as Hfs. split; [done|].
    destruct Hfs as (l1 & l2 & l3 & l4 & l5 & -> & H1 & H2 & H3 & H4 & H5).
    by apply normalize_attribute_filters_fixed.
Qed.

Lemma normalize_total_idempotent_witness :
  repr_nonblank (H := Sample.builtins) /\
  ((is_filterset (_normalize_filters (H := Sample.builtins) (Some Sample.legacy_filters)) /\
    _normalize_filters (H := Sample.builtins)
      (Some (_normalize_filters (H := Sample.builtins) (Some Sample.legacy_filters)))
    = _normalize_filters (H := Sample.builtins) (Some Sample.legacy_filters)) /\
   (is_filterset
      (_normalize_attribute_filters (H := Sample.builtins) (Some Sample.legacy_filters)) /\
    _normalize_attribute_filters (H := Sample.builtins)
      (Some (_normalize_attribute_filters (H := Sample.builtins) (Some Sample.legacy_filters)))
    = _normalize_attribute_filters (H := Sample.builtins) (Some Sample.legacy_filters))).
Proof.
  split; [exact sample_repr_nonblank|].
  exact (normalize_total_idempotent (H := Sample.builtins) sample_repr_nonblank
           (Some Sample.legacy_filters)).
Defined.

Lemma filter_dict_service_type_inj l1 l2 l3 l4 l5 m1 m2 m3 m4 m5 :
  filter_dict l1 l2 l3 l4 l5 = filter_dict m1 m2 m3 m4 m5 -> l4 = m4.
Proof.
  intros E.
  pose proof (filter_dict_lookup l1 l2 l3 l4 l5) as (_ & _ & _ & E4 & _).
  pose proof (filter_dict_lookup m1 m2 m3 m4 m5) as (_ & _ & _ & E4' & _).
  rewrite E, E4' in E4. injection E4 as E4.
  unfold str_list in E4. revert E4. clear. revert l4.
  induction m4 as [|t m4 IH]; intros [|u l4]; simpl; try discriminate; [done|].
  intros E. injection E as -> E. f_equal. by apply IH.
Qed.

(** C6.  The two normalisers at the raw filters in which the canonical key
    [service_type] holds null (or an empty list) next to the legacy key
    [service]: the orchestrator's [_normalize_filters] leaves the
    [service_type] slot empty, the researcher's
    [_normalize_attribute_filters] falls back to the legacy key and fills it,
    so the two results differ. *)
Theorem normalizers_differ_on_null_beside_alias `{Builtins} :
  _normalize_filters (Some Sample.null_beside_alias) = filter_dict [] [] [] [] [] /\
  _normalize_attribute_filters (Some Sample.null_beside_alias)
  = filter_dict [] [] [] ["outdoor"] [] /\
  _normalize_filters (Some Sample.null_beside_alias)
  <> _normalize_attribute_filters (Some Sample.null_beside_alias) /\
  _normalize_filters (Some Sample.empty_beside_alias)
  <> _normalize_attribute_filters (Some Sample.empty_beside_alias).
Proof.
  assert (E1 : _normalize_filters (Some Sample.null_beside_alias)
               = filter_dict [] [] [] [] []) by (vm_compute; reflexivity).
  assert (E2 : _normalize_attribute_filters (Some Sample.null_beside_alias)
               = filter_dict [] [] [] ["outdoor"] []) by (vm_compute; reflexivity).
  assert (E3 : _normalize_filters (Some Sample.empty_beside_alias)
               = filter_dict [] [] [] [] []) by (vm_compute; reflexivity).
  assert (E4 : _normalize_attribute_filters (Some Sample.empty_beside_alias)
               = filter_dict [] [] [] ["outdoor"] []) by (vm_compute; reflexivity).
  repeat split; [done..| |].
  - rewrite E1, E2. intros E. by apply filter_dict_service_type_inj in E.
  - rewrite E3, E4. intros E. by apply filter_dict_service_type_inj in E.
Qed.

End FiltersFacts.

(** ** Quality reviewer *)

Module ReviewerFacts.
Import Reviewer.

Lemma clamp_score_range v : 1 <= clamp_score v <= 10.
Proof. unfold clamp_score. lia. Qed.

Lemma parse_score_range t : 1 <= _parse_score t <= 10.
Proof.
  unfold _parse_score.
  destruct t as [[|c s]|]; try lia.
  repeat (match goal with
          | |- context [match ?x with Some _ => _ | None => _ end] => destruct x
          end);
    try apply clamp_score_range; lia.
Qed.

(** C2, as the code has it.  [_parse_score] gives 9 on [OVERALL: 9]; on
    [Score: 11] no pattern matches (the fallback accepts a standalone number
    from 1 to 10 only) and the default 7 is returned, whereas [OVERALL: 11]
    is clamped to 10; [no numbers here] and a failed model call give the
    default 7; every result lies in the range 1 to 10. *)
Theorem parse_score_examples_and_range :
  _parse_score (Some "OVERALL: 9") = 9 /\
  _parse_score (Some "Score: 11") = 7 /\
  _parse_score (Some "OVERALL: 11") = 10 /\
  _parse_score (Some "no numbers here") = 7 /\
  _parse_score None = 7 /\
  (forall t : option string, 1 <= _parse_score t <= 10).
Proof.
  split; [vm_compute; reflexivity|].
  split; [vm_compute; reflexivity|].
  split; [vm_compute; reflexivity|].
  split; [vm_compute; reflexivity|].
  split; [reflexivity|].
  exact parse_score_range.
Qed.

(** C2 as stated fails: on [Score: 11] the parser does not return 10. *)
Lemma parse_score_eleven_is_not_clamped : _parse_score (Some "Score: 11") <> 10.
Proof. vm_compute. discriminate. Qed.

Section WithBuiltins.
Context `{Builtins}.

Lemma extract_text_missing_or_failed writer_msg :
  missing_or_failed writer_msg = true -> _extract_text writer_msg = "".
Proof.
  destruct writer_msg as [m|]; simpl; [|done]. by intros ->.
Qed.

(** Every score the reviewer hands to the orchestrator lies between 0 and
    10, whatever the store answers. *)
Lemma reviewer_agent_score_range store writer_msg user_query iteration :
  0 <= score (run store (reviewer_agent writer_msg user_query iteration)) <= 10.
Proof.
  unfold reviewer_agent.
  destruct (missing_or_failed writer_msg); [simpl; lia|].
  destruct (negb (PyString.nonempty (_extract_text writer_msg))); [simpl; lia|].
  unfold call_cortex, call_cortex_model. cbn [mbind eff_mbind eff_bind run].
  match goal with
  | |- context [_parse_score ?t] => pose proof (parse_score_range t) as Hrange
  end.
  destruct (_ >=? 8); simpl; lia.
Qed.

End WithBuiltins.

(** C10.  When the writer message is absent or not successful, or the text
    extracted from it is empty, [reviewer_agent] returns at once, without a
    query to the session (hence without a model call): a failed Reviewer
    message with null payload and confidence 0, the score 0, and an empty raw
    evaluation.  The score 0 lies below every score [_parse_score] gives. *)
Theorem reviewer_rejects_unusable_writer_output `{Builtins}
    (writer_msg : option (AgentMessage pyval)) (user_query : option string) (iteration : Z) :
  missing_or_failed writer_msg = true \/ _extract_text writer_msg = "" ->
  (exists fb : string,
     reviewer_agent writer_msg user_query iteration
     = Ret (mkReview (agent_message "Reviewer" "failed" None 0%Q) 0 fb (Some ""))) /\
  (forall store, queries store (reviewer_agent writer_msg user_query iteration) = []) /\
  (forall t : option string, 0 < _parse_score t).
Proof.
  intros Hbad.
  assert (Hret : exists fb : string,
     reviewer_agent writer_msg user_query iteration
     = Ret (mkReview (agent_message "Reviewer" "failed" None 0%Q) 0 fb (Some ""))).
  { unfold reviewer_agent.
    destruct (missing_or_failed writer_msg) eqn:Em; [by eexists|].
    destruct Hbad as [Hbad|Hbad]; [done|]. rewrite Hbad. by eexists. }
  split; [done|]. split.
  - intros store. destruct Hret as [fb ->]. done.
  - intros t. pose proof (parse_score_range t). lia.
Qed.

Lemma reviewer_rejects_unusable_writer_output_witness :
  (missing_or_failed (D := pyval) None = true \/
   _extract_text (H := Sample.builtins) None = "") /\
  ((exists fb : string,
     reviewer_agent (H := Sample.builtins) None (Some "pizza near MIT") 1
     = Ret (mkReview (agent_message "Reviewer" "failed" None 0%Q) 0 fb (Some ""))) /\
   (forall store,
      queries store (reviewer_agent (H := Sample.builtins) None (Some "pizza near MIT") 1) = []) /\
   (forall t : option string, 0 < _parse_score t)).
Proof.
  split; [left; reflexivity|].
  apply (reviewer_rejects_unusable_writer_output (H := Sample.builtins)
           None (Some "pizza near MIT") 1).
  left. reflexivity.
Defined.

End ReviewerFacts.

(** ** Orchestrator: the Writer/Reviewer loop *)

Module OrchestratorFacts.
Import Orchestrator.

Section Loop.
Variable writer_agent : nat -> AgentMessage pyval.
Variable reviewer_agent : AgentMessage pyval -> Z -> Reviewer.Review.
Variable quality_threshold : Z.

#[local] Abbreviation ok := (writer_ok writer_agent).
#[local] Abbreviation sc := (score_at writer_agent reviewer_agent).
#[local] Abbreviation pass := (passes writer_agent reviewer_agent quality_threshold).
#[local] Abbreviation loop := (loop_over writer_agent reviewer_agent quality_threshold).
#[local] Abbreviation ran_ := (ran writer_agent reviewer_agent quality_threshold).

Lemma loop_over_ran m : forall a st, exists r, ran_ a m st (loop (seq a m) st) r.
Proof.
  induction m as [|m IH]; intros a st.
  - exists 0%nat. constructor; simpl; try lia; try (intros; lia). by left.
  - cbn [seq loop_over].
    fold (writer_ok writer_agent a). fold (score_at writer_agent reviewer_agent a).
    destruct (ok a) eqn:Eok; cbn [negb].
    + (* the writer succeeded: the reviewer scores the message *)
      set (st1 := if sc a >? best_score st
                  then mkIterationState (Some (writer_agent a)) (sc a) (S (iterations_run st))
                  else mkIterationState (best_writer_msg st) (best_score st)
                         (S (iterations_run st))).
      assert (Hst1 : iterations_run st1 = S (iterations_run st) /\
                     best_score st <= best_score st1 /\ sc a <= best_score st1 /\
                     ((best_writer_msg st1 = best_writer_msg st /\
                       best_score st1 = best_score st) \/
                      (best_writer_msg st1 = Some (writer_agent a) /\
                       best_score st1 = sc a /\ best_score st < sc a))).
      { subst st1. destruct (Z.gtb_spec (sc a) (best_score st)); simpl.
        - repeat split; try lia. right. repeat split; done || lia.
        - repeat split; try lia. by left. }
      destruct Hst1 as (Hn1 & Hb1 & Hs1 & Hfrom1).
      change (exists r, ran_ a (S m) st
                (if sc a >=? quality_threshold then st1
                 else loop (seq (S a) m) st1) r).
      destruct (Z.geb_spec (sc a) quality_threshold) as [Hge|Hlt].
      * (* break *)
        assert (Epass : pass a = true).
        { unfold passes. rewrite Eok. simpl. apply Z.geb_le. lia. }
        exists 1%nat. constructor.
        -- lia.
        -- lia.
        -- intros j ? ?. lia.
        -- intros _. split; [lia|]. by replace (a + 1 - 1)%nat with a by lia.
        -- lia.
        -- intros j Hj _. by replace j with a by lia.
        -- destruct Hfrom1 as [?|(? & ? & ?)]; [by left|right].
           exists a. repeat split; try done; try lia; intros j ?; lia.
      * (* next iteration *)
        assert (Epass : pass a = false).
        { unfold passes. rewrite Eok. simpl. rewrite Z.geb_leb. apply Z.leb_gt. lia. }
        destruct (IH (S a) st1) as [r Hr]. destruct Hr.
        exists (S r). constructor.
        -- lia.
        -- lia.
        -- intros j Hj1 Hj2. destruct (decide (j = a)) as [->|]; [done|].
           apply ran_no_pass_before0; lia.
        -- intros Hlt'. destruct ran_stopped_on_pass0 as [? Hp]; [lia|].
           split; [lia|]. by replace (a + S r - 1)%nat with (S a + r - 1)%nat by lia.
        -- lia.
        -- intros j Hj Hokj. destruct (decide (j = a)) as [->|]; [lia|].
           apply ran_best_upper0; [lia|done].
        -- destruct ran_best_from0 as [[Ew Eb]|(i & Hi & Hoki & Ew & Eb & Hlt1 & Hfirst)].
           ++ rewrite Ew, Eb.
              destruct Hfrom1 as [?|(? & ? & ?)]; [by left|right].
              exists a. repeat split; try done; try lia; intros j ?; lia.
           ++ right. exists i. repeat split; try done; try lia.
              intros j Hj Hokj. destruct (decide (j = a)) as [->|]; [lia|].
              apply Hfirst; [lia|done].
    + (* the writer failed: continue *)
      assert (Epass : pass a = false) by (unfold passes; by rewrite Eok).
      destruct (IH (S a) (mkIterationState (best_writer_msg st) (best_score st)
                            (S (iterations_run st)))) as [r Hr].
      destruct Hr. simpl in *.
      exists (S r). constructor.
      * lia.
      * lia.
      * intros j Hj1 Hj2. destruct (decide (j = a)) as [->|]; [done|].
        apply ran_no_pass_before0; lia.
      * intros Hlt'. destruct ran_stopped_on_pass0 as [? Hp]; [lia|].
        split; [lia|]. by replace (a + S r - 1)%nat with (S a + r - 1)%nat by lia.
      * lia.
      * intros j Hj Hokj. destruct (decide (j = a)) as [->|]; [congruence|].
        apply ran_best_upper0; [lia|done].
      * destruct ran_best_from0 as [?|(i & Hi & Hoki & Ew & Eb & Hlt1 & Hfirst)];
          [by left|right].
        exists i. repeat split; try done; try lia.
        intros j Hj Hokj. destruct (decide (j = a)) as [->|]; [congruence|].
        apply Hfirst; [lia|done].
Qed.

End Loop.

(** C1.  For every writer and reviewer (hence for every sequence of reviewer
    scores), threshold and iteration limit, the Writer/Reviewer loop enters at
    most [max_iterations] iterations; it goes on only after iterations whose
    score is below the threshold (or whose writer failed), and when it stops
    before the limit, the iteration it stopped on met the threshold; the best
    score bounds every score seen; a usable iteration with a score above the
    sentinel -1 (every score of the reviewer is) leaves a best message; and
    the loop ends either with no message (score at the sentinel -1) or with
    the writer message of the first iteration holding the highest score seen,
    together with that score; what the orchestrator then returns is the text
    of that message with that score.
    With scores 5, 9, 3, limit 3 and threshold 8 it stops after iteration 2
    with best score 9; with scores 4, 5, limit 2 and threshold 8 it runs
    twice and the orchestrator returns the iteration-2 text with score 5. *)
Theorem writer_reviewer_loop_spec `{Builtins}
    (writer_agent : nat -> AgentMessage pyval)
    (reviewer_agent : AgentMessage pyval -> Z -> Reviewer.Review)
    (quality_threshold max_iterations : Z) :
  let st := writer_reviewer_loop writer_agent reviewer_agent quality_threshold
              max_iterations in
  let ok := writer_ok writer_agent in
  let sc := score_at writer_agent reviewer_agent in
  let pass := passes writer_agent reviewer_agent quality_threshold in
  ((iterations_run st <= Z.to_nat max_iterations)%nat /\
   (forall j, (j + 1 < iterations_run st)%nat -> pass j = false) /\
   ((iterations_run st < Z.to_nat max_iterations)%nat ->
      (0 < iterations_run st)%nat /\ pass (iterations_run st - 1)%nat = true) /\
   (forall j, (j < iterations_run st)%nat -> ok j = true -> sc j <= best_score st) /\
   (forall j, (j < iterations_run st)%nat -> ok j = true -> -1 < sc j ->
      is_Some (best_writer_msg st)) /\
   ((best_writer_msg st = None /\ best_score st = -1) \/
    (exists i, (i < iterations_run st)%nat /\ ok i = true /\
               best_writer_msg st = Some (writer_agent i) /\
               best_score st = sc i /\
               forall j, (j < i)%nat -> ok j = true -> sc j < sc i)) /\
   (forall researcher_df retriever_df analyst result,
      orchestrator_tail writer_agent reviewer_agent quality_threshold max_iterations
        researcher_df retriever_df analyst = Returned (Some result) ->
      quality_score result = best_score st /\
      exists m, best_writer_msg st = Some m /\
                recommendation_text m = Some (recommendation result))) /\
  (let st1 := writer_reviewer_loop Sample.draft (Sample.stub_reviewer [5; 9; 3]) 8 3 in
   iterations_run st1 = 2%nat /\ best_score st1 = 9 /\
   best_writer_msg st1 = Some (Sample.draft 1)) /\
  (let st2 := writer_reviewer_loop Sample.draft (Sample.stub_reviewer [4; 5]) 8 2 in
   iterations_run st2 = 2%nat /\ best_score st2 = 5 /\
   best_writer_msg st2 = Some (Sample.draft 1) /\
   orchestrator_tail (H := Sample.builtins) Sample.draft (Sample.stub_reviewer [4; 5]) 8 2
     None None PNone
   = Returned (Some (mkPipelineResult "draft 2" None None 5 PNone))).
Proof.
  cbv zeta. split; [|split; vm_compute; repeat split; reflexivity].
  unfold writer_reviewer_loop.
  destruct (loop_over_ran writer_agent reviewer_agent quality_threshold
              (Z.to_nat max_iterations) 0%nat (mkIterationState None (-1) 0)) as [r Hr].
  destruct Hr. simpl in *. rewrite ran_count0.
  split; [lia|]. split; [|split; [|split; [|split; [|split]]]].
  - intros j Hj. apply ran_no_pass_before0; lia.
  - intros Hlt. apply ran_stopped_on_pass0. lia.
  - intros j Hj. apply ran_best_upper0. lia.
  - intros j Hj Hok Hsc. specialize (ran_best_upper0 j ltac:(lia) Hok).
    destruct ran_best_from0 as [[_ Eb]|(i & _ & _ & -> & _)]; [lia|by eexists].
  - destruct ran_best_from0 as [?|(i & Hi & Hoki & Ew & Eb & Hlt1 & Hfirst)];
      [by left|right].
    exists i. repeat split; try done; try lia.
    intros j Hj. apply Hfirst. lia.
  - intros researcher_df retriever_df analyst result.
    unfold orchestrator_tail, writer_reviewer_loop.
    destruct (best_writer_msg (loop_over _ _ _ _ _)) as [m|]; [|done].
    destruct (recommendation_text m) as [text|] eqn:Et; [|done].
    intros [= <-]. simpl. split; [done|]. by exists m.
Qed.

End OrchestratorFacts.

(** ** Researcher *)

Module ResearcherFacts.
Import Frame FrameOps Researcher.

Lemma select_len keep df : (len (select keep df) <= len df)%nat.
Proof. unfold len, select. simpl. apply List.filter_length_le. Qed.

Lemma select_sublist keep df : sublist (rows (select keep df)) (rows df).
Proof.
  unfold select. simpl. induction (rows df) as [|row l IH]; simpl; [constructor|].
  destruct (keep row); by constructor.
Qed.

Lemma flag_filter_len wanted col df : (len (flag_filter wanted col df) <= len df)%nat.
Proof. unfold flag_filter. destruct (_ && _); [apply select_len|lia]. Qed.

Section WithBuiltins.
Context `{Builtins}.

Lemma price_filter_sublist max_price df :
  sublist (rows (price_filter max_price df)) (rows df).
Proof.
  unfold price_filter. destruct (_ && _); [|done].
  destruct (py_int max_price); [apply select_sublist|done].
Qed.

Lemma price_filter_len max_price df : (len (price_filter max_price df) <= len df)%nat.
Proof. apply sublist_length, price_filter_sublist. Qed.

Lemma safety_filter_len min_safety df : (len (safety_filter min_safety df) <= len df)%nat.
Proof. unfold safety_filter. destruct (_ && _); [apply select_len|lia]. Qed.

Lemma attribute_filter_len f df : (len (attribute_filter f df) <= len df)%nat.
Proof.
  unfold attribute_filter. cbv zeta.
  repeat (etrans; [apply flag_filter_len|]).
  destruct (_ || _); [apply flag_filter_len|lia].
Qed.

Lemma apply_filters_len max_price min_safety attribute_filters df :
  (len (apply_filters max_price min_safety attribute_filters df) <= len df)%nat.
Proof.
  unfold apply_filters.
  etrans; [apply attribute_filter_len|]. etrans; [apply safety_filter_len|].
  apply price_filter_len.
Qed.

(** The researcher never returns more rows than it was given. *)
Lemma researcher_agent_len retriever_msg max_price min_safety attribute_filters :
  Retriever.sort_values_keeps_rows ->
  (_safe_len (data (researcher_agent (Some retriever_msg) max_price min_safety
                      attribute_filters))
   <= _safe_len (data retriever_msg))%nat.
Proof.
  intros Hsort. unfold researcher_agent.
  destruct (is_successful retriever_msg); simpl; [|lia].
  destruct (data retriever_msg) as [df|]; simpl; [|lia].
  destruct (Nat.eqb (len df) 0); simpl; [lia|].
  pose proof (apply_filters_len max_price min_safety attribute_filters df) as Hlen.
  destruct (Nat.eqb (len (apply_filters _ _ _ df)) 0); simpl; [lia|].
  destruct (has_column _ "OVERALL_SCORE"); simpl; [|done].
  destruct (sort_values _ _ _) as [sorted|] eqn:E; simpl; [|lia].
  by rewrite (Hsort _ _ _ _ E).
Qed.

(** C3, as the code has it.  On the ten rows with price tiers 1, 2, 3, 4, 2,
    1, 3, 4, 2, 1 and [max_price = 2], the price step keeps the six rows
    whose tier is at most 2 (rows 0, 1, 4, 5, 8, 9), in their order; and for
    every frame and price bound the rows the step keeps are a subsequence of
    the rows it was given. *)
Theorem price_filter_keeps_six_in_order :
  price_filter (PInt 2) Sample.ten_rows
  = mkDataFrame ["RESTAURANT_NAME"; "PRICE_LEVEL"]
      [ Sample.tier_row "r0" 1; Sample.tier_row "r1" 2; Sample.tier_row "r4" 2;
        Sample.tier_row "r5" 1; Sample.tier_row "r8" 2; Sample.tier_row "r9" 1 ] /\
  len (price_filter (PInt 2) Sample.ten_rows) = 6%nat /\
  (forall (max_price : pyval) (df : DataFrame),
     sublist (rows (price_filter max_price df)) (rows df)).
Proof.
  split; [vm_compute; reflexivity|]. split; [vm_compute; reflexivity|].
  apply price_filter_sublist.
Qed.

End WithBuiltins.

(** C3 as stated fails: the price step does not leave five rows. *)
Lemma price_filter_does_not_keep_five :
  len (price_filter (H := Sample.builtins) (PInt 2) Sample.ten_rows) <> 5%nat.
Proof. vm_compute. discriminate. Qed.

End ResearcherFacts.

(** ** Retriever *)

Module RetrieverFacts.
Import Frame FrameOps Retriever.

Lemma flat_map_singletons {A B : Type} (f : A -> list B) (l : list A) :
  (forall x, List.length (f x) = 1%nat) ->
  List.length (List.flat_map f l) = List.length l.
Proof.
  intros Hf. induction l as [|x l IH]; simpl; [done|].
  rewrite List.length_app, Hf, IH. done.
Qed.

(** A left merge against a frame with at most one row per key keeps the
    number of rows. *)
Lemma merge_left_len left right key merged :
  merge_left left right key = Some merged ->
  (forall k : cell,
     (List.length (List.filter (fun rrow => key_eq k (get (columns right) rrow key))
                               (rows right)) <= 1)%nat) ->
  len merged = len left.
Proof.
  unfold merge_left.
  destruct (index_of key (columns left)) as [kl|] eqn:El; [|done].
  destruct (index_of key (columns right)) as [kr|] eqn:Er; [|done].
  intros [= <-] Huniq. unfold len. simpl.
  apply flat_map_singletons. intros lrow.
  specialize (Huniq (get (columns left) lrow key)).
  unfold get in Huniq at 2. rewrite Er in Huniq.
  destruct (List.filter _ (rows right)) as [|m [|m' ms]]; simpl in *; [done|done|lia].
Qed.

Section WithBuiltins.
Context `{Builtins}.

Lemma enrich_len store ids results_df :
  one_master_row_per_id store ->
  len (enrich results_df (store (detail_query ids))) = len results_df.
Proof.
  intros Huniq. unfold enrich.
  destruct (store (detail_query ids)) as [detail|] eqn:E; [|done].
  destruct (merge_left results_df detail "RESTAURANT_ID") as [merged|] eqn:Em; [|done].
  eapply merge_left_len; [exact Em|]. by eapply Huniq.
Qed.

Lemma distance_step_len location_name location_mode user_location df df' :
  sort_values_keeps_rows -> with_distance_keeps_rows ->
  distance_step location_name location_mode user_location df = Some df' ->
  len df' = len df.
Proof.
  intros Hsort Hdist. unfold distance_step.
  destruct (_ && _); [by intros [= <-]|].
  destruct user_location as [loc|]; [|by intros [= <-]].
  destruct (_ && _); [|by intros [= <-]].
  destruct (has_column df "LATITUDE"); [|by intros [= <-]].
  destruct (with_distance loc df) as [wd|] eqn:Ed; simpl; [|done].
  intros Es. rewrite (Hsort _ _ _ _ Es). exact (Hdist _ _ _ Ed).
Qed.

Lemma finish_len cuisine location_mode df :
  (_safe_len (data (finish cuisine location_mode df)) <= len df)%nat.
Proof. unfold finish. destruct (forallb _ _); simpl; lia. Qed.

(** The retriever returns at most [top_k] rows when the store applies the
    limit and the master table has one row per restaurant. *)
Lemma retriever_agent_len store user_query analyst_data user_location search_area top_k :
  sort_values_keeps_rows -> with_distance_keeps_rows ->
  honours_limit store user_query top_k -> one_master_row_per_id store ->
  0 <= top_k ->
  Z.of_nat (_safe_len (data (run store
              (retriever_agent user_query analyst_data user_location search_area top_k))))
  <= top_k.
Proof.
  intros Hsort Hdist Hlimit Huniq Hk. unfold retriever_agent.
  destruct (effective_location analyst_data search_area) as [[name mode]|]; [|simpl; lia].
  destruct (neighborhood_condition name mode) as [nc|]; [|simpl; lia].
  cbn [run].
  destruct (store (search_query _ _ _ _)) as [results_df|] eqn:Es; [|simpl; lia].
  apply Hlimit in Es.
  destruct (Nat.eqb (len results_df) 0); [simpl; lia|].
  destruct (has_column results_df "RESTAURANT_ID"); cbn [negb run]; [|simpl; lia].
  destruct (distance_step _ _ _ _) as [df'|] eqn:Ed; cbn [run]; [|simpl; lia].
  apply (distance_step_len _ _ _ _ _ Hsort Hdist) in Ed.
  rewrite enrich_len in Ed by done.
  pose proof (finish_len (dict_get analyst_data "cuisine") mode df'). lia.
Qed.

End WithBuiltins.

End RetrieverFacts.

(** ** Quote escaping in the retriever's queries *)

Module EscapingFacts.
Import PyString Retriever.

Lemma escape_quotes_escaped s : quotes_escaped (sql_quote_escape s) = true.
Proof.
  unfold quotes_escaped, sql_quote_escape.
  induction s as [|c s IH]; [done|].
  cbn [replace_char]. destruct (Ascii.eqb c "'"%char) eqn:Ec.
  - exact IH.
  - cbn [quote_runs_even]. by rewrite Ec.
Qed.

Lemma space_is_not_quote c : is_space c = true -> Ascii.eqb c "'"%char = false.
Proof. destruct c as [[] [] [] [] [] [] [] []]; (reflexivity || discriminate). Qed.

Lemma quote_runs_even_lstrip s :
  quote_runs_even false (lstrip s) = quote_runs_even false s.
Proof.
  induction s as [|c s IH]; [done|]. cbn [lstrip].
  destruct (is_space c) eqn:Ec; [|done].
  cbn [quote_runs_even]. by rewrite (space_is_not_quote c Ec).
Qed.

Lemma quote_runs_even_rstrip s : forall pending,
  quote_runs_even pending (rstrip s) = quote_runs_even pending s.
Proof.
  induction s as [|c s IH]; intros pending; [done|]. cbn [rstrip].
  destruct (rstrip s) as [|c' r] eqn:Er.
  - destruct (is_space c) eqn:Ec.
    + cbn [quote_runs_even]. rewrite (space_is_not_quote c Ec), <- IH.
      by destruct pending.
    + cbn [quote_runs_even]. by rewrite <- !IH.
  - cbn [quote_runs_even]. by rewrite <- !IH.
Qed.

Lemma title_char_quote (b : bool) (c : ascii) :
  Ascii.eqb (if b then lower_char c else upper_char c) "'"%char = Ascii.eqb c "'"%char.
Proof. destruct b; destruct c as [[] [] [] [] [] [] [] []]; reflexivity. Qed.

Lemma quote_runs_even_title s : forall after_letter pending,
  quote_runs_even pending (title_from after_letter s) = quote_runs_even pending s.
Proof.
  induction s as [|c s IH]; intros after_letter pending; [done|].
  cbn [title_from quote_runs_even]. by rewrite title_char_quote, !IH.
Qed.

Lemma location_fragment_escaped location_name :
  quotes_escaped (location_fragment location_name) = true.
Proof.
  unfold quotes_escaped, location_fragment, title, strip.
  rewrite quote_runs_even_title, quote_runs_even_lstrip, quote_runs_even_rstrip.
  apply escape_quotes_escaped.
Qed.

(** C8.  The retriever at the analyst data whose cuisine is [Bob's]: the
    cuisine is put between the quotes of the query text as it is, with its
    single quote not escaped, whereas the free-text query and the location
    name always go through the escaping replacement first. *)
Theorem cuisine_is_interpolated_unescaped `{Builtins} :
  cuisine_condition (PStr "Bob's") = "AND PRIMARY_CUISINE = 'Bob's'" /\
  cuisine_fragment (PStr "Bob's") = "Bob's" /\
  quotes_escaped (cuisine_fragment (PStr "Bob's")) = false /\
  (forall user_query : string, quotes_escaped (query_fragment user_query) = true) /\
  (forall location_name : string, quotes_escaped (location_fragment location_name) = true).
Proof.
  repeat split; try reflexivity.
  - intros user_query. apply escape_quotes_escaped.
  - apply location_fragment_escaped.
Qed.

End EscapingFacts.

(** ** Row counts through the pipeline *)

Module PipelineFacts.
Import Frame FrameOps Retriever Researcher.

Lemma insert_row_length cols col ascending row sorted :
  List.length (Sample.insert_row cols col ascending row sorted) = S (List.length sorted).
Proof.
  induction sorted as [|r rest IH]; simpl; [done|].
  destruct (Sample.before _ _ _); simpl; [done|]. by rewrite IH.
Qed.

Lemma sample_sort_keeps_rows : sort_values_keeps_rows (H := Sample.builtins).
Proof.
  intros col ascending df df'. cbn [sort_values Sample.builtins]. unfold Sample.sort_rows.
  destruct (has_column df col); [|done]. intros [= <-]. unfold len. simpl.
  induction (rows df) as [|row l IH]; simpl; [done|].
  by rewrite insert_row_length, IH.
Qed.

Lemma sample_distance_keeps_rows : with_distance_keeps_rows (H := Sample.builtins).
Proof.
  intros loc df df'. cbn [with_distance Sample.builtins]. unfold Sample.empty_distance.
  intros [= <-]. unfold len. simpl. apply List.length_map.
Qed.

Lemma single_master_store_answers query df :
  Sample.single_master_store query = Some df -> List.length (rows df) = 1%nat.
Proof.
  unfold Sample.single_master_store.
  destruct (PyString.contains _ _); by intros [= <-].
Qed.

Lemma single_master_store_limit :
  honours_limit (H := Sample.builtins) Sample.single_master_store "pizza" 1.
Proof.
  intros cc nc df E. apply single_master_store_answers in E. unfold len. lia.
Qed.

Lemma single_master_store_unique :
  one_master_row_per_id (H := Sample.builtins) Sample.single_master_store.
Proof.
  intros ids detail E key. apply single_master_store_answers in E.
  etrans; [apply List.filter_length_le|]. lia.
Qed.

(** C7, as the code has it.  The rows after the Researcher are never more
    than the rows after the Retriever; and the rows after the Retriever,
    enrichment merge included, are at most the requested limit when the
    master attribute table holds at most one row per restaurant id (the left
    merge returns a candidate once for every master row with its id). *)
Theorem row_count_non_increasing `{Builtins}
    (store : string -> option DataFrame) (user_query : string)
    (analyst_data : gmap string pyval)
    (user_location search_area : option (gmap string pyval)) (top_k : Z)
    (max_price : pyval) (min_safety : Z) (attribute_filters : option (gmap string pyval)) :
  sort_values_keeps_rows -> with_distance_keeps_rows ->
  honours_limit store user_query top_k ->
  one_master_row_per_id store ->
  0 <= top_k ->
  let retriever_msg :=
    run store (retriever_agent user_query analyst_data user_location search_area top_k) in
  let researcher_msg :=
    researcher_agent (Some retriever_msg) max_price min_safety attribute_filters in
  (_safe_len (data researcher_msg) <= _safe_len (data retriever_msg))%nat /\
  Z.of_nat (_safe_len (data retriever_msg)) <= top_k.
Proof.
  intros Hsort Hdist Hlimit Huniq Hk. cbv zeta. split.
  - by apply ResearcherFacts.researcher_agent_len.
  - by apply RetrieverFacts.retriever_agent_len.
Qed.

Lemma row_count_non_increasing_witness :
  sort_values_keeps_rows (H := Sample.builtins) /\
  with_distance_keeps_rows (H := Sample.builtins) /\
  honours_limit (H := Sample.builtins) Sample.single_master_store "pizza" 1 /\
  one_master_row_per_id (H := Sample.builtins) Sample.single_master_store /\
  0 <= 1 /\
  (_safe_len (data (researcher_agent (H := Sample.builtins)
      (Some (run Sample.single_master_store
               (retriever_agent (H := Sample.builtins) "pizza" ∅ None None 1)))
      (PInt 2) 0 None))
   <= _safe_len (data (run Sample.single_master_store
               (retriever_agent (H := Sample.builtins) "pizza" ∅ None None 1))))%nat /\
  Z.of_nat (_safe_len (data (run Sample.single_master_store
               (retriever_agent (H := Sample.builtins) "pizza" ∅ None None 1)))) <= 1.
Proof.
  split; [exact sample_sort_keeps_rows|].
  split; [exact sample_distance_keeps_rows|].
  split; [exact single_master_store_limit|].
  split; [exact single_master_store_unique|].
  split; [lia|].
  apply (row_count_non_increasing (H := Sample.builtins) Sample.single_master_store
           "pizza" ∅ None None 1 (PInt 2) 0 None
           sample_sort_keeps_rows sample_distance_keeps_rows
           single_master_store_limit single_master_store_unique).
  lia.
Defined.

(** C7 as stated fails: with a limit of 1 and a similarity search that
    answers one row, the retriever returns two rows when the master table
    holds two rows for that restaurant. *)
Lemma retriever_exceeds_limit_on_duplicate_master :
  Sample.duplicate_master_store
    (search_query (H := Sample.builtins) "pizza" "" "" 1) = Some Sample.search_answer /\
  len Sample.search_answer = 1%nat /\
  ~ (Z.of_nat (_safe_len (data (run Sample.duplicate_master_store
        (retriever_agent (H := Sample.builtins) "pizza" ∅ None None 1)))) <= 1).
Proof.
  split; [vm_compute; reflexivity|]. split; [reflexivity|].
  vm_compute. intros Hle. apply Hle. reflexivity.
Qed.

End PipelineFacts.

(** ** Query analyst *)

Module AnalystFacts.
Import Analyst.

Lemma setdefault_lookup_ne d k v k' : k <> k' -> setdefault d k v !! k' = d !! k'.
Proof.
  intros Hne. unfold setdefault. destruct (d !! k); [done|]. by rewrite lookup_insert_ne.
Qed.

Lemma setdefault_keeps d k v k' w : d !! k' = Some w -> setdefault d k v !! k' = Some w.
Proof.
  intros E. unfold setdefault. destruct (d !! k) eqn:Ek; [done|].
  rewrite lookup_insert_ne; [done|]. intros ->. congruence.
Qed.

Lemma fill_slot_keeps f key k v :
  f !! k = Some v -> v <> PNone -> fill_slot f key !! k = Some v.
Proof.
  intros E Hv. unfold fill_slot.
  pose proof (setdefault_keeps f key (PList []) k v E) as E'.
  destruct (setdefault f key (PList []) !! key) as [[| | | | | |]|] eqn:Ek; try done.
  rewrite lookup_insert_ne; [done|]. intros ->. congruence.
Qed.

Lemma fill_slot_fills f key :
  exists v, fill_slot f key !! key = Some v /\ v <> PNone.
Proof.
  unfold fill_slot.
  assert (Hset : is_Some (setdefault f key (PList []) !! key)).
  { unfold setdefault. destruct (f !! key) eqn:E; [by rewrite E|].
    rewrite lookup_insert_eq. by eexists. }
  destruct Hset as [w Hw]. rewrite Hw.
  destruct w; try (eexists; split; [exact Hw|done]).
  rewrite lookup_insert_eq. by eexists.
Qed.

Lemma fill_slots_keep names : forall f k v,
  f !! k = Some v -> v <> PNone -> foldl fill_slot f names !! k = Some v.
Proof.
  induction names as [|key names IH]; intros f k v E Hv; simpl; [done|].
  apply IH; [|done]. by apply fill_slot_keeps.
Qed.

Lemma fill_slots_fill names : forall f k,
  k ∈ names -> exists v, foldl fill_slot f names !! k = Some v /\ v <> PNone.
Proof.
  induction names as [|key names IH]; intros f k Hk; simpl.
  - by apply elem_of_nil in Hk.
  - destruct (decide (k ∈ names)) as [Hin|Hnin]; [by apply IH|].
    apply elem_of_cons in Hk as [->|?]; [|done].
    destruct (fill_slot_fills f key) as (v & E & Hv).
    exists v. split; [|done]. by apply fill_slots_keep.
Qed.

Lemma fill_nested_lookup a k fill a' :
  fill_nested a k fill = Some a' ->
  (exists inner, setdefault a k (PDict ∅) !! k = Some (PDict inner) /\
                 a' !! k = Some (PDict (fill inner))) /\
  (forall k', k <> k' -> a' !! k' = a !! k').
Proof.
  unfold fill_nested.
  destruct (setdefault a k (PDict ∅) !! k) as [[| | | | | |inner]|] eqn:E; try done.
  intros [= <-]. split.
  - exists inner. split; [done|]. by rewrite lookup_insert_eq.
  - intros k' Hne. rewrite lookup_insert_ne by done. by apply setdefault_lookup_ne.
Qed.

Lemma empty_analysis_slots_filled : slots_filled _get_empty_analysis.
Proof.
  eexists. split; [vm_compute; reflexivity|].
  intros k Hk. unfold slot_names in Hk.
  repeat (apply elem_of_cons in Hk as [->|Hk]; [eexists; split; [vm_compute; reflexivity|done]|]).
  by apply elem_of_nil in Hk.
Qed.

Lemma fill_defaults_filters x a' :
  _fill_defaults x = Some a' ->
  slots_filled a' /\
  (forall a f0, x = PDict a -> a !! "filters" = Some (PDict f0) ->
     exists f, a' !! "filters" = Some (PDict f) /\
               forall k v, f0 !! k = Some v -> v <> PNone -> f !! k = Some v).
Proof.
  unfold _fill_defaults. destruct x as [| | | | | |a]; try done.
  destruct (fill_nested (setdefault a "cuisine" PNone) "location" _) as [a1|] eqn:E1;
    [|done]. cbn [mbind option_bind].
  destruct (fill_nested a1 "budget" _) as [a2|] eqn:E2; [|done]. cbn [mbind option_bind].
  intros E3.
  apply fill_nested_lookup in E1 as [_ K1].
  apply fill_nested_lookup in E2 as [_ K2].
  apply fill_nested_lookup in E3 as [(inner & Ei & Ef) _].
  split.
  - exists (foldl fill_slot inner slot_names). split; [done|].
    intros k Hk. by apply fill_slots_fill.
  - intros a0 f0 [= <-] Ea.
    assert (Hf : setdefault (setdefault a2 "open_now" PNone) "filters" (PDict ∅)
                   !! "filters" = Some (PDict f0)).
    { apply setdefault_keeps.
      rewrite setdefault_lookup_ne, K2, K1, setdefault_lookup_ne by done. exact Ea. }
    rewrite Hf in Ei. injection Ei as <-. eexists. split; [exact Ef|].
    intros k v E Hv. by apply fill_slots_keep.
Qed.



(** An answer the analyst cannot display is dropped: with a number beside a
    string in the dietary slot, [_fill_defaults] keeps the list and the
    analyst returns the empty analysis. *)
Lemma analyst_drops_answer_it_cannot_display :
  (exists analysis f,
     _fill_defaults Sample3.mixed_object = Some analysis /\
     analysis !! "filters" = Some (PDict f) /\
     f !! "dietary" = Some (PList [PStr "vegan"; PInt 5]) /\
     _display_extraction analysis = false) /\
  run (Sample.model_answers Sample3.mixed_json)
      (analyze_query_to_json (H := Sample3.mixed_builtins) "vegan tacos")
  = _get_empty_analysis.
Proof.
  split; [|vm_compute; reflexivity].
  destruct (_fill_defaults Sample3.mixed_object) as [analysis|] eqn:E;
    [|vm_compute in E; discriminate].
  vm_compute in E. injection E as <-.
  eexists _, _. split; [reflexivity|]. split; [vm_compute; reflexivity|].
  split; vm_compute; reflexivity.
Qed.

End AnalystFacts.

(** ** Geocoding *)

Module GeoFacts.
Import Geo.

Lemma geocode_in_default table location_name :
  Forall (fun entry => PyString.contains (fst entry) (PyString.lower location_name) = false)
         table ->
  geocode_in table location_name
  = location_dict DEFAULT_BOSTON_LAT DEFAULT_BOSTON_LON location_name.
Proof.
  induction 1 as [|[neighborhood [lat lon]] table Hn _ IH]; simpl; [done|].
  simpl in Hn. by rewrite Hn.
Qed.

(** C9, as the code has it.  For a place name that names none of the known
    Boston neighbourhoods, [geocode_location] returns the default Boston
    coordinates (42.3601, -71.0589) under the given name; it does not return
    null. *)
Theorem geocode_location_defaults_to_boston (location_name : string) :
  outside_known_neighborhoods location_name ->
  geocode_location location_name
  = location_dict DEFAULT_BOSTON_LAT DEFAULT_BOSTON_LON location_name /\
  geocode_location location_name <> PNone.
Proof.
  intros Hout. unfold geocode_location. rewrite (geocode_in_default _ _ Hout). done.
Qed.

Lemma geocode_location_defaults_to_boston_witness :
  outside_known_neighborhoods "New York" /\
  geocode_location "New York"
  = location_dict DEFAULT_BOSTON_LAT DEFAULT_BOSTON_LON "New York" /\
  geocode_location "New York" <> PNone.
Proof.
  assert (Hout : outside_known_neighborhoods "New York").
  { unfold outside_known_neighborhoods, BOSTON_NEIGHBORHOODS.
    repeat (constructor; [vm_compute; reflexivity|]). constructor. }
  split; [exact Hout|].
  exact (geocode_location_defaults_to_boston "New York" Hout).
Defined.

(** C9 as stated fails: a place outside the metro region is given
    coordinates. *)
Lemma geocode_location_new_york_is_not_null :
  outside_known_neighborhoods "New York" /\ geocode_location "New York" <> PNone.
Proof.
  split; [|vm_compute; discriminate].
  unfold outside_known_neighborhoods, BOSTON_NEIGHBORHOODS.
  repeat (constructor; [vm_compute; reflexivity|]). constructor.
Qed.

End GeoFacts.

(** ** More on filter normalisation *)

Module FiltersMoreFacts.
Import PyString.

(** X1.  When [repr] of a number, list or dict is never blank, each filter
    normaliser leaves the other's output as it is:
    [_normalize_attribute_filters (_normalize_filters x) = _normalize_filters x]
    and [_normalize_filters (_normalize_attribute_filters x) =
    _normalize_attribute_filters x], for every raw input, absent or not. *)
Theorem normalisers_compose `{Builtins} (Hrepr : repr_nonblank)
    (x : option (gmap string pyval)) :
  _normalize_attribute_filters (Some (_normalize_filters x)) = _normalize_filters x /\
  _normalize_filters (Some (_normalize_attribute_filters x))
  = _normalize_attribute_filters x.
Proof.
  split.
  - destruct (FiltersFacts.normalize_filters_filterset x Hrepr)
      as (l1 & l2 & l3 & l4 & l5 & -> & H1 & H2 & H3 & H4 & H5).
    by apply FiltersFacts.normalize_attribute_filters_fixed.
  - destruct (FiltersFacts.normalize_attribute_filters_filterset x Hrepr)
      as (l1 & l2 & l3 & l4 & l5 & -> & H1 & H2 & H3 & H4 & H5).
    by apply FiltersFacts.normalize_filters_fixed.
Qed.

Lemma normalisers_compose_witness :
  repr_nonblank (H := Sample.builtins) /\
  _normalize_attribute_filters (H := Sample.builtins)
    (Some (_normalize_filters (H := Sample.builtins) (Some Sample.legacy_filters)))
  = _normalize_filters (H := Sample.builtins) (Some Sample.legacy_filters) /\
  _normalize_filters (H := Sample.builtins)
    (Some (_normalize_attribute_filters (H := Sample.builtins) (Some Sample.legacy_filters)))
  = _normalize_attribute_filters (H := Sample.builtins) (Some Sample.legacy_filters).
Proof.
  split; [exact FiltersFacts.sample_repr_nonblank|].
  exact (normalisers_compose (H := Sample.builtins) FiltersFacts.sample_repr_nonblank
           (Some Sample.legacy_filters)).
Defined.

(** X2.  On a filter dict that does not hold [service_type] together with its
    legacy alias [service], nor [special_needs] together with [special], the
    orchestrator's [_normalize_filters] and the researcher's
    [_normalize_attribute_filters] return the same dict. *)
Theorem normalisers_agree_without_key_clash `{Builtins} (d : gmap string pyval) :
  (d !! "service_type" = None \/ d !! "service" = None) ->
  (d !! "special_needs" = None \/ d !! "special" = None) ->
  _normalize_filters (Some d) = _normalize_attribute_filters (Some d).
Proof.
  intros Hsvc Hsp. unfold _normalize_filters, _normalize_attribute_filters.
  cbn [default from_option id].
  destruct (Nat.eqb (size d) 0) eqn:Esize.
  - apply Nat.eqb_eq, map_size_empty_iff in Esize. subst d.
    unfold dict_get_default, dict_get. by rewrite !lookup_empty.
  - f_equal.
    + destruct (d !! "service") as [v|] eqn:Ev; [|done].
      destruct Hsvc as [Hc|?]; [|done].
      unfold dict_get_default, dict_get. rewrite Hc, Ev. cbn [default from_option id].
      by destruct (_ensure_list v).
    + destruct (d !! "special") as [v|] eqn:Ev; [|done].
      destruct Hsp as [Hc|?]; [|done].
      unfold dict_get_default, dict_get. rewrite Hc, Ev. cbn [default from_option id].
      by destruct (_ensure_list v).
Qed.

Lemma normalisers_agree_without_key_clash_witness :
  (Sample.legacy_filters !! "service_type" = None \/ Sample.legacy_filters !! "service" = None) /\
  (Sample.legacy_filters !! "special_needs" = None \/ Sample.legacy_filters !! "special" = None) /\
  _normalize_filters (H := Sample.builtins) (Some Sample.legacy_filters)
  = _normalize_attribute_filters (H := Sample.builtins) (Some Sample.legacy_filters).
Proof.
  assert (H1 : Sample.legacy_filters !! "service_type" = None \/
               Sample.legacy_filters !! "service" = None) by (left; reflexivity).
  assert (H2 : Sample.legacy_filters !! "special_needs" = None \/
               Sample.legacy_filters !! "special" = None) by (left; reflexivity).
  split; [exact H1|]. split; [exact H2|].
  exact (normalisers_agree_without_key_clash (H := Sample.builtins)
           Sample.legacy_filters H1 H2).
Defined.

End FiltersMoreFacts.

(** ** The score parser on text without digits *)

Module ParseScoreFacts.
Import PyString PyText PyRe Reviewer.

Lemma avoids_tail p c s : avoids p (String c s) = true -> avoids p s = true.
Proof. simpl. by intros [_ ?]%andb_prop. Qed.

Lemma avoids_head p c s : avoids p (String c s) = true -> p c = false.
Proof. simpl. intros [Hc _]%andb_prop. by destruct (p c). Qed.

Lemma avoids_lstrip p s : avoids p s = true -> avoids p (lstrip s) = true.
Proof.
  induction s as [|c s IH]; [done|]. intros Hs. cbn [lstrip].
  destruct (is_space c); [|done]. apply IH. by eapply avoids_tail.
Qed.

Lemma avoids_rstrip p s : avoids p s = true -> avoids p (rstrip s) = true.
Proof.
  induction s as [|c s IH]; [done|]. intros Hs. cbn [rstrip].
  pose proof (avoids_head p c s Hs) as Hc.
  specialize (IH (avoids_tail p c s Hs)).
  destruct (rstrip s) as [|c' r].
  - destruct (is_space c); [done|]. simpl. by rewrite Hc.
  - cbn [avoids] in *. by rewrite Hc.
Qed.

Lemma avoids_strip p s : avoids p s = true -> avoids p (strip s) = true.
Proof. intros Hs. unfold strip. by apply avoids_lstrip, avoids_rstrip. Qed.

Lemma digit_free_tail c s : digit_free (String c s) = true -> digit_free s = true.
Proof. apply avoids_tail. Qed.

Lemma star_cls_passes ic p k :
  fails_without_digit k ->
  fails_without_digit (fun prev s cap => star_cls ic p prev s cap k).
Proof.
  intros Hk prev s. revert prev.
  induction s as [|c s IH]; intros prev cap Hs; simpl; [by apply Hk|].
  destruct (cls_match ic p c); [|by apply Hk].
  rewrite IH by (by eapply digit_free_tail). by apply Hk.
Qed.

Lemma rep_cls_passes ic p k hi :
  fails_without_digit k ->
  forall lo, fails_without_digit (fun prev s cap => rep_cls ic p lo hi prev s cap k).
Proof.
  intros Hk. induction hi as [|hi IH]; intros lo prev s cap Hs; simpl.
  - destruct lo; [by apply Hk|done].
  - assert (Hstop : match lo with O => k prev s cap | S _ => None end = None).
    { destruct lo; [by apply Hk|done]. }
    destruct s as [|c s]; [done|].
    destruct (cls_match ic p c); [|done].
    rewrite IH by (by eapply digit_free_tail). done.
Qed.

(** Matching any pattern in front of a continuation that needs a digit still
    needs a digit. *)
Lemma rmatch_passes ic r : forall k,
  fails_without_digit k ->
  fails_without_digit (fun prev s cap => rmatch ic r prev s cap k).
Proof.
  induction r as [x|p|r1 IH1 r2 IH2|r1 IH1 r2 IH2|p|p lo hi|r IH|];
    intros k Hk prev s cap Hs; cbn [rmatch].
  - destruct s as [|c s]; [done|]. destruct (lit_match ic x c); [|done].
    apply Hk. by eapply digit_free_tail.
  - destruct s as [|c s]; [done|]. destruct (cls_match ic p c); [|done].
    apply Hk. by eapply digit_free_tail.
  - apply (IH1 _ (IH2 k Hk)); done.
  - rewrite (IH1 k Hk) by done. by apply IH2.
  - by apply star_cls_passes.
  - by apply rep_cls_passes.
  - apply (IH (fun prev' s' _ =>
                 k prev' s' (Some (String.substring 0 (String.length s - String.length s') s))));
      [|done].
    intros prev' s' cap' Hs'. by apply Hk.
  - destruct (xorb _ _); [by apply Hk|done].
Qed.

Lemma cls_match_digit ic c : is_digit c = false -> cls_match ic is_digit c = false.
Proof.
  destruct ic; destruct c as [[] [] [] [] [] [] [] []]; (reflexivity || discriminate).
Qed.

Lemma cls_match_digit_1_9 ic c : is_digit c = false -> cls_match ic digit_1_9 c = false.
Proof.
  destruct ic; destruct c as [[] [] [] [] [] [] [] []]; (reflexivity || discriminate).
Qed.

Lemma head_not_digit c s : digit_free (String c s) = true -> is_digit c = false.
Proof. apply avoids_head. Qed.

Lemma needs_digit_rep ic lo hi : needs_digit ic (RepCls is_digit (S lo) hi).
Proof.
  intros k prev s cap Hs. cbn [rmatch]. destruct hi as [|hi]; [done|]. simpl.
  destruct s as [|c s]; [done|].
  by rewrite (cls_match_digit ic c (head_not_digit c s Hs)).
Qed.

Lemma needs_digit_cls_1_9 ic : needs_digit ic (Cls digit_1_9).
Proof.
  intros k prev s cap Hs. cbn [rmatch]. destruct s as [|c s]; [done|].
  by rewrite (cls_match_digit_1_9 ic c (head_not_digit c s Hs)).
Qed.

Lemma lit_match_one ic c : is_digit c = false -> lit_match ic "1"%char c = false.
Proof.
  destruct ic; destruct c as [[] [] [] [] [] [] [] []]; (reflexivity || discriminate).
Qed.

Lemma needs_digit_lit_one ic : needs_digit ic (Lit "1"%char).
Proof.
  intros k prev s cap Hs. cbn [rmatch]. destruct s as [|c s]; [done|].
  by rewrite (lit_match_one ic c (head_not_digit c s Hs)).
Qed.

Lemma needs_digit_seq_l ic r1 r2 : needs_digit ic r1 -> needs_digit ic (Seq r1 r2).
Proof. intros H1 k prev s cap Hs. cbn [rmatch]. by apply H1. Qed.

Lemma needs_digit_seq_r ic r1 r2 : needs_digit ic r2 -> needs_digit ic (Seq r1 r2).
Proof.
  intros H2 k prev s cap Hs. cbn [rmatch].
  apply (rmatch_passes ic r1 _ (H2 k)); done.
Qed.

Lemma needs_digit_alt ic r1 r2 :
  needs_digit ic r1 -> needs_digit ic r2 -> needs_digit ic (Alt r1 r2).
Proof.
  intros H1 H2 k prev s cap Hs. cbn [rmatch]. rewrite (H1 k) by done. by apply H2.
Qed.

Lemma needs_digit_group ic r : needs_digit ic r -> needs_digit ic (Group r).
Proof. intros Hr k prev s cap Hs. cbn [rmatch]. by apply Hr. Qed.

Lemma search_without_digit ic r :
  needs_digit ic r ->
  forall s prev, digit_free s = true -> search_from ic r prev s = None.
Proof.
  intros Hr. induction s as [|c s IH]; intros prev Hs; cbn [search_from].
  - by rewrite (Hr accept).
  - rewrite (Hr accept) by done. apply IH. by eapply digit_free_tail.
Qed.

Lemma needs_digit_overall : needs_digit true re_overall.
Proof.
  unfold re_overall. do 4 apply needs_digit_seq_r.
  apply needs_digit_group, needs_digit_rep.
Qed.

Lemma needs_digit_out_of_ten : needs_digit false re_out_of_ten.
Proof. apply needs_digit_seq_l, needs_digit_group, needs_digit_rep. Qed.

Lemma needs_digit_standalone : needs_digit false re_standalone.
Proof.
  apply needs_digit_seq_r, needs_digit_seq_l, needs_digit_group, needs_digit_alt.
  - apply needs_digit_seq_l, needs_digit_lit_one.
  - apply needs_digit_cls_1_9.
Qed.

(** X3.  An evaluation text without a decimal digit matches none of the three
    score patterns, and [_parse_score] returns the default score 7. *)
Theorem parse_score_without_digit_is_default (evaluation_text : string) :
  digit_free evaluation_text = true ->
  _parse_score (Some evaluation_text) = 7.
Proof.
  intros Hs. unfold _parse_score. destruct evaluation_text as [|c s]; [done|].
  assert (Ht : digit_free (strip (String c s)) = true).
  { by apply avoids_strip. }
  revert Ht. generalize (strip (String c s)). intros text Ht.
  unfold search_group1.
  rewrite (search_without_digit true _ needs_digit_overall text None Ht).
  rewrite (search_without_digit false _ needs_digit_out_of_ten text None Ht).
  by rewrite (search_without_digit false _ needs_digit_standalone text None Ht).
Qed.

Lemma parse_score_without_digit_is_default_witness :
  digit_free "The reviewer gave no verdict." = true /\
  _parse_score (Some "The reviewer gave no verdict.") = 7.
Proof.
  split; [reflexivity|].
  apply (parse_score_without_digit_is_default "The reviewer gave no verdict.").
  reflexivity.
Defined.

End ParseScoreFacts.

(** ** The reviewer on a usable writer message *)

Module ReviewerMoreFacts.
Import Reviewer.

Lemma extract_text_stripped `{Builtins} writer_msg :
  PyString.strip (_extract_text writer_msg) = _extract_text writer_msg.
Proof.
  unfold _extract_text. destruct writer_msg as [m|]; [|done].
  destruct (negb (is_successful m)); [done|].
  destruct (data m) as [[| | | | | |d]|]; try done; try apply PyStringFacts.strip_idem.
  destruct (d !! "recommendation"); apply PyStringFacts.strip_idem.
Qed.

(** X4.  For a successful writer message whose recommendation text is not empty,
    [reviewer_agent] sends exactly one query; its score is [_parse_score] of
    the raw evaluation and lies between 1 and 10; the status of its message
    is [success] exactly when the score is at least 8 and [partial]
    otherwise; the payload carries that score and the feedback, and the
    feedback is stripped. *)
Theorem reviewer_scores_usable_text `{Builtins}
    (store : string -> option DataFrame)
    (writer_msg : option (AgentMessage pyval)) (user_query : option string) (iteration : Z) :
  missing_or_failed writer_msg = false ->
  _extract_text writer_msg <> "" ->
  let review := run store (reviewer_agent writer_msg user_query iteration) in
  List.length (queries store (reviewer_agent writer_msg user_query iteration)) = 1%nat /\
  score review = _parse_score (raw_eval review) /\
  1 <= score review <= 10 /\
  (status (review_msg review) = "success" <-> 8 <= score review) /\
  (status (review_msg review) = "partial" <-> score review < 8) /\
  (exists d, data (review_msg review) = Some (PDict d) /\
             d !! "score" = Some (PInt (score review)) /\
             d !! "feedback" = Some (PStr (feedback review))) /\
  PyString.strip (feedback review) = feedback review.
Proof.
  intros Hok Htext. cbv zeta. unfold reviewer_agent. rewrite Hok.
  destruct (_extract_text writer_msg) as [|c text] eqn:Et; [done|]. cbn [PyString.nonempty negb].
  unfold call_cortex, call_cortex_model. cbn [mbind eff_mbind eff_bind run queries].
  match goal with
  | |- context [_parse_score ?t] =>
      pose proof (ReviewerFacts.parse_score_range t) as Hrange; set (raw := t) in *
  end.
  destruct (Z.geb_spec (_parse_score raw) 8) as [Hge|Hlt];
    cbn [run queries score raw_eval review_msg status data feedback List.length].
  - split; [done|]. split; [done|]. split; [lia|]. split; [done|].
    split; [split; [discriminate|lia]|].
    split.
    + eexists. split; [reflexivity|]. by simplify_map_eq.
    + destruct raw as [[|c' r]|]; try done.
      destruct (PyRe.search_group1 _ _ _); [apply PyStringFacts.strip_idem|done].
  - split; [done|]. split; [done|]. split; [lia|].
    split; [split; [discriminate|lia]|]. split; [done|].
    split.
    + eexists. split; [reflexivity|]. by simplify_map_eq.
    + destruct raw as [[|c' r]|]; try done.
      destruct (PyRe.search_group1 _ _ _); [apply PyStringFacts.strip_idem|done].
Qed.

Lemma reviewer_scores_usable_text_witness :
  let writer_msg := Some (Sample.draft 0) in
  let store := Sample.model_answers "RELEVANCE: 9
OVERALL: 9
FEEDBACK: name the price range" in
  missing_or_failed writer_msg = false /\
  _extract_text (H := Sample.builtins) writer_msg <> "" /\
  let review := run store (reviewer_agent (H := Sample.builtins) writer_msg
                             (Some "pizza near MIT") 1) in
  List.length (queries store (reviewer_agent (H := Sample.builtins) writer_msg
                                (Some "pizza near MIT") 1)) = 1%nat /\
  score review = _parse_score (raw_eval review) /\
  1 <= score review <= 10 /\
  (status (review_msg review) = "success" <-> 8 <= score review) /\
  (status (review_msg review) = "partial" <-> score review < 8) /\
  (exists d, data (review_msg review) = Some (PDict d) /\
             d !! "score" = Some (PInt (score review)) /\
             d !! "feedback" = Some (PStr (feedback review))) /\
  PyString.strip (feedback review) = feedback review.
Proof.
  cbv zeta.
  assert (H1 : missing_or_failed (Some (Sample.draft 0)) = false) by reflexivity.
  assert (H2 : _extract_text (H := Sample.builtins) (Some (Sample.draft 0)) <> "")
    by (vm_compute; discriminate).
  split; [exact H1|]. split; [exact H2|].
  exact (reviewer_scores_usable_text (H := Sample.builtins) _ _ (Some "pizza near MIT") 1
           H1 H2).
Defined.

End ReviewerMoreFacts.

(** ** More on the Writer/Reviewer loop *)

Module LoopMoreFacts.
Import Orchestrator.

Section Loop.
Variable writer_agent : nat -> AgentMessage pyval.
Variable reviewer_agent : AgentMessage pyval -> Z -> Reviewer.Review.
Variable quality_threshold : Z.

#[local] Abbreviation loop := (loop_over writer_agent reviewer_agent quality_threshold).

Lemma loop_one_more m : forall a st,
  best_score (loop (seq a m) st) <= best_score (loop (seq a (S m)) st) /\
  (iterations_run (loop (seq a m) st) <= iterations_run (loop (seq a (S m)) st))%nat.
Proof.
  induction m as [|m IH]; intros a st.
  - destruct (OrchestratorFacts.loop_over_ran writer_agent reviewer_agent
                quality_threshold 1 a st) as [r Hr].
    destruct Hr. simpl in *. split; [done|lia].
  - change (seq a (S (S m))) with (a :: seq (S a) (S m)).
    change (seq a (S m)) with (a :: seq (S a) m).
    cbn [loop_over].
    destruct (negb (is_successful (writer_agent a))); [apply IH|].
    destruct (_ >=? quality_threshold); [split; [lia|lia]|apply IH].
Qed.

Lemma loop_more m m' : (m <= m')%nat -> forall a st,
  best_score (loop (seq a m) st) <= best_score (loop (seq a m') st) /\
  (iterations_run (loop (seq a m) st) <= iterations_run (loop (seq a m') st))%nat.
Proof.
  induction 1 as [|m' _ IH]; intros a st; [split; lia|].
  destruct (IH a st), (loop_one_more m' a st). split; lia.
Qed.

End Loop.

(** X5.  With the same writer and reviewer, a larger [max_iterations] never
    gives a lower best score, and never fewer iterations. *)
Theorem more_iterations_never_lower_the_score
    (writer_agent : nat -> AgentMessage pyval)
    (reviewer_agent : AgentMessage pyval -> Z -> Reviewer.Review)
    (quality_threshold max_iterations max_iterations' : Z) :
  max_iterations <= max_iterations' ->
  best_score (writer_reviewer_loop writer_agent reviewer_agent quality_threshold
                max_iterations)
  <= best_score (writer_reviewer_loop writer_agent reviewer_agent quality_threshold
                   max_iterations') /\
  (iterations_run (writer_reviewer_loop writer_agent reviewer_agent quality_threshold
                     max_iterations)
   <= iterations_run (writer_reviewer_loop writer_agent reviewer_agent quality_threshold
                        max_iterations'))%nat.
Proof.
  intros Hle. unfold writer_reviewer_loop. apply loop_more. lia.
Qed.

Lemma more_iterations_never_lower_the_score_witness :
  1 <= 3 /\
  best_score (writer_reviewer_loop Sample.draft (Sample.stub_reviewer [5; 9; 3]) 8 1)
  <= best_score (writer_reviewer_loop Sample.draft (Sample.stub_reviewer [5; 9; 3]) 8 3) /\
  Nat.le
    (iterations_run (writer_reviewer_loop Sample.draft (Sample.stub_reviewer [5; 9; 3]) 8 1))
    (iterations_run (writer_reviewer_loop Sample.draft (Sample.stub_reviewer [5; 9; 3]) 8 3)).
Proof.
  split; [lia|].
  apply (more_iterations_never_lower_the_score Sample.draft
           (Sample.stub_reviewer [5; 9; 3]) 8 1 3).
  lia.
Defined.

(** X6.  When an iteration [j] below the limit has a usable writer message whose
    score meets the threshold, the loop ends with a best score that meets
    the threshold, after at most [j + 1] iterations. *)
Theorem passing_iteration_within_limit_is_reached
    (writer_agent : nat -> AgentMessage pyval)
    (reviewer_agent : AgentMessage pyval -> Z -> Reviewer.Review)
    (quality_threshold max_iterations : Z) (j : nat) :
  (j < Z.to_nat max_iterations)%nat ->
  passes writer_agent reviewer_agent quality_threshold j = true ->
  let st := writer_reviewer_loop writer_agent reviewer_agent quality_threshold
              max_iterations in
  quality_threshold <= best_score st /\ (iterations_run st <= j + 1)%nat.
Proof.
  intros Hj Hpass. cbv zeta. unfold writer_reviewer_loop.
  destruct (OrchestratorFacts.loop_over_ran writer_agent reviewer_agent quality_threshold
              (Z.to_nat max_iterations) 0%nat (mkIterationState None (-1) 0)) as [r Hr].
  destruct Hr. simpl in *. rewrite ran_count0.
  assert (Hr : (r <= j + 1)%nat).
  { destruct (decide (j + 1 < r)%nat) as [Hlt|]; [|lia].
    rewrite (ran_no_pass_before0 j) in Hpass by lia. done. }
  split; [|lia].
  assert (Hlast : exists i, (i < r)%nat /\
            passes writer_agent reviewer_agent quality_threshold i = true).
  { destruct (decide (r < Z.to_nat max_iterations)%nat) as [Hlt|Hge].
    - destruct (ran_stopped_on_pass0 Hlt) as [Hpos Hp]. exists (r - 1)%nat. split; [lia|done].
    - exists j. split; [lia|done]. }
  destruct Hlast as (i & Hi & Hp). unfold passes in Hp.
  apply andb_prop in Hp as [Hoki Hsci].
  specialize (ran_best_upper0 i ltac:(lia) Hoki).
  rewrite Z.geb_leb in Hsci. apply Z.leb_le in Hsci. lia.
Qed.

Lemma passing_iteration_within_limit_is_reached_witness :
  (1 < Z.to_nat 3)%nat /\
  passes Sample.draft (Sample.stub_reviewer [5; 9; 3]) 8 1 = true /\
  8 <= best_score (writer_reviewer_loop Sample.draft (Sample.stub_reviewer [5; 9; 3]) 8 3) /\
  Nat.le
    (iterations_run (writer_reviewer_loop Sample.draft (Sample.stub_reviewer [5; 9; 3]) 8 3))
    (1 + 1)%nat.
Proof.
  assert (H1 : (1 < Z.to_nat 3)%nat) by (vm_compute; lia).
  assert (H2 : passes Sample.draft (Sample.stub_reviewer [5; 9; 3]) 8 1 = true)
    by (vm_compute; reflexivity).
  split; [exact H1|]. split; [exact H2|].
  exact (passing_iteration_within_limit_is_reached Sample.draft
           (Sample.stub_reviewer [5; 9; 3]) 8 3 1 H1 H2).
Defined.

End LoopMoreFacts.

(** ** What the researcher's filters guarantee *)

Module ResearcherMoreFacts.
Import Frame FrameOps Researcher ResearcherSteps.

Lemma narrows_refl df : narrows df df.
Proof. by split. Qed.

Lemma narrows_trans df1 df2 df3 : narrows df1 df2 -> narrows df2 df3 -> narrows df1 df3.
Proof. intros [E1 S1] [E2 S2]. split; [congruence|by etrans]. Qed.

Lemma select_narrows keep df : narrows (select keep df) df.
Proof. split; [done|apply ResearcherFacts.select_sublist]. Qed.

Lemma flag_filter_narrows wanted col df : narrows (flag_filter wanted col df) df.
Proof.
  unfold flag_filter. destruct (_ && _); [apply select_narrows|apply narrows_refl].
Qed.

Lemma Forall_sublist {A : Type} (P : A -> Prop) (l1 l2 : list A) :
  sublist l1 l2 -> Forall P l2 -> Forall P l1.
Proof.
  induction 1 as [|x l1 l2 _ IH|x l1 l2 _ IH]; intros HP; [done| |].
  - apply Forall_cons in HP as [? ?]. constructor; [done|by apply IH].
  - apply Forall_cons in HP as [? ?]. by apply IH.
Qed.

Lemma narrows_Forall (P : list cell -> Prop) df' df :
  narrows df' df -> Forall P (rows df) -> Forall P (rows df').
Proof. intros [_ Hs] HP. by eapply Forall_sublist. Qed.

Lemma narrows_has_column df' df c : narrows df' df -> has_column df' c = has_column df c.
Proof. intros [E _]. unfold has_column. by rewrite E. Qed.

Lemma select_Forall keep df : Forall (fun row => keep row = true) (rows (select keep df)).
Proof.
  unfold select. simpl. apply Forall_forall. intros row Hin.
  apply list_elem_of_In, List.filter_In in Hin. tauto.
Qed.

(** The table is the code: the chain of attribute steps is the fold of the
    table. *)
Lemma attribute_filter_as_table f df :
  attribute_filter f df = foldl (attribute_step f) df attribute_steps.
Proof.
  unfold attribute_filter, attribute_steps. cbn [foldl attribute_step existsb].
  rewrite !orb_false_r, !orb_assoc.
  assert (E : (if slot_has f "dietary" "vegetarian" || slot_has f "dietary" "vegan"
               then flag_filter true "SERVES_VEGETARIAN" df else df)
              = flag_filter (slot_has f "dietary" "vegetarian" || slot_has f "dietary" "vegan")
                  "SERVES_VEGETARIAN" df).
  { by destruct (_ || _). }
  rewrite E. reflexivity.
Qed.

Lemma fold_steps_narrows f steps : forall df,
  narrows (foldl (attribute_step f) df steps) df.
Proof.
  induction steps as [|[[slot tokens] col] steps IH]; intros df; simpl;
    [apply narrows_refl|].
  eapply narrows_trans; [apply IH|apply flag_filter_narrows].
Qed.

Lemma fold_steps_sound f steps : forall df slot tokens col,
  (slot, tokens, col) ∈ steps ->
  existsb (slot_has f slot) tokens = true ->
  has_column df col = true ->
  Forall (flag_set (columns df) col) (rows (foldl (attribute_step f) df steps)).
Proof.
  induction steps as [|step steps IH]; intros df slot tokens col Hin Hwant Hcol.
  - by apply elem_of_nil in Hin.
  - cbn [foldl].
    pose proof (fold_steps_narrows f steps (attribute_step f df step)) as Hrest.
    apply elem_of_cons in Hin as [<-|Hin].
    + eapply narrows_Forall; [exact Hrest|].
      cbn [attribute_step]. unfold flag_filter. rewrite Hwant, Hcol. simpl.
      apply (select_Forall (fun row => cell_is_true (get (columns df) row col))).
    + destruct step as [[slot' tokens'] col'].
      pose proof (flag_filter_narrows (existsb (slot_has f slot') tokens') col' df) as Hstep.
      cbn [attribute_step] in *.
      destruct Hstep as [Ecols _]. rewrite <- Ecols.
      eapply IH; [exact Hin|exact Hwant|].
      unfold has_column in *. by rewrite Ecols.
Qed.

Section WithBuiltins.
Context `{Builtins}.

Lemma price_filter_narrows max_price df : narrows (price_filter max_price df) df.
Proof.
  unfold price_filter. destruct (_ && _); [|apply narrows_refl].
  destruct (py_int max_price); [apply select_narrows|apply narrows_refl].
Qed.

Lemma safety_filter_narrows min_safety df : narrows (safety_filter min_safety df) df.
Proof.
  unfold safety_filter. destruct (_ && _); [apply select_narrows|apply narrows_refl].
Qed.

Lemma attribute_filter_narrows f df : narrows (attribute_filter f df) df.
Proof. rewrite attribute_filter_as_table. apply fold_steps_narrows. Qed.

(** X7.  The price, safety and attribute steps of the researcher keep the
    columns of the frame, and the rows they return are a subsequence of the
    rows they were given: no row is added, changed or moved. *)
Theorem filters_only_drop_rows (max_price : pyval) (min_safety : Z)
    (attribute_filters : option (gmap string pyval)) (df : DataFrame) :
  columns (apply_filters max_price min_safety attribute_filters df) = columns df /\
  sublist (rows (apply_filters max_price min_safety attribute_filters df)) (rows df).
Proof.
  unfold apply_filters.
  eapply narrows_trans; [apply attribute_filter_narrows|].
  eapply narrows_trans; [apply safety_filter_narrows|apply price_filter_narrows].
Qed.

(** X8.  After the researcher's filters with an integer price bound, every row
    left has a numeric [PRICE_LEVEL] at most the bound, when the frame has
    that column; and with a positive [min_safety] every row left has a
    numeric [SAFETY_SCORE] at least [min_safety], when the frame has that
    column. *)
Theorem survivors_meet_price_and_safety (max_price_int min_safety : Z)
    (attribute_filters : option (gmap string pyval)) (df : DataFrame) :
  let result := apply_filters (PInt max_price_int) min_safety attribute_filters df in
  (has_column df "PRICE_LEVEL" = true ->
   Forall (fun row => exists q, to_numeric (get (columns df) row "PRICE_LEVEL") = Some q /\
                                (q <= inject_Z max_price_int)%Q) (rows result)) /\
  (0 < min_safety -> has_column df "SAFETY_SCORE" = true ->
   Forall (fun row => exists q, to_numeric (get (columns df) row "SAFETY_SCORE") = Some q /\
                                (inject_Z min_safety <= q)%Q) (rows result)).
Proof.
  cbv zeta. unfold apply_filters. split.
  - intros Hcol.
    eapply narrows_Forall;
      [eapply narrows_trans; [apply attribute_filter_narrows|apply safety_filter_narrows]|].
    unfold price_filter. cbn [negb py_int]. rewrite Hcol. cbn [andb].
    eapply Forall_impl; [apply select_Forall|].
    intros row Hrow. cbv beta in Hrow. unfold numeric_le in Hrow.
    destruct (to_numeric _) as [q|]; [|done]. exists q. split; [done|].
    by apply Qle_bool_iff.
  - intros Hpos Hcol.
    eapply narrows_Forall; [apply attribute_filter_narrows|].
    pose proof (price_filter_narrows (PInt max_price_int) df) as Hprice.
    unfold safety_filter. rewrite (narrows_has_column _ _ _ Hprice), Hcol.
    replace (negb (min_safety =? 0) && (min_safety >? 0)) with true.
    2:{ symmetry. apply andb_true_intro. split.
        - apply negb_true_iff, Z.eqb_neq. lia.
        - apply Z.gtb_lt. lia. }
    cbn [andb]. destruct Hprice as [-> _].
    eapply Forall_impl; [apply select_Forall|].
    intros row Hrow. cbv beta in Hrow. unfold numeric_ge in Hrow.
    destruct (to_numeric _) as [q|]; [|done]. exists q. split; [done|].
    by apply Qle_bool_iff.
Qed.

(** X9.  For each of the fourteen attribute steps: when the normalised filters
    hold one of the step's tokens in the step's slot and the frame has the
    step's column, that column is true in every row the researcher's filters
    leave. *)
Theorem survivors_have_requested_attributes (max_price : pyval) (min_safety : Z)
    (attribute_filters : option (gmap string pyval)) (df : DataFrame)
    (slot token col : string) (tokens : list string) :
  (slot, tokens, col) ∈ attribute_steps ->
  token ∈ tokens ->
  slot_has (_normalize_attribute_filters attribute_filters) slot token = true ->
  has_column df col = true ->
  Forall (flag_set (columns df) col)
         (rows (apply_filters max_price min_safety attribute_filters df)).
Proof.
  intros Hstep Htok Hslot Hcol. unfold apply_filters.
  rewrite attribute_filter_as_table.
  pose proof (narrows_trans _ _ _ (safety_filter_narrows min_safety _)
                (price_filter_narrows max_price df)) as Hnarrow.
  destruct Hnarrow as [Ecols Hsub]. rewrite <- Ecols.
  eapply fold_steps_sound; [exact Hstep| |].
  - apply existsb_exists. exists token. split; [by apply list_elem_of_In|done].
  - unfold has_column in *. by rewrite Ecols.
Qed.

(** X10.  When sorting keeps the number of rows, [researcher_agent] ends in one of
    three ways: [success], with a frame of at least one row and at most as
    many rows as the retriever's, counted in [num_results]; [partial], with
    no frame, after a successful retriever message, flagged
    [filters_too_strict]; or [failed], with no frame. *)
Theorem researcher_outcomes (retriever_msg : option (AgentMessage DataFrame))
    (max_price : pyval) (min_safety : Z) (attribute_filters : option (gmap string pyval)) :
  Retriever.sort_values_keeps_rows ->
  let result := researcher_agent retriever_msg max_price min_safety attribute_filters in
  (status result = "success" \/ status result = "partial" \/ status result = "failed") /\
  (status result = "success" ->
     exists df, data result = Some df /\ (0 < len df)%nat /\
                (len df <= _safe_len (retriever_msg ≫= data))%nat /\
                metadata result !! "num_results" = Some (PInt (Z.of_nat (len df)))) /\
  (status result <> "success" -> data result = None /\ confidence result = 0%Q) /\
  (status result = "partial" ->
     missing_or_failed retriever_msg = false /\
     metadata result !! "filters_too_strict" = Some (PBool true) /\
     metadata result !! "num_results" = Some (PInt 0)).
Proof.
  intros Hsort. cbv zeta. unfold researcher_agent.
  destruct retriever_msg as [msg|]; [|by repeat split; auto].
  cbn [mbind option_bind missing_or_failed].
  destruct (is_successful msg) eqn:Esucc; cbn [negb]; [|by repeat split; auto].
  destruct (data msg) as [df|] eqn:Edata; [|by repeat split; auto].
  destruct (Nat.eqb (len df) 0) eqn:Elen; [by repeat split; auto|].
  pose proof (ResearcherFacts.apply_filters_len max_price min_safety attribute_filters df)
    as Hle.
  destruct (Nat.eqb (len (apply_filters _ _ _ df)) 0) eqn:Efil.
  { cbn [status data confidence metadata]. repeat split; auto; try done.
    all: by simplify_map_eq. }
  apply Nat.eqb_neq in Efil.
  assert (Hsorted : forall sorted,
            (if has_column (apply_filters max_price min_safety attribute_filters df)
                  "OVERALL_SCORE"
             then sort_values "OVERALL_SCORE" false
                    (apply_filters max_price min_safety attribute_filters df)
             else Some (apply_filters max_price min_safety attribute_filters df))
            = Some sorted ->
            len sorted = len (apply_filters max_price min_safety attribute_filters df)).
  { intros sorted. destruct (has_column _ _); [apply Hsort|by intros [= <-]]. }
  destruct (if has_column _ _ then _ else _) as [sorted|]; cbn [status data confidence metadata].
  - specialize (Hsorted sorted eq_refl). simpl.
    split; [by left|]. split.
    + intros _. exists sorted. split; [done|]. split; [lia|]. split; [lia|].
      unfold count. by simplify_map_eq.
    + split; [done|]. done.
  - repeat split; auto; done.
Qed.

End WithBuiltins.

Lemma researcher_outcomes_witness :
  Retriever.sort_values_keeps_rows (H := Sample.builtins) /\
  let result := researcher_agent (H := Sample.builtins)
                  (Some (Sample2.retrieved Sample2.menu_frame)) (PInt 2) 0
                  (Some Sample2.vegan_filters) in
  (status result = "success" \/ status result = "partial" \/ status result = "failed") /\
  (status result = "success" ->
     exists df, data result = Some df /\ (0 < len df)%nat /\
                (len df <= _safe_len (Some (Sample2.retrieved Sample2.menu_frame) ≫= data))%nat /\
                metadata result !! "num_results" = Some (PInt (Z.of_nat (len df)))) /\
  (status result <> "success" -> data result = None /\ confidence result = 0%Q) /\
  (status result = "partial" ->
     missing_or_failed (Some (Sample2.retrieved Sample2.menu_frame)) = false /\
     metadata result !! "filters_too_strict" = Some (PBool true) /\
     metadata result !! "num_results" = Some (PInt 0)).
Proof.
  split; [exact PipelineFacts.sample_sort_keeps_rows|].
  exact (researcher_outcomes (H := Sample.builtins)
           (Some (Sample2.retrieved Sample2.menu_frame)) (PInt 2) 0
           (Some Sample2.vegan_filters) PipelineFacts.sample_sort_keeps_rows).
Defined.

Lemma survivors_have_requested_attributes_witness :
  ("dietary", ["vegetarian"; "vegan"], "SERVES_VEGETARIAN") ∈ attribute_steps /\
  "vegan" ∈ ["vegetarian"; "vegan"] /\
  slot_has (_normalize_attribute_filters (H := Sample.builtins)
              (Some Sample2.vegan_filters)) "dietary" "vegan" = true /\
  has_column Sample2.menu_frame "SERVES_VEGETARIAN" = true /\
  Forall (flag_set (columns Sample2.menu_frame) "SERVES_VEGETARIAN")
         (rows (apply_filters (H := Sample.builtins) (PInt 2) 0
                  (Some Sample2.vegan_filters) Sample2.menu_frame)).
Proof.
  assert (H1 : ("dietary", ["vegetarian"; "vegan"], "SERVES_VEGETARIAN") ∈ attribute_steps)
    by (unfold attribute_steps; apply elem_of_cons; by left).
  assert (H2 : "vegan" ∈ ["vegetarian"; "vegan"]) by (apply elem_of_cons; right;
    apply elem_of_cons; by left).
  assert (H3 : slot_has (_normalize_attribute_filters (H := Sample.builtins)
              (Some Sample2.vegan_filters)) "dietary" "vegan" = true)
    by (vm_compute; reflexivity).
  assert (H4 : has_column Sample2.menu_frame "SERVES_VEGETARIAN" = true) by reflexivity.
  split; [exact H1|]. split; [exact H2|]. split; [exact H3|]. split; [exact H4|].
  exact (survivors_have_requested_attributes (H := Sample.builtins) (PInt 2) 0
           (Some Sample2.vegan_filters) Sample2.menu_frame "dietary" "vegan"
           "SERVES_VEGETARIAN" ["vegetarian"; "vegan"] H1 H2 H3 H4).
Defined.

Lemma survivors_meet_price_and_safety_witness :
  let result := apply_filters (H := Sample.builtins) (PInt 2) 80 None Sample2.menu_frame in
  (has_column Sample2.menu_frame "PRICE_LEVEL" = true /\ 0 < 80 /\
   has_column Sample2.menu_frame "SAFETY_SCORE" = true) /\
  rows result <> [] /\
  Forall (fun row => exists q,
            to_numeric (H := Sample.builtins)
              (get (columns Sample2.menu_frame) row "PRICE_LEVEL") = Some q /\
            (q <= inject_Z 2)%Q) (rows result) /\
  Forall (fun row => exists q,
            to_numeric (H := Sample.builtins)
              (get (columns Sample2.menu_frame) row "SAFETY_SCORE") = Some q /\
            (inject_Z 80 <= q)%Q) (rows result).
Proof.
  cbv zeta.
  destruct (survivors_meet_price_and_safety (H := Sample.builtins) 2 80 None
              Sample2.menu_frame) as [Hprice Hsafety].
  split; [repeat split; reflexivity|].
  split; [vm_compute; discriminate|].
  split; [exact (Hprice eq_refl)|exact (Hsafety eq_refl eq_refl)].
Defined.

End ResearcherMoreFacts.

(** ** More on the retriever *)

Module RetrieverMoreFacts.
Import Frame FrameOps Retriever.

Lemma flat_map_nonempty_length {A B : Type} (f : A -> list B) (l : list A) :
  (forall x, (1 <= List.length (f x))%nat) ->
  (List.length l <= List.length (List.flat_map f l))%nat.
Proof.
  intros Hf. induction l as [|x l IH]; simpl; [done|].
  rewrite List.length_app. specialize (Hf x). lia.
Qed.

(** The rows of a left merge, seen from the left frame. *)
Lemma merge_left_rows left right key merged :
  merge_left left right key = Some merged ->
  (len left <= len merged)%nat /\
  Forall (fun lrow => exists row, row ∈ rows merged /\ lrow `prefix_of` row) (rows left) /\
  Forall (fun row => exists lrow, lrow ∈ rows left /\ lrow `prefix_of` row) (rows merged).
Proof.
  unfold merge_left.
  destruct (index_of key (columns left)) as [kl|]; [|done].
  destruct (index_of key (columns right)) as [kr|]; [|done].
  intros [= <-]. unfold len. cbn [rows]. cbv zeta.
  set (expand := fun lrow : list cell =>
    match List.filter (fun rrow => key_eq (get (columns left) lrow key) (nth kr rrow CNull))
            (rows right) with
    | [] => [(lrow ++ List.map (fun _ => CNull) (remove_nth kr (columns right)))%list]
    | ms => List.map (fun rrow => (lrow ++ remove_nth kr rrow)%list) ms
    end).
  assert (Hexp : forall lrow,
            (1 <= List.length (expand lrow))%nat /\
            Forall (fun row => lrow `prefix_of` row) (expand lrow)).
  { intros lrow. unfold expand.
    destruct (List.filter _ (rows right)) as [|m ms].
    - split; [simpl; lia|]. constructor; [|constructor]. by eexists.
    - split; [simpl; lia|]. apply Forall_forall. intros row Hrow.
      apply list_elem_of_In, List.in_map_iff in Hrow as (rrow & <- & _). by eexists. }
  split; [|split].
  - apply flat_map_nonempty_length. intros x. apply Hexp.
  - apply Forall_forall. intros lrow Hl.
    destruct (Hexp lrow) as [Hlen Hpre].
    destruct (expand lrow) as [|row rest] eqn:E; [simpl in Hlen; lia|].
    exists row. split.
    + apply list_elem_of_In, List.in_flat_map. exists lrow.
      split; [by apply list_elem_of_In|]. change (In row (expand lrow)). rewrite E. by left.
    + by apply Forall_cons in Hpre as [? _].
  - apply Forall_forall. intros row Hrow.
    apply list_elem_of_In, List.in_flat_map in Hrow as (lrow & Hl & Hin).
    exists lrow. split; [by apply list_elem_of_In|].
    destruct (Hexp lrow) as [_ Hpre].
    eapply Forall_forall in Hpre; [exact Hpre|]. by apply list_elem_of_In.
Qed.

(** X11.  The left merge with the master table neither loses nor invents a
    candidate: [enrich] returns at least as many rows as the search gave,
    every row of the search is the beginning of some row of the result, and
    every row of the result begins with some row of the search. *)
Theorem enrichment_keeps_every_candidate `{Builtins}
    (results_df : DataFrame) (detail : option DataFrame) :
  (len results_df <= len (enrich results_df detail))%nat /\
  Forall (fun lrow => exists row, row ∈ rows (enrich results_df detail) /\
                                  lrow `prefix_of` row) (rows results_df) /\
  Forall (fun row => exists lrow, lrow ∈ rows results_df /\ lrow `prefix_of` row)
         (rows (enrich results_df detail)).
Proof.
  assert (Hsame : (len results_df <= len results_df)%nat /\
    Forall (fun lrow => exists row, row ∈ rows results_df /\ lrow `prefix_of` row)
           (rows results_df) /\
    Forall (fun row => exists lrow, lrow ∈ rows results_df /\ lrow `prefix_of` row)
           (rows results_df)).
  { split; [lia|]. split; apply Forall_forall; intros row Hrow; by exists row. }
  unfold enrich. destruct detail as [detail_df|]; [|exact Hsame].
  destruct (merge_left results_df detail_df "RESTAURANT_ID") as [merged|] eqn:E;
    [|exact Hsame].
  by apply merge_left_rows in E.
Qed.

Section WithBuiltins.
Context `{Builtins}.

(** X12.  [retriever_agent] sends at most two queries.  When it succeeds it has
    sent exactly two, the first was answered with at least one row, and its
    frame has the four columns it displays; when it has sent fewer than two
    it has failed. *)
Theorem retriever_query_budget (store : string -> option DataFrame) (user_query : string)
    (analyst_data : gmap string pyval)
    (user_location search_area : option (gmap string pyval)) (top_k : Z) :
  let program := retriever_agent user_query analyst_data user_location search_area top_k in
  (List.length (queries store program) <= 2)%nat /\
  (is_successful (run store program) = true ->
     List.length (queries store program) = 2%nat /\
     exists results_df df,
       List.head (queries store program) ≫= store = Some results_df /\
       (0 < len results_df)%nat /\
       data (run store program) = Some df /\
       forallb (has_column df)
         ["RESTAURANT_NAME"; "PRIMARY_CUISINE"; "NEIGHBORHOOD"; "SIMILARITY_SCORE"] = true) /\
  (List.length (queries store program) < 2 -> run store program = failed)%nat.
Proof.
  cbv zeta. unfold retriever_agent.
  destruct (effective_location analyst_data search_area) as [[name mode]|];
    [|cbn; split; [lia|split; [done|done]]].
  destruct (neighborhood_condition name mode) as [nc|];
    [|cbn; split; [lia|split; [done|done]]].
  cbn [run queries List.length List.head mbind option_bind].
  destruct (store (search_query _ _ _ _)) as [results_df|] eqn:Es;
    [|cbn; split; [lia|split; [done|done]]].
  destruct (Nat.eqb (len results_df) 0) eqn:Elen;
    [cbn; split; [lia|split; [done|done]]|].
  apply Nat.eqb_neq in Elen.
  destruct (has_column results_df "RESTAURANT_ID"); cbn [negb];
    [|cbn; split; [lia|split; [done|done]]].
  cbn [run queries List.length].
  destruct (distance_step _ _ _ _) as [df'|]; cbn [run queries List.length];
    [|split; [lia|split; [done|lia]]].
  split; [lia|]. split; [|lia].
  unfold finish. destruct (forallb _ _) eqn:Ecols; [|done].
  intros _. split; [done|]. exists results_df, df'. split; [done|]. split; [lia|].
  split; [done|exact Ecols].
Qed.

(** X13.  When the location name in force is truthy and not a string,
    [retriever_agent] fails without sending a query. *)
Theorem retriever_needs_a_text_location (store : string -> option DataFrame)
    (user_query : string) (analyst_data : gmap string pyval)
    (user_location search_area : option (gmap string pyval)) (top_k : Z)
    (location_name location_mode : pyval) :
  effective_location analyst_data search_area = Some (location_name, location_mode) ->
  py_truthy location_name = true ->
  (forall s, location_name <> PStr s) ->
  let program := retriever_agent user_query analyst_data user_location search_area top_k in
  run store program = failed /\ queries store program = [].
Proof.
  intros Eloc Htruthy Hstr. cbv zeta. unfold retriever_agent. rewrite Eloc.
  unfold neighborhood_condition. rewrite Htruthy.
  destruct location_name as [| | | |s| |]; try done. by destruct (Hstr s).
Qed.

End WithBuiltins.

Lemma retriever_needs_a_text_location_witness :
  let search_area := Some (<["name" := PInt 2139]> (<["mode" := PStr "include_strict"]> ∅)) in
  effective_location ∅ search_area
    = Some (PInt 2139, PStr "include_strict") /\
  py_truthy (PInt 2139) = true /\
  (forall s, PInt 2139 <> PStr s) /\
  run Sample.single_master_store
    (retriever_agent (H := Sample.builtins) "pizza" ∅ None search_area 20) = failed /\
  queries Sample.single_master_store
    (retriever_agent (H := Sample.builtins) "pizza" ∅ None search_area 20) = [].
Proof.
  cbv zeta.
  assert (H1 : effective_location ∅
                 (Some (<["name" := PInt 2139]> (<["mode" := PStr "include_strict"]> ∅)))
               = Some (PInt 2139, PStr "include_strict")) by (vm_compute; reflexivity).
  assert (H2 : py_truthy (PInt 2139) = true) by reflexivity.
  assert (H3 : forall s, PInt 2139 <> PStr s) by (intros s; discriminate).
  split; [exact H1|]. split; [exact H2|]. split; [exact H3|].
  exact (retriever_needs_a_text_location (H := Sample.builtins) Sample.single_master_store
           "pizza" ∅ None _ 20 _ _ H1 H2 H3).
Defined.

Lemma retriever_query_budget_witness :
  let program := retriever_agent (H := Sample.builtins) "pizza" ∅ None None 20 in
  is_successful (run Sample.single_master_store program) = true /\
  List.length (queries Sample.single_master_store program) = 2%nat.
Proof.
  cbv zeta.
  assert (Hs : is_successful (run Sample.single_master_store
                 (retriever_agent (H := Sample.builtins) "pizza" ∅ None None 20)) = true)
    by (vm_compute; reflexivity).
  split; [exact Hs|].
  destruct (retriever_query_budget (H := Sample.builtins) Sample.single_master_store
              "pizza" ∅ None None 20) as (_ & Hok & _).
  exact (proj1 (Hok Hs)).
Defined.

End RetrieverMoreFacts.

(** ** More on the query analyst *)

Module AnalystMoreFacts.
Import Analyst AnalystSchema AnalystFacts.

Lemma setdefault_present d k v : is_Some (d !! k) -> setdefault d k v = d.
Proof. intros [w Hw]. unfold setdefault. by rewrite Hw. Qed.

Lemma setdefault_lookup_self d k v : is_Some (setdefault d k v !! k).
Proof.
  unfold setdefault. destruct (d !! k) eqn:E; [by rewrite E|].
  rewrite lookup_insert_eq. by eexists.
Qed.

Lemma setdefault_is_Some d k v k' : is_Some (d !! k') -> is_Some (setdefault d k v !! k').
Proof. intros [w Hw]. exists w. by apply setdefault_keeps. Qed.

Lemma fill_slot_fixed f key :
  (exists v, f !! key = Some v /\ v <> PNone) -> fill_slot f key = f.
Proof.
  intros (v & E & Hv). unfold fill_slot.
  rewrite setdefault_present by (by eexists). rewrite E. by destruct v.
Qed.

Lemma fill_slots_fixed names : forall f,
  (forall k, k ∈ names -> exists v, f !! k = Some v /\ v <> PNone) ->
  foldl fill_slot f names = f.
Proof.
  induction names as [|key names IH]; intros f Hf; simpl; [done|].
  rewrite fill_slot_fixed by (apply Hf; by left).
  apply IH. intros k Hk. apply Hf. by right.
Qed.

Lemma fill_nested_fixed a k fill inner :
  a !! k = Some (PDict inner) -> fill inner = inner -> fill_nested a k fill = Some a.
Proof.
  intros E Hfill. unfold fill_nested.
  rewrite setdefault_present by (by eexists). rewrite E, Hfill.
  by rewrite insert_id.
Qed.

(** A complete analysis is left as it is. *)
Lemma fill_defaults_fixed a : complete_analysis a -> _fill_defaults (PDict a) = Some a.
Proof.
  intros (Hc & Ho & (loc & El & Hn & Hm & Hr) & (b & Eb & Hp & Hd) & (f & Ef & Hf)).
  unfold _fill_defaults.
  rewrite (setdefault_present a "cuisine") by done.
  rewrite (fill_nested_fixed a "location" _ loc El); cycle 1.
  { rewrite (setdefault_present loc "name") by done.
    rewrite (setdefault_present loc "mode") by done.
    by rewrite (setdefault_present loc "radius_miles"). }
  cbn [mbind option_bind].
  rewrite (fill_nested_fixed a "budget" _ b Eb); cycle 1.
  { rewrite (setdefault_present b "max_price_level") by done.
    by rewrite (setdefault_present b "max_dollars"). }
  cbn [mbind option_bind].
  rewrite (setdefault_present a "open_now") by done.
  apply (fill_nested_fixed a "filters" _ f Ef).
  by apply fill_slots_fixed.
Qed.

(** What [_fill_defaults] returns is complete, and keeps the other keys. *)
Lemma fill_defaults_complete x a' :
  _fill_defaults x = Some a' ->
  complete_analysis a' /\
  (forall a k v, x = PDict a -> a !! k = Some v ->
     k <> "location" -> k <> "budget" -> k <> "filters" -> a' !! k = Some v).
Proof.
  intros E. pose proof (fill_defaults_filters x a' E) as [Hslots _].
  revert E. unfold _fill_defaults. destruct x as [| | | | | |a]; try done.
  destruct (fill_nested (setdefault a "cuisine" PNone) "location" _) as [a1|] eqn:E1;
    [|done]. cbn [mbind option_bind].
  destruct (fill_nested a1 "budget" _) as [a2|] eqn:E2; [|done]. cbn [mbind option_bind].
  intros E3.
  apply fill_nested_lookup in E1 as [(loc & _ & L1) K1].
  apply fill_nested_lookup in E2 as [(b & _ & L2) K2].
  apply fill_nested_lookup in E3 as [_ K3].
  assert (Hget : forall k, k <> "filters" -> a' !! k = setdefault a2 "open_now" PNone !! k).
  { intros k Hk. by apply K3. }
  split.
  - repeat split.
    + rewrite Hget by done. apply setdefault_is_Some. rewrite K2, K1 by done.
      apply setdefault_lookup_self.
    + rewrite Hget by done. apply setdefault_lookup_self.
    + eexists. split.
      * rewrite Hget, setdefault_lookup_ne, K2 by done. exact L1.
      * repeat split.
        -- by do 2 apply setdefault_is_Some; apply setdefault_lookup_self.
        -- apply setdefault_is_Some, setdefault_lookup_self.
        -- apply setdefault_lookup_self.
    + eexists. split.
      * rewrite Hget, setdefault_lookup_ne by done. exact L2.
      * split; [apply setdefault_is_Some|]; apply setdefault_lookup_self.
    + exact Hslots.
  - intros a0 k v [= <-] Ek Hk1 Hk2 Hk3.
    rewrite Hget by done. apply setdefault_keeps.
    rewrite K2, K1 by done. by apply setdefault_keeps.
Qed.

(** X14.  Whatever [_fill_defaults] returns is a complete analysis: [cuisine],
    [open_now], the three fields of [location], the two of [budget] and the
    five filter slots are there, no slot null.  Filling it again changes
    nothing, and the keys of the input other than [location], [budget] and
    [filters] keep their values. *)
Theorem fill_defaults_completes_once (x : pyval) (a' : gmap string pyval) :
  _fill_defaults x = Some a' ->
  complete_analysis a' /\
  _fill_defaults (PDict a') = Some a' /\
  (forall a k v, x = PDict a -> a !! k = Some v ->
     k <> "location" -> k <> "budget" -> k <> "filters" -> a' !! k = Some v).
Proof.
  intros E. destruct (fill_defaults_complete x a' E) as [Hc Hk].
  split; [done|]. split; [by apply fill_defaults_fixed|done].
Qed.

Lemma fill_defaults_completes_once_witness :
  exists a',
    _fill_defaults Sample.vegan_object = Some a' /\
    complete_analysis a' /\
    _fill_defaults (PDict a') = Some a' /\
    (forall a k v, Sample.vegan_object = PDict a -> a !! k = Some v ->
       k <> "location" -> k <> "budget" -> k <> "filters" -> a' !! k = Some v).
Proof.
  destruct (_fill_defaults Sample.vegan_object) as [a'|] eqn:E;
    [|vm_compute in E; discriminate].
  exists a'. split; [reflexivity|].
  exact (fill_defaults_completes_once Sample.vegan_object a' E).
Defined.

Lemma empty_analysis_complete : complete_analysis _get_empty_analysis.
Proof.
  repeat split; try (vm_compute; by eexists).
  - eexists. split; [vm_compute; reflexivity|]. repeat split; vm_compute; by eexists.
  - eexists. split; [vm_compute; reflexivity|]. repeat split; vm_compute; by eexists.
  - apply empty_analysis_slots_filled.
Qed.

(** X15.  [analyze_query_to_json] sends exactly one query and, whatever the model
    answers, returns a complete analysis, one that [_fill_defaults] leaves
    as it is. *)
Theorem analyst_returns_complete_analysis `{Builtins}
    (store : string -> option DataFrame) (user_query : string) :
  complete_analysis (run store (analyze_query_to_json user_query)) /\
  List.length (queries store (analyze_query_to_json user_query)) = 1%nat /\
  _fill_defaults (PDict (run store (analyze_query_to_json user_query)))
  = Some (run store (analyze_query_to_json user_query)).
Proof.
  assert (Hc : complete_analysis (run store (analyze_query_to_json user_query)) /\
               List.length (queries store (analyze_query_to_json user_query)) = 1%nat).
  { unfold analyze_query_to_json, call_cortex, call_cortex_model.
    cbn [mbind eff_mbind eff_bind run queries List.length].
    match goal with
    | |- context [match ?r with Some _ => _ | None => _ end] => destruct r as [raw|]
    end; [|split; [apply empty_analysis_complete|done]].
    destruct raw as [|c raw]; [split; [apply empty_analysis_complete|done]|].
    destruct (json_loads _ ≫= _fill_defaults) as [analysis|] eqn:E;
      [|split; [apply empty_analysis_complete|done]].
    destruct (_display_extraction analysis); cbn [run queries List.length];
      [|split; [apply empty_analysis_complete|done]].
    split; [|done].
    destruct (json_loads _) as [x|]; [|done]. simpl in E.
    by apply fill_defaults_complete in E as [? _]. }
  destruct Hc as [Hc Hq]. split; [done|]. split; [done|]. by apply fill_defaults_fixed.
Qed.

End AnalystMoreFacts.

(** ** Code fences *)

Module FenceFacts.
Import PyString PyStringFacts PyText ParseScoreFacts Analyst.

Lemma append_cons c (s t : string) : String c s ++ t = String c (s ++ t).
Proof. reflexivity. Qed.

Lemma append_nil (t : string) : "" ++ t = t.
Proof. reflexivity. Qed.

Lemma append_empty_r (s : string) : s ++ "" = s.
Proof. induction s as [|c s IH]; [done|]. by rewrite append_cons, IH. Qed.

Lemma contains_eq sub s :
  contains sub s =
  String.prefix sub s || match s with EmptyString => false | String _ s' => contains sub s' end.
Proof. by destruct s. Qed.

Lemma split_once_eq sep s :
  split_once sep s =
  if String.prefix sep s then
    Some (EmptyString, String.substring (String.length sep)
                         (String.length s - String.length sep) s)
  else
    match s with
    | EmptyString => None
    | String c s' =>
        match split_once sep s' with
        | Some (a, b) => Some (String c a, b)
        | None => None
        end
    end.
Proof. by destruct s. Qed.

Lemma prefix_backtick_head m c x :
  is_backtick c = false -> String.prefix (String "`"%char m) (String c x) = false.
Proof.
  intros Hc. cbn [String.prefix]. destruct (ascii_dec "`"%char c) as [<-|]; [|done].
  by vm_compute in Hc.
Qed.

Lemma prefix_self sep rest : String.prefix sep (sep ++ rest) = true.
Proof.
  induction sep as [|c sep IH]; [by destruct rest|].
  rewrite append_cons. cbn [String.prefix]. by destruct (ascii_dec c c).
Qed.

Lemma prefix_app sub a w : String.prefix sub a = true -> String.prefix sub (a ++ w) = true.
Proof.
  revert a. induction sub as [|c sub IH]; intros a; [by destruct a, w|].
  destruct a as [|d a]; [done|]. rewrite append_cons. cbn [String.prefix].
  destruct (ascii_dec c d); [apply IH|done].
Qed.

Lemma substring_all s : String.substring 0 (String.length s) s = s.
Proof. induction s as [|c s IH]; simpl; congruence. Qed.

Lemma substring_after sep rest :
  String.substring (String.length sep)
    (String.length (sep ++ rest) - String.length sep) (sep ++ rest) = rest.
Proof.
  induction sep as [|c sep IH].
  - rewrite append_nil. simpl. rewrite Nat.sub_0_r. apply substring_all.
  - rewrite append_cons. exact IH.
Qed.

(** Splitting right at the separator. *)
Lemma split_once_here sep rest : split_once sep (sep ++ rest) = Some ("", rest).
Proof. by rewrite split_once_eq, prefix_self, substring_after. Qed.

(** A separator that starts with a backtick is not found in text without one. *)
Lemma split_once_skip m a x :
  backtick_free a = true ->
  split_once (String "`"%char m) (a ++ x) =
  match split_once (String "`"%char m) x with
  | Some (u, v) => Some (a ++ u, v)
  | None => None
  end.
Proof.
  induction a as [|c a IH]; intros Ha.
  - rewrite append_nil. by destruct (split_once _ x) as [[u v]|].
  - change (String c a ++ x) with (String c (a ++ x)).
    rewrite split_once_eq, prefix_backtick_head by (by eapply avoids_head).
    rewrite IH by (by eapply avoids_tail).
    by destruct (split_once _ x) as [[u v]|].
Qed.

Lemma split_once_absent m a :
  backtick_free a = true -> split_once (String "`"%char m) a = None.
Proof.
  intros Ha. rewrite <- (append_empty_r a), split_once_skip by done. done.
Qed.

Lemma contains_skip m a x :
  backtick_free a = true ->
  contains (String "`"%char m) (a ++ x) = contains (String "`"%char m) x.
Proof.
  induction a as [|c a IH]; intros Ha; [done|].
  change (String c a ++ x) with (String c (a ++ x)).
  rewrite contains_eq, prefix_backtick_head by (by eapply avoids_head).
  apply IH. by eapply avoids_tail.
Qed.

Lemma contains_absent m a :
  backtick_free a = true -> contains (String "`"%char m) a = false.
Proof. intros Ha. rewrite <- (append_empty_r a), contains_skip by done. done. Qed.

Lemma contains_here sep rest : contains sep (sep ++ rest) = true.
Proof. by rewrite contains_eq, prefix_self. Qed.

Lemma contains_app_r sub a b : contains sub b = true -> contains sub (a ++ b) = true.
Proof.
  intros Hb. induction a as [|c a IH]; [done|].
  change (String c a ++ b) with (String c (a ++ b)).
  rewrite contains_eq, IH. apply orb_true_r.
Qed.

Lemma contains_app_l sub a w : contains sub a = true -> contains sub (a ++ w) = true.
Proof.
  induction a as [|c a IH].
  - rewrite contains_eq, orb_false_r. intros Hp.
    rewrite contains_eq. by rewrite (prefix_app sub "" w Hp).
  - rewrite contains_eq. intros [Hp|Hc]%orb_prop.
    + rewrite contains_eq. by rewrite (prefix_app _ _ w Hp).
    + change (String c a ++ w) with (String c (a ++ w)).
      rewrite contains_eq, IH by done. apply orb_true_r.
Qed.

Lemma lstrip_suffix s : exists w, s = w ++ lstrip s.
Proof.
  induction s as [|c s [w IH]]; [by exists ""|]. cbn [lstrip].
  destruct (is_space c); [|by exists ""].
  exists (String c w). by rewrite append_cons, <- IH.
Qed.

Lemma rstrip_prefix s : exists w, s = rstrip s ++ w.
Proof.
  induction s as [|c s [w IH]]; [by exists ""|]. cbn [rstrip].
  destruct (rstrip s) as [|d r].
  - destruct (is_space c); [by exists (String c s)|]. exists w.
    rewrite append_nil in IH. by rewrite append_cons, append_nil, <- IH.
  - exists w. by rewrite append_cons, <- IH.
Qed.

(** Stripping cannot make a marker appear. *)
Lemma contains_strip sub s : contains sub (strip s) = true -> contains sub s = true.
Proof.
  intros Hs. destruct (rstrip_prefix s) as [w Hw].
  destruct (lstrip_suffix (rstrip s)) as [v Hv].
  rewrite Hw. apply contains_app_l. rewrite Hv. by apply contains_app_r.
Qed.

Lemma rstrip_cons c x : is_space c = false -> rstrip (String c x) = String c (rstrip x).
Proof. intros Hc. cbn [rstrip]. destruct (rstrip x); by rewrite ?Hc. Qed.

Lemma rstrip_app_nonspace a c x :
  is_space c = false -> rstrip (a ++ String c x) = a ++ String c (rstrip x).
Proof.
  intros Hc. induction a as [|d a IH]; [by apply rstrip_cons|].
  change (String d a ++ String c x) with (String d (a ++ String c x)).
  cbn [rstrip]. rewrite IH. by destruct a.
Qed.

Lemma lstrip_app_nonspace a c x :
  is_space c = false -> lstrip (a ++ String c x) = lstrip a ++ String c x.
Proof.
  intros Hc. induction a as [|d a IH]; [rewrite !append_nil; simpl; by rewrite Hc|].
  rewrite append_cons. cbn [lstrip]. by destruct (is_space d).
Qed.

Lemma strip_around_backtick a x :
  strip (a ++ String "`"%char x) = lstrip a ++ String "`"%char (rstrip x).
Proof.
  unfold strip. by rewrite rstrip_app_nonspace, lstrip_app_nonspace.
Qed.

Lemma clean_json_nonempty c t :
  _clean_json (String c t) =
  let t := strip (String c t) in
  strip (if contains "```json" t then fenced "```json" t
         else if contains "```" t then fenced "```" t else t).
Proof. done. Qed.

Lemma app_backtick_nonempty a x : exists c t, a ++ String "`"%char x = String c t.
Proof. destruct a; [rewrite append_nil|rewrite append_cons]; eauto. Qed.

(** Text without a backtick is only stripped. *)
Lemma clean_json_unfenced body : backtick_free body = true -> _clean_json body = strip body.
Proof.
  intros Hb. destruct body as [|c t]; [done|].
  rewrite clean_json_nonempty. cbv zeta.
  rewrite !contains_absent by (by apply avoids_strip).
  apply strip_idem.
Qed.

Lemma fenced_closed marker a body rest :
  backtick_free a = true -> backtick_free body = true ->
  fenced (String "`"%char marker) (a ++ String "`"%char marker ++ body ++ "```" ++ rest)
  = body.
Proof.
  intros Ha Hb. unfold fenced.
  rewrite split_once_skip by done.
  rewrite (split_once_here (String "`"%char marker)).
  rewrite split_once_skip by done.
  rewrite (split_once_here "```"). by rewrite append_empty_r.
Qed.

Lemma fenced_open marker a body :
  backtick_free a = true -> backtick_free body = true ->
  fenced (String "`"%char marker) (a ++ String "`"%char marker ++ body) = body.
Proof.
  intros Ha Hb. unfold fenced.
  rewrite split_once_skip by done.
  rewrite (split_once_here (String "`"%char marker)).
  by rewrite split_once_absent.
Qed.

(** X16.  For texts [pre] and [body] without a backtick, and any [post],
    [_clean_json] returns the stripped [body] for [body] in a json fence
    with [pre] before and [post] after it, for [body] after a json fence
    that is never closed, and for [body] alone. *)
Theorem clean_json_unwraps_json_fence (pre body post : string) :
  backtick_free pre = true -> backtick_free body = true ->
  _clean_json (pre ++ "```json" ++ body ++ "```" ++ post) = strip body /\
  _clean_json (pre ++ "```json" ++ body) = strip body /\
  _clean_json body = strip body.
Proof.
  intros Hpre Hbody. split; [|split].
  - destruct (app_backtick_nonempty pre ("``json" ++ body ++ "```" ++ post)) as (c & t & E).
    change (pre ++ "```json" ++ body ++ "```" ++ post)
      with (pre ++ String "`"%char ("``json" ++ body ++ "```" ++ post)).
    rewrite E, clean_json_nonempty, <- E. cbv zeta.
    rewrite strip_around_backtick.
    change ("``json" ++ body ++ "```" ++ post)
      with (String "`"%char (String "`"%char (String "j"%char (String "s"%char
             (String "o"%char (String "n"%char (body ++ String "`"%char ("``" ++ post)))))))).
    rewrite !rstrip_cons by done. rewrite rstrip_app_nonspace by done.
    change (rstrip ("``" ++ post)) with (rstrip (String "`"%char (String "`"%char post))).
    rewrite !rstrip_cons by done.
    change (lstrip pre ++ _)
      with (lstrip pre ++ "```json" ++ body ++ "```" ++ rstrip post).
    rewrite (contains_skip _ (lstrip pre)) by (by apply avoids_lstrip).
    rewrite (contains_here "```json").
    by rewrite (fenced_closed "``json") by (by try apply avoids_lstrip).
  - destruct (app_backtick_nonempty pre ("``json" ++ body)) as (c & t & E).
    change (pre ++ "```json" ++ body) with (pre ++ String "`"%char ("``json" ++ body)).
    rewrite E, clean_json_nonempty, <- E. cbv zeta.
    rewrite strip_around_backtick.
    change ("``json" ++ body)
      with (String "`"%char (String "`"%char (String "j"%char (String "s"%char
             (String "o"%char (String "n"%char body)))))).
    rewrite !rstrip_cons by done.
    change (lstrip pre ++ _) with (lstrip pre ++ "```json" ++ rstrip body).
    rewrite (contains_skip _ (lstrip pre)) by (by apply avoids_lstrip).
    rewrite (contains_here "```json").
    rewrite (fenced_open "``json") by (by try apply avoids_lstrip; try apply avoids_rstrip).
    unfold strip. by rewrite rstrip_idem.
  - by apply clean_json_unfenced.
Qed.

Lemma clean_json_unwraps_json_fence_witness :
  let pre := "Here is the analysis:" ++ nl in
  let body := nl ++ Sample.vegan_json ++ nl in
  let post := nl ++ "Let me know if it helps." in
  (backtick_free pre = true /\ backtick_free body = true) /\
  _clean_json (pre ++ "```json" ++ body ++ "```" ++ post) = Sample.vegan_json /\
  _clean_json (pre ++ "```json" ++ body) = Sample.vegan_json /\
  _clean_json body = Sample.vegan_json.
Proof.
  split; [split; vm_compute; reflexivity|].
  exact (clean_json_unwraps_json_fence ("Here is the analysis:" ++ nl)
           (nl ++ Sample.vegan_json ++ nl) (nl ++ "Let me know if it helps.")
           eq_refl eq_refl).
Defined.

(** X17.  For texts [pre] and [body] without a backtick, and any [post] such that
    the whole text holds no json fence marker, [_clean_json] returns the
    stripped [body] for [body] in a plain fence with [pre] before and [post]
    after it. *)
Theorem clean_json_unwraps_plain_fence (pre body post : string) :
  backtick_free pre = true -> backtick_free body = true ->
  contains "```json" (pre ++ "```" ++ body ++ "```" ++ post) = false ->
  _clean_json (pre ++ "```" ++ body ++ "```" ++ post) = strip body.
Proof.
  intros Hpre Hbody Hjson.
  assert (Hj : contains "```json" (strip (pre ++ "```" ++ body ++ "```" ++ post)) = false).
  { destruct (contains _ (strip _)) eqn:E; [|done].
    apply contains_strip in E. congruence. }
  revert Hj.
  destruct (app_backtick_nonempty pre ("``" ++ body ++ "```" ++ post)) as (c & t & E).
  change (pre ++ "```" ++ body ++ "```" ++ post)
    with (pre ++ String "`"%char ("``" ++ body ++ "```" ++ post)).
  rewrite E, clean_json_nonempty, <- E. cbv zeta. intros ->.
  rewrite strip_around_backtick.
  change ("``" ++ body ++ "```" ++ post)
    with (String "`"%char (String "`"%char (body ++ String "`"%char ("``" ++ post)))).
  rewrite !rstrip_cons by done. rewrite rstrip_app_nonspace by done.
  change (rstrip ("``" ++ post)) with (rstrip (String "`"%char (String "`"%char post))).
  rewrite !rstrip_cons by done.
  change (lstrip pre ++ _) with (lstrip pre ++ "```" ++ body ++ "```" ++ rstrip post).
  rewrite (contains_skip _ (lstrip pre)) by (by apply avoids_lstrip).
  rewrite (contains_here "```").
  by rewrite (fenced_closed "``") by (by try apply avoids_lstrip).
Qed.

Lemma clean_json_unwraps_plain_fence_witness :
  let pre := "Result " in
  let body := nl ++ Sample.vegan_json ++ nl in
  let post := " done" in
  (backtick_free pre = true /\ backtick_free body = true /\
   contains "```json" (pre ++ "```" ++ body ++ "```" ++ post) = false) /\
  _clean_json (pre ++ "```" ++ body ++ "```" ++ post) = Sample.vegan_json.
Proof.
  split; [repeat split; vm_compute; reflexivity|].
  exact (clean_json_unwraps_plain_fence "Result " (nl ++ Sample.vegan_json ++ nl) " done"
           eq_refl eq_refl eq_refl).
Defined.

End FenceFacts.

(** ** Running computations *)

Module EffFacts.

Lemma run_bind {A B} store (e : Eff A) (f : A -> Eff B) :
  run store (e ≫= f) = run store (f (run store e)).
Proof.
  unfold mbind, eff_mbind. induction e as [a|q k IH]; simpl; [done|]. apply IH.
Qed.

Lemma queries_bind {A B} store (e : Eff A) (f : A -> Eff B) :
  queries store (e ≫= f) = (queries store e ++ queries store (f (run store e)))%list.
Proof.
  unfold mbind, eff_mbind. induction e as [a|q k IH]; simpl; [done|]. by rewrite IH.
Qed.

Lemma call_cortex_one_query store prompt t :
  List.length (queries store (call_cortex prompt t)) = 1%nat.
Proof. done. Qed.

End EffFacts.

(** ** Input validation *)

Module InputValidatorFacts.
Import PyString InputValidator FenceFacts EffFacts.

Lemma agent_after_basic_checks prompt user_query :
  passes_basic_checks user_query ->
  input_validation_agent prompt user_query =
  (result ← call_cortex (prompt user_query) (1 # 10)%Q;
   Ret (intent_verdict user_query result)).
Proof.
  intros (Hs & Hl & Hg). unfold input_validation_agent.
  destruct (Nat.ltb_spec (String.length (strip user_query)) 2); [lia|].
  destruct (Nat.ltb_spec 500 (String.length user_query)); [lia|].
  by rewrite Hg.
Qed.

Lemma agent_before_model prompt user_query :
  ~ passes_basic_checks user_query ->
  exists m, input_validation_agent prompt user_query = Ret m /\
            (m = too_short \/ m = too_long \/ m = outside_region).
Proof.
  intros Hn. unfold input_validation_agent.
  destruct (Nat.ltb_spec (String.length (strip user_query)) 2); [eauto|].
  destruct (Nat.ltb_spec 500 (String.length user_query)); [eauto|].
  destruct (geographic_restriction _ _) eqn:Hg; [eauto|].
  destruct Hn. repeat split; [lia|lia|done].
Qed.

Lemma passes_basic_checks_dec user_query :
  passes_basic_checks user_query \/ ~ passes_basic_checks user_query.
Proof.
  unfold passes_basic_checks.
  destruct (le_dec 2 (String.length (strip user_query)));
    destruct (le_dec (String.length user_query) 500);
    destruct (geographic_restriction _ _); tauto || (right; intros (? & ? & ?); done).
Qed.

Lemma intent_verdict_cases user_query result :
  intent_verdict user_query result = off_topic \/
  intent_verdict user_query result = no_keywords \/
  intent_verdict user_query result = validated user_query.
Proof.
  unfold intent_verdict. destruct result as [[|c r]|]; cbv zeta;
    repeat (match goal with |- context [if ?b then _ else _] => destruct b end); auto.
Qed.

(** X18.  [input_validation_agent] sends at most one query, and none exactly when
    the query fails a basic check (shorter than two characters once
    stripped, longer than 500, or naming a place outside the region).  A
    successful message carries the query unchanged as [original_query]; an
    unsuccessful one has status [failed], no payload, and both an [error]
    and a [suggestion] in its metadata. *)
Theorem validator_outcomes (prompt : string -> string)
    (store : string -> option DataFrame) (user_query : string) :
  let e := input_validation_agent prompt user_query in
  let m := run store e in
  agent m = "InputValidator" /\
  (queries store e = [] <-> ~ passes_basic_checks user_query) /\
  (List.length (queries store e) <= 1)%nat /\
  (is_successful m = true ->
     passes_basic_checks user_query /\
     data m = Some (PDict (<["original_query" := PStr user_query]> ∅))) /\
  (is_successful m = false ->
     status m = "failed" /\ data m = None /\
     is_Some (metadata m !! "error") /\ is_Some (metadata m !! "suggestion")).
Proof.
  cbv zeta.
  destruct (passes_basic_checks_dec user_query) as [Hp|Hn].
  - rewrite (agent_after_basic_checks prompt user_query Hp).
    rewrite run_bind, queries_bind. cbn [run queries]. rewrite app_nil_r.
    split; [|split; [|split; [|split]]].
    + by destruct (intent_verdict_cases user_query
                     (run store (call_cortex (prompt user_query) (1 # 10)%Q)))
        as [->|[->| ->]].
    + split; [done|tauto].
    + by rewrite call_cortex_one_query.
    + intros Hs. split; [done|].
      by destruct (intent_verdict_cases user_query
                     (run store (call_cortex (prompt user_query) (1 # 10)%Q)))
        as [E|[E|E]]; rewrite E in Hs |- *.
    + intros Hs.
      destruct (intent_verdict_cases user_query
                  (run store (call_cortex (prompt user_query) (1 # 10)%Q)))
        as [E|[E|E]]; rewrite E in Hs |- *; try done; repeat split; by eexists.
  - destruct (agent_before_model prompt user_query Hn) as (m & -> & Hm).
    cbn [run queries]. split; [|split; [|split; [|split]]].
    + by destruct Hm as [->|[->| ->]].
    + done.
    + simpl. lia.
    + by destruct Hm as [->|[->| ->]].
    + intros _. destruct Hm as [->|[->| ->]]; repeat split; by eexists.
Qed.

Lemma validator_outcomes_witness :
  let e := input_validation_agent Sample3.plain_prompt "cheap mexican food" in
  is_successful (run (Sample3.answering "YES") e) = true /\
  passes_basic_checks "cheap mexican food" /\
  data (run (Sample3.answering "YES") e)
  = Some (PDict (<["original_query" := PStr "cheap mexican food"]> ∅)).
Proof.
  cbv zeta.
  assert (Hs : is_successful (run (Sample3.answering "YES")
                 (input_validation_agent Sample3.plain_prompt "cheap mexican food")) = true)
    by (vm_compute; reflexivity).
  split; [exact Hs|].
  destruct (validator_outcomes Sample3.plain_prompt (Sample3.answering "YES")
              "cheap mexican food") as (_ & _ & _ & Hok & _).
  exact (Hok Hs).
Defined.

Lemma prefix_shorter a b s : String.prefix (a ++ b) s = true -> String.prefix a s = true.
Proof.
  revert s. induction a as [|c a IH]; intros s; [by destruct s|].
  destruct s as [|d s]; [done|]. rewrite append_cons. cbn [String.prefix].
  destruct (ascii_dec c d); [apply IH|done].
Qed.

Lemma contains_shorter a b s : contains (a ++ b) s = true -> contains a s = true.
Proof.
  induction s as [|d s IH].
  - rewrite (contains_eq (a ++ b) ""), (contains_eq a ""), !orb_false_r.
    apply prefix_shorter.
  - rewrite (contains_eq (a ++ b) (String d s)), (contains_eq a (String d s)).
    intros [Hp|Hc]%orb_prop; [by rewrite (prefix_shorter _ _ _ Hp)|].
    rewrite (IH Hc). apply orb_true_r.
Qed.

(** The test for NOT adds nothing to the test for NO. *)
Lemma no_or_not answer :
  contains "NO" answer || contains "NOT" answer = contains "NO" answer.
Proof.
  destruct (contains "NO" answer) eqn:E; [done|]. simpl.
  destruct (contains "NOT" answer) eqn:E'; [|done].
  apply (contains_shorter "NO" "T") in E'. congruence.
Qed.

(** X19.  Once the basic checks pass and the model answers with a non-empty text,
    the query is rejected as off topic when the stripped, upper-cased answer
    contains the letters NO anywhere, and accepted otherwise: the test for
    NOT adds nothing. *)
Theorem validator_rejects_answers_containing_no (prompt : string -> string)
    (store : string -> option DataFrame) (user_query answer : string) :
  passes_basic_checks user_query ->
  run store (call_cortex (prompt user_query) (1 # 10)%Q) = Some answer ->
  answer <> "" ->
  let m := run store (input_validation_agent prompt user_query) in
  (contains "NO" (upper (strip answer)) = true -> m = off_topic) /\
  (contains "NO" (upper (strip answer)) = false -> m = validated user_query).
Proof.
  intros Hp Hrun Ha. cbv zeta.
  rewrite (agent_after_basic_checks prompt user_query Hp), run_bind, Hrun.
  cbn [run]. unfold intent_verdict. destruct answer as [|c r]; [done|].
  cbv zeta. rewrite no_or_not. split; by intros ->.
Qed.

Lemma validator_rejects_answers_containing_no_witness :
  passes_basic_checks "cheap mexican food" /\
  run (Sample3.answering "Yes, I know a few.")
      (input_validation_agent Sample3.plain_prompt "cheap mexican food") = off_topic.
Proof.
  assert (Hp : passes_basic_checks "cheap mexican food").
  { split; [vm_compute; lia|]. split; [vm_compute; lia|]. vm_compute; reflexivity. }
  split; [exact Hp|].
  apply (validator_rejects_answers_containing_no Sample3.plain_prompt
           (Sample3.answering "Yes, I know a few.") "cheap mexican food"
           "Yes, I know a few." Hp eq_refl); [discriminate|vm_compute; reflexivity].
Defined.

Lemma geographic_restriction_existsb locations query_lower :
  geographic_restriction locations query_lower =
  existsb (fun location => names_location query_lower location
                           && negb (read_as_cuisine query_lower location)) locations.
Proof.
  induction locations as [|location rest IH]; [done|]. cbn [geographic_restriction existsb].
  fold (read_as_cuisine query_lower location). rewrite IH.
  destruct (names_location query_lower location); [|done].
  by destruct (read_as_cuisine query_lower location).
Qed.

(** X20.  A query of acceptable length is rejected for its geography exactly when
    some listed location stands in it as a word of its own and is not read
    as a cuisine, that is, is not one of the ten countries beside a cuisine
    word. *)
Theorem validator_geographic_rejection (prompt : string -> string)
    (store : string -> option DataFrame) (user_query : string) :
  (2 <= String.length (strip user_query))%nat ->
  (String.length user_query <= 500)%nat ->
  run store (input_validation_agent prompt user_query) = outside_region <->
  exists location,
    In location expanded_invalid /\
    names_location (lower user_query) location = true /\
    read_as_cuisine (lower user_query) location = false.
Proof.
  intros Hs Hl.
  assert (Hg : geographic_restriction expanded_invalid (lower user_query) = true <->
               exists location, In location expanded_invalid /\
                 names_location (lower user_query) location = true /\
                 read_as_cuisine (lower user_query) location = false).
  { rewrite geographic_restriction_existsb, existsb_exists.
    split; intros (location & Hin & Hc); exists location; split; try done.
    - apply andb_prop in Hc as [? ?%negb_true_iff]. done.
    - destruct Hc as [-> ->]. done. }
  rewrite <- Hg. clear Hg.
  destruct (geographic_restriction expanded_invalid (lower user_query)) eqn:E.
  - unfold input_validation_agent.
    destruct (Nat.ltb_spec (String.length (strip user_query)) 2); [lia|].
    destruct (Nat.ltb_spec 500 (String.length user_query)); [lia|].
    rewrite E. done.
  - rewrite (agent_after_basic_checks prompt user_query) by done.
    rewrite run_bind. cbn [run]. split; [|done].
    by destruct (intent_verdict_cases user_query
                   (run store (call_cortex (prompt user_query) (1 # 10)%Q)))
      as [->|[->| ->]].
Qed.

Lemma validator_geographic_rejection_witness :
  ((2 <= String.length (strip "pizza in chicago"))%nat /\
   (String.length "pizza in chicago" <= 500)%nat) /\
  run (Sample3.answering "YES")
      (input_validation_agent Sample3.plain_prompt "pizza in chicago") = outside_region.
Proof.
  assert (Hs : (2 <= String.length (strip "pizza in chicago"))%nat) by (vm_compute; lia).
  assert (Hl : (String.length "pizza in chicago" <= 500)%nat) by (vm_compute; lia).
  split; [by split|].
  apply (validator_geographic_rejection Sample3.plain_prompt (Sample3.answering "YES")
           "pizza in chicago" Hs Hl).
  exists "chicago". split; [vm_compute; tauto|]. split; vm_compute; reflexivity.
Defined.

(** X21.  Once the basic checks pass and the model gives no answer or an empty
    one, the keyword list decides: the query is accepted when it contains
    one of the keywords and rejected otherwise; in particular every query
    that contains the letters [in] is accepted. *)
Theorem validator_keyword_fallback (prompt : string -> string)
    (store : string -> option DataFrame) (user_query : string) :
  passes_basic_checks user_query ->
  run store (call_cortex (prompt user_query) (1 # 10)%Q) = None \/
  run store (call_cortex (prompt user_query) (1 # 10)%Q) = Some "" ->
  let m := run store (input_validation_agent prompt user_query) in
  (any_in fallback_keywords (lower user_query) = true -> m = validated user_query) /\
  (any_in fallback_keywords (lower user_query) = false -> m = no_keywords) /\
  (contains "in" (lower user_query) = true -> m = validated user_query).
Proof.
  intros Hp Hrun. cbv zeta.
  rewrite (agent_after_basic_checks prompt user_query Hp), run_bind.
  assert (Hv : intent_verdict user_query
                 (run store (call_cortex (prompt user_query) (1 # 10)%Q)) =
               if negb (any_in fallback_keywords (lower user_query))
               then no_keywords else validated user_query).
  { by destruct Hrun as [-> | ->]. }
  cbn [run]. rewrite Hv. split; [by intros ->|]. split; [by intros ->|].
  intros Hin.
  assert (Hany : any_in fallback_keywords (lower user_query) = true).
  { unfold any_in. apply existsb_exists. exists "in". split; [|done].
    vm_compute. tauto. }
  by rewrite Hany.
Qed.

Lemma validator_keyword_fallback_witness :
  passes_basic_checks "weather in boston" /\
  run Sample3.unavailable
      (input_validation_agent Sample3.plain_prompt "weather in boston")
  = validated "weather in boston".
Proof.
  assert (Hp : passes_basic_checks "weather in boston").
  { split; [vm_compute; lia|]. split; [vm_compute; lia|]. vm_compute; reflexivity. }
  split; [exact Hp|].
  apply (validator_keyword_fallback Sample3.plain_prompt Sample3.unavailable
           "weather in boston" Hp (or_introl eq_refl)).
  vm_compute; reflexivity.
Defined.

End InputValidatorFacts.

(** ** Locations named in the query *)

Module SmartLocationFacts.
Import PyString Orchestrator SmartLocation EffFacts Analyst AnalystSchema.

Lemma place_is_place latitude longitude name neighborhood :
  is_place (place latitude longitude name neighborhood).
Proof. repeat split; unfold place; simplify_map_eq; by eexists. Qed.

Lemma fallback_in_place table s area : fallback_in table s = Some area -> is_place area.
Proof.
  induction table as [|[key [lat lon]] rest IH]; [done|]. cbn [fallback_in].
  destruct (contains key _); [|done]. intros [= <-]. apply place_is_place.
Qed.

Section WithBuiltins.
Context `{Builtins}.
Variable geocoding_prompt : string -> string.

Lemma from_answer_place name result area :
  from_answer name result = Some (Some area) -> is_place area.
Proof.
  unfold from_answer. destruct (unfence result) as [clean|]; [|done]. cbn [mbind option_bind].
  destruct (json_loads clean) as [[| | | | | |parsed]|]; try done. cbn [mbind option_bind].
  destruct (negb _); [done|].
  destruct (parsed !! "latitude") as [latitude|]; [|done].
  destruct (parsed !! "longitude") as [longitude|]; [|done].
  cbn [mbind option_bind]. intros [= <-]. apply place_is_place.
Qed.

Lemma settle_place name result area :
  settle name result = Returned (Some area) -> is_place area.
Proof.
  unfold settle, fallback.
  destruct result as [[|c r]|].
  - destruct name; try done. intros [= E]. exact (fallback_in_place FALLBACK_COORDS _ _ E).
  - destruct (from_answer name (String c r)) as [found|] eqn:E.
    + intros [= ->]. exact (from_answer_place _ _ _ E).
    + destruct name; try done. intros [= E']. exact (fallback_in_place FALLBACK_COORDS _ _ E').
  - destruct name; try done. intros [= E]. exact (fallback_in_place FALLBACK_COORDS _ _ E).
Qed.

Lemma settle_raises name result : settle name result = Raised -> forall s, name <> PStr s.
Proof.
  unfold settle, fallback. intros E s ->.
  destruct result as [[|c r]|]; try done.
  by destruct (from_answer (PStr s) (String c r)).
Qed.

Lemma geocode_with_llm_asks store location_name :
  py_truthy location_name = true ->
  run store (geocode_with_llm geocoding_prompt location_name)
  = settle location_name
      (run store (call_cortex (geocoding_prompt (py_str location_name)) (1 # 10)%Q)) /\
  List.length (queries store (geocode_with_llm geocoding_prompt location_name)) = 1%nat.
Proof.
  intros Ht. unfold geocode_with_llm. rewrite Ht. cbn [negb].
  rewrite run_bind, queries_bind. cbn [run queries]. rewrite app_nil_r.
  by rewrite call_cortex_one_query.
Qed.

Lemma geocode_with_llm_skips location_name :
  py_truthy location_name = false ->
  geocode_with_llm geocoding_prompt location_name = Ret (Returned None).
Proof. intros Ht. unfold geocode_with_llm. by rewrite Ht. Qed.

(** X22.  [geocode_with_llm] sends at most one query, and none exactly when the
    name is falsy, in which case it returns [None].  It raises only for a
    name that is not a string, and every dict it returns holds [latitude],
    [longitude], [name] and [neighborhood]. *)
Theorem geocode_with_llm_outcomes (store : string -> option DataFrame)
    (location_name : pyval) :
  let e := geocode_with_llm geocoding_prompt location_name in
  (queries store e = [] <-> py_truthy location_name = false) /\
  (List.length (queries store e) <= 1)%nat /\
  (py_truthy location_name = false -> run store e = Returned None) /\
  (run store e = Raised -> forall s, location_name <> PStr s) /\
  (forall area, run store e = Returned (Some area) -> is_place area).
Proof.
  cbv zeta. destruct (py_truthy location_name) eqn:Ht.
  - destruct (geocode_with_llm_asks store location_name Ht) as [-> Hq].
    split; [|split; [|split; [|split]]].
    + split; [|done]. intros E. by rewrite E in Hq.
    + lia.
    + done.
    + apply settle_raises.
    + intros area. apply settle_place.
  - rewrite (geocode_with_llm_skips location_name Ht).
    cbn [run queries]. repeat split; try done. simpl; lia.
Qed.

Lemma with_mode_place location_info mode r area :
  (forall a, r = Returned (Some a) -> is_place a) ->
  with_mode location_info mode r = Returned (Some area) ->
  is_place area /\
  area !! "mode" = Some mode /\
  area !! "radius_miles"
  = Some (dict_get_default location_info "radius_miles" (PFloat (15 # 10)%Q)).
Proof.
  intros Hr. unfold with_mode. destruct r as [|[a|]]; try done.
  destruct (Hr a eq_refl) as (Hlat & Hlon & Hname & Hnb).
  assert (Hne : py_truthy (PDict a) = true).
  { cbn [py_truthy]. destruct Hlat as [v Hv].
    destruct (decide (size a = 0%nat)) as [E|E].
    - apply map_size_empty_iff in E. subst a. by rewrite lookup_empty in Hv.
    - by apply Nat.eqb_neq in E as ->. }
  rewrite Hne. intros [= <-].
  split; [|by simplify_map_eq].
  repeat split; by rewrite !lookup_insert_ne.
Qed.

(** X23.  On a complete analysis [get_search_area_from_analyst] sends at most one
    query.  A returned area is a geocoded place that carries the [mode] and
    the [radius_miles] of the analysis as they are, so the default radius is
    never used, and the mode is not [none]; with the mode [none] nothing is
    sent and [None] is returned; it raises only when the name is not a
    string. *)
Theorem search_area_of_complete_analysis (store : string -> option DataFrame)
    (analysis : gmap string pyval) :
  complete_analysis analysis ->
  exists location_info,
    analysis !! "location" = Some (PDict location_info) /\
    let e := get_search_area_from_analyst geocoding_prompt analysis in
    (List.length (queries store e) <= 1)%nat /\
    (forall area, run store e = Returned (Some area) ->
       is_place area /\
       area !! "mode" = location_info !! "mode" /\
       area !! "radius_miles" = location_info !! "radius_miles" /\
       location_info !! "mode" <> Some (PStr "none")) /\
    (run store e = Raised -> forall s, location_info !! "name" <> Some (PStr s)) /\
    (location_info !! "mode" = Some (PStr "none") ->
       run store e = Returned None /\ queries store e = []).
Proof.
  intros (_ & _ & (loc & El & [name En] & [mode Em] & [radius Er]) & _).
  exists loc. split; [done|]. cbv zeta.
  unfold get_search_area_from_analyst, dict_get_default, dict_get.
  rewrite El. cbn [from_option id]. rewrite En, Em. cbn [from_option id].
  destruct (negb (py_truthy name) || Retriever.py_eq_str mode "none") eqn:Hgo.
  - cbn [run queries]. split; [simpl; lia|]. split; [done|]. split; [done|]. done.
  - apply orb_false_elim in Hgo as [Hname Hmode]. apply negb_false_iff in Hname.
    rewrite run_bind, queries_bind. cbn [run queries]. rewrite app_nil_r.
    destruct (geocode_with_llm_asks store name Hname) as [-> ->].
    split; [lia|]. split; [|split].
    + intros area Harea.
      destruct (with_mode_place loc mode _ area (settle_place name _) Harea)
        as (Hp & Hm & Hr).
      split; [done|]. split; [done|]. split.
      * rewrite Hr. unfold dict_get_default. by rewrite Er.
      * intros [= ->]. done.
    + intros Hr s [= ->]. unfold with_mode in Hr.
      destruct (settle (PStr s) _) as [|[a|]] eqn:E.
      * by apply (settle_raises _ _ E s).
      * by destruct (py_truthy (PDict a)).
      * done.
    + intros [= ->]. done.
Qed.

End WithBuiltins.

Lemma geocode_with_llm_outcomes_witness :
  exists area,
    run Sample3.unavailable
      (geocode_with_llm (H := Sample.builtins) Sample3.plain_prompt (PStr "Somerville Ave"))
    = Returned (Some area) /\
    is_place area.
Proof.
  destruct (run Sample3.unavailable
      (geocode_with_llm (H := Sample.builtins) Sample3.plain_prompt (PStr "Somerville Ave")))
    as [|[area|]] eqn:E.
  1, 3: exfalso; vm_compute in E; discriminate.
  exists area. split; [reflexivity|].
  destruct (geocode_with_llm_outcomes (H := Sample.builtins) Sample3.plain_prompt
              Sample3.unavailable (PStr "Somerville Ave")) as (_ & _ & _ & _ & Hplace).
  exact (Hplace area E).
Defined.

Lemma cambridge_analysis_complete : complete_analysis Sample3.cambridge_analysis.
Proof.
  apply (AnalystMoreFacts.fill_defaults_complete Sample3.cambridge_answer).
  vm_compute. reflexivity.
Qed.

Lemma search_area_of_complete_analysis_witness :
  complete_analysis Sample3.cambridge_analysis /\
  exists area,
    run Sample3.unavailable
      (get_search_area_from_analyst (H := Sample.builtins) Sample3.plain_prompt
         Sample3.cambridge_analysis)
    = Returned (Some area) /\
    area !! "mode" = Some (PStr "include_nearby") /\
    area !! "radius_miles" = Some PNone.
Proof.
  split; [exact cambridge_analysis_complete|].
  destruct (search_area_of_complete_analysis (H := Sample.builtins) Sample3.plain_prompt
              Sample3.unavailable Sample3.cambridge_analysis cambridge_analysis_complete)
    as (loc & El & _ & Harea & _).
  destruct (run Sample3.unavailable
      (get_search_area_from_analyst (H := Sample.builtins) Sample3.plain_prompt
         Sample3.cambridge_analysis)) as [|[area|]] eqn:Er.
  1, 3: exfalso; vm_compute in Er; discriminate.
  exists area. split; [reflexivity|].
  destruct (Harea area eq_refl) as (_ & Hm & Hr & _).
  rewrite Hm, Hr. vm_compute in El. injection El as <-. split; vm_compute; reflexivity.
Defined.

End SmartLocationFacts.

(** ** Follow-up questions *)

Module IntentFacts.
Import PyString Orchestrator Frame Intent EffFacts.

Lemma insert_row_permutation cols col ascending row sorted :
  Permutation (Sample.insert_row cols col ascending row sorted) (row :: sorted).
Proof.
  induction sorted as [|r rest IH]; cbn [Sample.insert_row]; [done|].
  destruct (Sample.before _ _ _); [done|].
  rewrite IH. apply perm_swap.
Qed.

Lemma sample_sort_permutes : sort_values_permutes (H := Sample.builtins).
Proof.
  intros col ascending df df'. cbn [sort_values Sample.builtins]. unfold Sample.sort_rows.
  destruct (has_column df col); [|done]. intros [= <-]. split; [done|]. cbn [rows].
  induction (rows df) as [|row l IH]; cbn [foldr]; [done|].
  by rewrite insert_row_permutation, IH.
Qed.

Lemma head_len n df : len (head n df) = Nat.min n (len df).
Proof. unfold len, head. cbn [rows]. apply length_firstn. Qed.

Lemma head_rows n df row : In row (rows (head n df)) -> In row (rows df).
Proof.
  unfold head. cbn [rows]. intros Hin.
  rewrite <- (firstn_skipn n (rows df)). apply in_or_app. by left.
Qed.

Section WithBuiltins.
Context `{Builtins}.
Variable intent_prompt : option nat -> string -> string.
Variable with_calc_dist : pyval -> DataFrame -> option DataFrame.

Lemma sorted_head_taken previous_results col ascending n action results action' location :
  sort_values_permutes ->
  sorted_head previous_results col ascending n action
  = Returned (IntentResults results action' location) ->
  action' = action /\ location = None /\ taken_from previous_results n results /\
  exists df sorted, results_df previous_results = Some df /\
    sort_values col ascending df = Some sorted /\ results = head n sorted.
Proof.
  intros Hsort. unfold sorted_head.
  destruct (results_df previous_results) as [df|] eqn:Edf; [|done].
  destruct (sort_values col ascending df) as [sorted|] eqn:Es; [|done].
  intros [= <- <- <-]. destruct (Hsort _ _ _ _ Es) as [Hc Hp].
  split; [done|]. split; [done|]. split; [|by exists df, sorted].
  exists df. split; [done|]. split; [done|]. split.
  - rewrite head_len. unfold len. by rewrite (Permutation_length Hp).
  - intros row Hin%head_rows. by apply (Permutation_in _ Hp).
Qed.

Lemma find_closest_results intent previous_results user_location results action location :
  find_closest with_calc_dist intent previous_results user_location
  = Returned (IntentResults results action location) ->
  action = "show_closest" /\ (len results <= 3)%nat /\ is_Some location.
Proof.
  unfold find_closest.
  destruct (target_coords intent user_location) as [|[target|]]; try done.
  destruct target as [| | | | | |coords]; try done.
  destruct (coords !! "name") as [name|]; [|done].
  destruct (results_df previous_results) as [df|]; [|done].
  destruct (has_column df "LATITUDE" && has_column df "LONGITUDE"); [|done].
  destruct (with_calc_dist _ df ≫= sort_values "CALC_DIST_MI" true) as [sorted|]; [|done].
  intros [= <- <- <-]. split; [done|]. split; [|by eexists].
  rewrite head_len. lia.
Qed.

(** X24.  When sorting rearranges the rows, the results of [execute_intent] are
    either the at most three rows of [show_closest], with their location, or,
    for [show_cheapest], [show_safest] and [show_filtered], the first five
    rows (or all of them) of a rearrangement of the previous results, with
    their columns and no location. *)
Theorem execute_intent_results (intent : gmap string pyval) (previous_results : previous)
    (user_location : option pyval) (results : DataFrame) (action : string)
    (location : option pyval) :
  sort_values_permutes ->
  execute_intent with_calc_dist intent previous_results user_location
  = Returned (IntentResults results action location) ->
  (action = "show_closest" /\ (len results <= 3)%nat /\ is_Some location) \/
  ((action = "show_cheapest" \/ action = "show_safest" \/ action = "show_filtered") /\
   location = None /\ taken_from previous_results 5 results).
Proof.
  intros Hsort. unfold execute_intent.
  repeat (match goal with |- context [if ?b then _ else _] => destruct b end);
    try done.
  - intros E. left. by eapply find_closest_results.
  - intros (-> & -> & Ht & _)%(sorted_head_taken _ _ _ _ _ _ _ _ Hsort). right. tauto.
  - intros (-> & -> & Ht & _)%(sorted_head_taken _ _ _ _ _ _ _ _ Hsort). right. tauto.
  - intros (-> & -> & Ht & _)%(sorted_head_taken _ _ _ _ _ _ _ _ Hsort). right. tauto.
  - intros (-> & -> & Ht & _)%(sorted_head_taken _ _ _ _ _ _ _ _ Hsort). right. tauto.
  - intros (-> & -> & Ht & _)%(sorted_head_taken _ _ _ _ _ _ _ _ Hsort). right. tauto.
Qed.

Lemma sorted_head_action previous_results col ascending n action results action' location :
  sorted_head previous_results col ascending n action
  = Returned (IntentResults results action' location) ->
  action' = action /\
  exists df sorted, results_df previous_results = Some df /\
    sort_values col ascending df = Some sorted /\ results = head n sorted.
Proof.
  unfold sorted_head.
  destruct (results_df previous_results) as [df|] eqn:Edf; [|done].
  destruct (sort_values col ascending df) as [sorted|] eqn:Es; [|done].
  intros [= <- <- <-]. split; [done|]. by exists df, sorted.
Qed.

(** X25.  For an intent other than [find_closest]: [sort_by = price] gives the
    five cheapest whatever the intent type; [sort_by = safety] gives the five
    safest unless the type is [find_cheapest]; hence a [show_filtered] answer
    is always ordered by [OVERALL_SCORE], descending. *)
Theorem sort_by_is_read_before_intent_type (intent : gmap string pyval)
    (previous_results : previous) (user_location : option pyval) :
  Retriever.py_eq_str (dict_get intent "intent_type") "find_closest" = false ->
  (Retriever.py_eq_str (dict_get intent "sort_by") "price" = true ->
   execute_intent with_calc_dist intent previous_results user_location
   = sorted_head previous_results "PRICE_LEVEL" true 5 "show_cheapest") /\
  (Retriever.py_eq_str (dict_get intent "sort_by") "safety" = true ->
   Retriever.py_eq_str (dict_get intent "intent_type") "find_cheapest" = false ->
   execute_intent with_calc_dist intent previous_results user_location
   = sorted_head previous_results "SAFETY_SCORE" false 5 "show_safest") /\
  (forall results location,
     execute_intent with_calc_dist intent previous_results user_location
     = Returned (IntentResults results "show_filtered" location) ->
     exists df sorted, results_df previous_results = Some df /\
       sort_values "OVERALL_SCORE" false df = Some sorted /\ results = head 5 sorted).
Proof.
  intros Hc. unfold execute_intent. rewrite Hc. split; [|split].
  - intros ->. by rewrite orb_true_r.
  - intros Hs ->. rewrite Hs, orb_true_r.
    destruct (Retriever.py_eq_str (dict_get intent "sort_by") "price") eqn:Hp; [|done].
    destruct (dict_get intent "sort_by"); try done. cbn in Hs, Hp.
    apply String.eqb_eq in Hs, Hp. congruence.
  - intros results location.
    destruct (Retriever.py_eq_str (dict_get intent "intent_type") "find_cheapest"
              || Retriever.py_eq_str (dict_get intent "sort_by") "price") eqn:E1.
    { by intros [[=] _]%sorted_head_action. }
    destruct (Retriever.py_eq_str (dict_get intent "intent_type") "find_safest"
              || Retriever.py_eq_str (dict_get intent "sort_by") "safety") eqn:E2.
    { by intros [[=] _]%sorted_head_action. }
    apply orb_false_elim in E1 as [_ Hp]. apply orb_false_elim in E2 as [_ Hs].
    destruct (Retriever.py_eq_str (dict_get intent "intent_type") "filter_by_attribute");
      [|by destruct (py_truthy _)].
    assert (Hp' : Retriever.py_eq_str
                    (dict_get_default intent "sort_by" (PStr "OVERALL_SCORE")) "price" = false).
    { unfold dict_get_default, dict_get in *. by destruct (intent !! "sort_by"). }
    assert (Hs' : Retriever.py_eq_str
                    (dict_get_default intent "sort_by" (PStr "OVERALL_SCORE")) "safety" = false).
    { unfold dict_get_default, dict_get in *. by destruct (intent !! "sort_by"). }
    rewrite Hp', Hs'. by intros [_ ?]%sorted_head_action.
Qed.

Lemma understood_cases user_query result :
  understood user_query result = fallback_intent user_query \/
  (shows (understood user_query result) = true /\
   exists answer clean, result = Some answer /\ answer <> "" /\
     SmartLocation.unfence answer = Some clean /\
     json_loads clean = Some (PDict (understood user_query result))).
Proof.
  unfold understood. destruct result as [[|c r]|]; [by left| |by left].
  destruct (SmartLocation.unfence (String c r)) as [clean|] eqn:Eu; [|by left].
  cbn [mbind option_bind].
  destruct (json_loads clean) as [[| | | | | |parsed]|] eqn:Ej; try by left.
  destruct (shows parsed) eqn:Es; [|by left].
  right. split; [done|]. by exists (String c r), clean.
Qed.

(** X26.  [intent_understanding_agent] raises, without a query, exactly when the
    number of previous results cannot be taken; otherwise it sends one query
    and returns a dict: the fallback intent, or the dict parsed from the
    cleaned answer of the model, whose filters it was able to display. *)
Theorem intent_understanding_agent_outcomes (store : string -> option DataFrame)
    (user_query : string) (previous_results : option previous) :
  let e := intent_understanding_agent intent_prompt user_query previous_results in
  (run store e = Raised <-> num_results previous_results = None) /\
  (queries store e = [] <-> num_results previous_results = None) /\
  (List.length (queries store e) <= 1)%nat /\
  (forall intent, run store e = Returned intent ->
     intent = fallback_intent user_query \/
     (shows intent = true /\
      exists n answer clean,
        run store (call_cortex (intent_prompt n user_query) (3 # 10)%Q) = Some answer /\
        SmartLocation.unfence answer = Some clean /\
        json_loads clean = Some (PDict intent))).
Proof.
  cbv zeta. unfold intent_understanding_agent.
  destruct (num_results previous_results) as [n|].
  - rewrite run_bind, queries_bind. cbn [run queries]. rewrite app_nil_r.
    split; [done|]. split; [|split].
    + split; [|done]. intros E.
      pose proof (call_cortex_one_query store (intent_prompt n user_query) (3 # 10)%Q) as Hq.
      by rewrite E in Hq.
    + by rewrite call_cortex_one_query.
    + intros intent [= <-].
      destruct (understood_cases user_query
                  (run store (call_cortex (intent_prompt n user_query) (3 # 10)%Q)))
        as [E|(Hs & answer & clean & Ea & _ & Eu & Ej)]; [by left|].
      right. split; [done|]. by exists n, answer, clean.
  - cbn [run queries]. repeat split; try done. simpl; lia.
Qed.

(** X27.  When the model gives no answer or an empty one,
    [intent_understanding_agent] returns the fallback intent, and
    [execute_intent] answers it with the action [unknown], whatever the
    previous results and the user location. *)
Theorem follow_up_without_model (store : string -> option DataFrame) (user_query : string)
    (previous_results : previous) (user_location : option pyval) (n : option nat) :
  num_results (Some previous_results) = Some n ->
  run store (call_cortex (intent_prompt n user_query) (3 # 10)%Q) = None \/
  run store (call_cortex (intent_prompt n user_query) (3 # 10)%Q) = Some "" ->
  run store (intent_understanding_agent intent_prompt user_query (Some previous_results))
  = Returned (fallback_intent user_query) /\
  execute_intent with_calc_dist (fallback_intent user_query) previous_results user_location
  = Returned (IntentAction "unknown"
                "Try: 'which is closest?', 'cheapest?', 'good for groups?'").
Proof.
  intros Hn Hrun. split.
  - unfold intent_understanding_agent. rewrite Hn, run_bind. cbn [run].
    by destruct Hrun as [-> | ->].
  - unfold execute_intent, fallback_intent, dict_get, dict_get_default.
    by simplify_map_eq.
Qed.

End WithBuiltins.

Lemma execute_intent_results_witness :
  exists results,
    execute_intent (H := Sample.builtins) Sample3.no_distance Sample3.safest_by_price
      (AsFrame Sample3.scored_frame) None
    = Returned (IntentResults results "show_cheapest" None) /\
    taken_from (AsFrame Sample3.scored_frame) 5 results.
Proof.
  destruct (execute_intent (H := Sample.builtins) Sample3.no_distance Sample3.safest_by_price
              (AsFrame Sample3.scored_frame) None) as [|[e|results action location|a m]] eqn:E;
    try (exfalso; vm_compute in E; discriminate).
  assert (action = "show_cheapest" /\ location = None) as [-> ->].
  { vm_compute in E. by injection E as _ <- <-. }
  exists results. split; [reflexivity|].
  destruct (execute_intent_results (H := Sample.builtins) Sample3.no_distance
              Sample3.safest_by_price (AsFrame Sample3.scored_frame) None results
              "show_cheapest" None sample_sort_permutes E)
    as [[[=] _]|(_ & _ & Ht)].
  exact Ht.
Defined.

Lemma sort_by_is_read_before_intent_type_witness :
  execute_intent (H := Sample.builtins) Sample3.no_distance Sample3.safest_by_price
    (AsFrame Sample3.scored_frame) None
  = sorted_head (H := Sample.builtins) (AsFrame Sample3.scored_frame)
      "PRICE_LEVEL" true 5 "show_cheapest".
Proof.
  exact (proj1 (sort_by_is_read_before_intent_type (H := Sample.builtins) Sample3.no_distance
                  Sample3.safest_by_price (AsFrame Sample3.scored_frame) None eq_refl)
           eq_refl).
Defined.

Lemma intent_understanding_agent_outcomes_witness :
  let e := intent_understanding_agent (H := Sample.builtins) Sample3.intent_prompt
             "cheapest one?" (Some (AsFrame Sample3.scored_frame)) in
  run (Sample3.answering "not json") e = Returned (fallback_intent "cheapest one?") /\
  List.length (queries (Sample3.answering "not json") e) = 1%nat.
Proof.
  cbv zeta.
  destruct (intent_understanding_agent_outcomes (H := Sample.builtins) Sample3.intent_prompt
              (Sample3.answering "not json") "cheapest one?"
              (Some (AsFrame Sample3.scored_frame))) as (_ & Hq0 & Hq1 & _).
  split; [vm_compute; reflexivity|].
  destruct (queries (Sample3.answering "not json")
              (intent_understanding_agent (H := Sample.builtins) Sample3.intent_prompt
                 "cheapest one?" (Some (AsFrame Sample3.scored_frame)))) as [|q l] eqn:E.
  - exfalso. by destruct (proj1 Hq0 eq_refl).
  - simpl in Hq1 |- *. destruct l; [reflexivity|simpl in Hq1; lia].
Defined.

Lemma follow_up_without_model_witness :
  run Sample3.unavailable
    (intent_understanding_agent (H := Sample.builtins) Sample3.intent_prompt
       "which is closest?"
       (Some (AsFrame Sample3.scored_frame)))
  = Returned (fallback_intent "which is closest?") /\
  execute_intent (H := Sample.builtins) Sample3.no_distance
    (fallback_intent "which is closest?") (AsFrame Sample3.scored_frame) None
  = Returned (IntentAction "unknown"
                "Try: 'which is closest?', 'cheapest?', 'good for groups?'").
Proof.
  exact (follow_up_without_model (H := Sample.builtins) Sample3.intent_prompt
           Sample3.no_distance Sample3.unavailable "which is closest?"
           (AsFrame Sample3.scored_frame) None (Some 6%nat) eq_refl (or_introl eq_refl)).
Defined.

End IntentFacts.

(** ** More on the neighbourhood table *)

Module GeoMoreFacts.
Import Geo.

Lemma geocode_in_first_match before neighborhood lat lon after location_name :
  Forall (fun entry => PyString.contains (fst entry) (PyString.lower location_name) = false)
         before ->
  PyString.contains neighborhood (PyString.lower location_name) = true ->
  geocode_in (before ++ (neighborhood, (lat, lon)) :: after)%list location_name
  = location_dict lat lon location_name.
Proof.
  intros Hb Hn. induction Hb as [|[n [la lo]] before Hx _ IH]; cbn [geocode_in app].
  - by rewrite Hn.
  - cbn [fst] in Hx. by rewrite Hx.
Qed.

(** X28.  The first neighbourhood of the table, in its order, that the lower-cased
    name contains gives the coordinates [geocode_location] returns, under the
    name as given; names that differ only in case get the same
    coordinates. *)
Theorem geocode_location_first_match (location_name : string)
    (before after : list (string * (Q * Q))) (neighborhood : string) (lat lon : Q) :
  BOSTON_NEIGHBORHOODS = (before ++ (neighborhood, (lat, lon)) :: after)%list ->
  Forall (fun entry => PyString.contains (fst entry) (PyString.lower location_name) = false)
         before ->
  PyString.contains neighborhood (PyString.lower location_name) = true ->
  geocode_location location_name = location_dict lat lon location_name /\
  forall other : string,
    PyString.lower other = PyString.lower location_name ->
    geocode_location other = location_dict lat lon other.
Proof.
  intros Ht Hb Hn. unfold geocode_location. rewrite Ht. split.
  - by apply geocode_in_first_match.
  - intros other Ho. apply geocode_in_first_match; by rewrite Ho.
Qed.

Lemma geocode_location_first_match_witness :
  geocode_location "Dorchester Ave near ROXBURY"
  = location_dict (423317 # 10000) (- 710828 # 10000) "Dorchester Ave near ROXBURY".
Proof.
  assert (Hb : Forall (fun entry =>
                 PyString.contains (fst entry)
                   (PyString.lower "Dorchester Ave near ROXBURY") = false)
                 (firstn 3 BOSTON_NEIGHBORHOODS)).
  { cbv [firstn BOSTON_NEIGHBORHOODS].
    repeat (apply Forall_cons; split; [vm_compute; reflexivity|]). apply Forall_nil_2. }
  assert (Hn : PyString.contains "roxbury" (PyString.lower "Dorchester Ave near ROXBURY")
               = true) by (vm_compute; reflexivity).
  exact (proj1 (geocode_location_first_match "Dorchester Ave near ROXBURY"
                  (firstn 3 BOSTON_NEIGHBORHOODS) (skipn 4 BOSTON_NEIGHBORHOODS)
                  "roxbury" (423317 # 10000)%Q (- 710828 # 10000)%Q eq_refl Hb Hn)).
Defined.

End GeoMoreFacts.

(** ** The pipeline before the writer *)

Module PipelineMoreFacts.
Import Orchestrator Frame Retriever Researcher InputValidator Pipeline.
Import EffFacts InputValidatorFacts.

Section WithBuiltins.
Context `{Builtins}.
Variable intent_check_prompt : string -> string.

Lemma retriever_agent_queries store user_query analyst_data user_location search_area top_k :
  let program := retriever_agent user_query analyst_data user_location search_area top_k in
  (List.length (queries store program) <= 2)%nat /\
  (is_successful (run store program) = true ->
   List.length (queries store program) = 2%nat).
Proof.
  cbv zeta. unfold retriever_agent.
  destruct (effective_location analyst_data search_area) as [[name mode]|];
    [|cbn; split; [lia|done]].
  destruct (neighborhood_condition name mode) as [nc|]; [|cbn; split; [lia|done]].
  cbn [run queries List.length].
  destruct (store (search_query _ _ _ _)) as [results_df|]; [|cbn; split; [lia|done]].
  destruct (Nat.eqb (len results_df) 0); [cbn; split; [lia|done]|].
  destruct (has_column results_df "RESTAURANT_ID"); cbn [negb];
    [|cbn; split; [lia|done]].
  cbn [run queries List.length].
  destruct (distance_step _ _ _ _) as [df'|]; cbn [run queries List.length];
    split; lia || done.
Qed.

Lemma researcher_data_success retriever_msg max_price min_safety attribute_filters df :
  data (researcher_agent retriever_msg max_price min_safety attribute_filters) = Some df ->
  status (researcher_agent retriever_msg max_price min_safety attribute_filters) = "success".
Proof.
  unfold researcher_agent.
  repeat (match goal with
          | |- context [match ?x with _ => _ end] => destruct x; try done
          end).
Qed.

Lemma validator_in_front store user_query :
  let v := InputValidator.input_validation_agent intent_check_prompt user_query in
  (~ passes_basic_checks user_query ->
   is_successful (run store v) = false /\ queries store v = []) /\
  (is_successful (run store v) = true ->
   passes_basic_checks user_query /\ List.length (queries store v) = 1%nat) /\
  (List.length (queries store v) <= 1)%nat.
Proof.
  cbv zeta.
  destruct (passes_basic_checks_dec user_query) as [Hp|Hn].
  - rewrite (agent_after_basic_checks intent_check_prompt user_query Hp).
    rewrite run_bind, queries_bind. cbn [run queries]. rewrite app_nil_r.
    rewrite call_cortex_one_query. split; [done|]. split; [done|lia].
  - destruct (agent_before_model intent_check_prompt user_query Hn) as (m & -> & Hm).
    cbn [run queries]. split; [|split].
    + intros _. by destruct Hm as [->|[->| ->]].
    + by destruct Hm as [->|[->| ->]].
    + simpl. lia.
Qed.

(** X29.  When sorting keeps the number of rows, the orchestrator up to the
    writer sends at most three queries.  A query that fails the basic checks
    ends it with [None] and no query.  When it reaches the writer, exactly
    three queries were sent, the retriever message is successful, the
    researcher message is the researcher's answer to it under the normalised
    filters, successful, with at least one row and at most the retriever's;
    the price bound is the one given unless that is [Any].  It raises only
    where the price bound cannot be read from [budget], after three queries. *)
Theorem orchestrator_front_outcomes (store : string -> option DataFrame)
    (user_query : string) (analyst_data : gmap string pyval)
    (user_location search_area : option (gmap string pyval))
    (max_price : pyval) (min_safety : Z) (filters : option (gmap string pyval)) :
  sort_values_keeps_rows ->
  let e := orchestrator_front intent_check_prompt user_query analyst_data user_location
             search_area max_price min_safety filters in
  (List.length (queries store e) <= 3)%nat /\
  (~ passes_basic_checks user_query ->
   run store e = Returned None /\ queries store e = []) /\
  (run store e = Raised ->
   effective_max_price analyst_data max_price = None /\
   List.length (queries store e) = 3%nat) /\
  (forall retriever_msg researcher_msg,
     run store e = Returned (Some (retriever_msg, researcher_msg)) ->
     passes_basic_checks user_query /\
     List.length (queries store e) = 3%nat /\
     is_successful retriever_msg = true /\
     status researcher_msg = "success" /\
     (0 < _safe_len (data researcher_msg) <= _safe_len (data retriever_msg))%nat /\
     exists price,
       effective_max_price analyst_data max_price = Some price /\
       (Retriever.py_eq_str max_price "Any" = false -> price = max_price) /\
       researcher_msg = researcher_agent (Some retriever_msg) price min_safety
                          (Some (_normalize_filters filters))).
Proof.
  intros Hsort. cbv zeta. unfold orchestrator_front.
  rewrite run_bind, queries_bind.
  destruct (validator_in_front store user_query) as (Hrej & Hacc & Hq1).
  cbv zeta in Hrej, Hacc, Hq1.
  destruct (is_successful (run store
              (InputValidator.input_validation_agent intent_check_prompt user_query)))
    eqn:Ev; cbn [negb].
  2:{ cbn [run queries]. rewrite app_nil_r. split; [lia|]. split; [|done].
      intros Hn. split; [done|]. by apply Hrej. }
  destruct (Hacc eq_refl) as [Hp Hq]. clear Hrej Hacc.
  rewrite run_bind, queries_bind, !List.length_app, Hq.
  pose proof (retriever_agent_queries store user_query analyst_data user_location
                search_area 20) as [Hr2 Hr].
  cbv zeta in Hr2, Hr.
  set (retr := run store (retriever_agent user_query analyst_data user_location
                            search_area 20)) in *.
  destruct (is_successful retr) eqn:Er; cbn [negb orb].
  2:{ cbn [run queries List.length]. split; [lia|]. split; [tauto|]. done. }
  specialize (Hr eq_refl).
  destruct (Nat.eqb (_safe_len (data retr)) 0) eqn:En.
  { cbn [run queries List.length]. split; [lia|]. split; [tauto|]. done. }
  destruct (effective_max_price analyst_data max_price) as [price|] eqn:Eprice.
  2:{ cbn [run queries List.length]. split; [lia|]. split; [tauto|].
      split; [|done]. intros _. split; [done|lia]. }
  pose proof (ResearcherFacts.researcher_agent_len retr price min_safety
                (Some (_normalize_filters filters)) Hsort) as Hlen.
  pose proof (researcher_data_success (Some retr) price min_safety
                (Some (_normalize_filters filters))) as Hsucc.
  set (res := researcher_agent (Some retr) price min_safety
                (Some (_normalize_filters filters))) in *.
  destruct (Nat.eqb (_safe_len (data res)) 0) eqn:Es.
  { cbn [run queries List.length]. split; [lia|]. split; [tauto|]. done. }
  cbn [run queries List.length]. split; [lia|]. split; [tauto|]. split; [done|].
  intros retriever_msg researcher_msg E.
  assert (retriever_msg = retr /\ researcher_msg = res) as [-> ->].
  { by injection E as <- <-. }
  clear E. apply Nat.eqb_neq in Es.
  split; [done|]. split; [lia|]. split; [done|]. split.
  { destruct (data res) as [df|] eqn:Ed; [|by cbn in Es]. by apply (Hsucc df). }
  split; [lia|]. exists price. split; [done|]. split; [|done].
  intros Hany. revert Eprice. unfold effective_max_price.
  destruct (dict_get_default analyst_data "budget" (PDict ∅)); try done.
  rewrite Hany, andb_false_r. by intros [= ->].
Qed.

End WithBuiltins.

Lemma orchestrator_front_outcomes_witness :
  sort_values_keeps_rows (H := Sample.builtins) /\
  exists retriever_msg researcher_msg,
    run Sample.single_master_store
      (orchestrator_front (H := Sample.builtins) Sample3.plain_prompt "pizza" ∅ None None
         (PStr "Any") 0 None)
    = Returned (Some (retriever_msg, researcher_msg)) /\
    List.length (queries Sample.single_master_store
      (orchestrator_front (H := Sample.builtins) Sample3.plain_prompt "pizza" ∅ None None
         (PStr "Any") 0 None)) = 3%nat /\
    status researcher_msg = "success".
Proof.
  split; [exact PipelineFacts.sample_sort_keeps_rows|].
  destruct (run Sample.single_master_store
      (orchestrator_front (H := Sample.builtins) Sample3.plain_prompt "pizza" ∅ None None
         (PStr "Any") 0 None)) as [|[[retriever_msg researcher_msg]|]] eqn:E.
  1, 3: exfalso; vm_compute in E; discriminate.
  exists retriever_msg, researcher_msg. split; [reflexivity|].
  destruct (orchestrator_front_outcomes (H := Sample.builtins) Sample3.plain_prompt
              Sample.single_master_store "pizza" ∅ None None (PStr "Any") 0 None
              PipelineFacts.sample_sort_keeps_rows) as (_ & _ & _ & Hok).
  destruct (Hok retriever_msg researcher_msg E) as (_ & Hq & _ & Hs & _).
  split; [exact Hq|exact Hs].
Defined.

End PipelineMoreFacts.
